(** * Trading-bot back end: session manager, bot runtime, copy-trade replicator

    A shallow embedding of the three services of the back end and of the
    indicator functions they share:

    - [Indicators]          the pure indicator functions of [BotExecutor]
                            (SMA, EMA, RSI, MACD, Bollinger bands);
    - [Session]             [DerivWebSocketManager]: one streaming connection
                            per user, message queue, reconnect timers, inbound
                            dispatch;
    - [CopyTradeService]    follower registry, stake policy, fan-out of a
                            leader's buy confirmation, per-trade listeners;
    - [CopyTradeController] the follow, unfollow and settings endpoints;
    - [BotExecutor]         tick-driven evaluation, trade placement and
                            settlement of the active bot contexts.

    Conventions.  A JavaScript number is an exact rational ([Q]), except
    in [Binary64], which has the moving average and the Bollinger bands on
    IEEE 754 doubles, rounding included; [undefined] and [null] are [None].  A JavaScript [Map] keyed by user id
    is a [gmap]; a [Map] or [Set] whose iteration order the code relies on
    is a list in insertion order.  A handler runs as one step, except
    [placeTrade] of the bot runtime, which is split at its two [await]s on
    the persistence layer: the rest of the call is a pending continuation
    that a later input resumes, so that ticks can arrive in between. *)

From Stdlib Require PrimFloat.
From Stdlib Require Import QArith Qabs Qminmax Lqa Lia List String ZArith Bool.
From stdpp Require Import gmap strings list fin_maps.

Open Scope Q_scope.

(** ** JavaScript numbers *)

Module JS.

(** [x < y] on numbers. *)
Definition ltb (x y : Q) : bool := negb (Qle_bool y x).

(** [x >= y] on numbers. *)
Definition geb (x y : Q) : bool := Qle_bool y x.

(** Truthiness of a number: everything but [0] (and [NaN], which the
    rationals do not have). *)
Definition truthy_num (x : Q) : bool := negb (Qeq_bool x 0).

(** Truthiness of a possibly missing number: [!x] is true on [undefined],
    [null] and [0]. *)
Definition truthy (x : option Q) : bool :=
  match x with
  | Some q => truthy_num q
  | None => false
  end.

(** [Array.prototype.slice(-n)]: the last [n] elements, the whole array
    when it is shorter; [slice(-0)] is [slice(0)], the whole array. *)
Definition slice_last {A} (n : nat) (l : list A) : list A :=
  match n with
  | O => l
  | _ => skipn (length l - n) l
  end.

(** Division by an array length or a period. *)
Definition of_nat (n : nat) : Q := inject_Z (Z.of_nat n).

End JS.

(** ** Indicator library *)

Module Indicators.
Section WithSqrt.

(** [Math.sqrt] is a primitive of the host; the functions below take it as
    given. *)
Variable Math_sqrt : Q -> Q.

(** [calculateSMA]: mean of the last [period] prices, [null] when there are
    fewer.  The sum and the quotient are exact here; [Binary64.calculateSMA]
    has them rounded as the host rounds them. *)
Definition calculateSMA (prices : list Q) (period : nat) : option Q :=
  if (length prices <? period)%nat then None
  else
    let slice := JS.slice_last period prices in
    Some (fold_left (fun sum price => sum + price) slice 0 / JS.of_nat period).

(** [calculateEMA]: seeded with the first price, then
    [ema = (price - ema) * multiplier + ema] over the rest.  On an empty
    array with [period = 0] the source returns [prices[0]], [undefined].
    The fraction is reduced at each turn ([Qred] does not change the
    number); without it the denominator is squared at each turn.  The
    arithmetic is exact: the host rounds each turn of the loop. *)
Definition calculateEMA (prices : list Q) (period : nat) : option Q :=
  if (length prices <? period)%nat then None
  else
    let multiplier := 2 / (JS.of_nat period + 1) in
    match prices with
    | [] => None
    | p0 :: rest =>
        Some (fold_left (fun ema price => Qred ((price - ema) * multiplier + ema)) rest p0)
    end.

(** One turn of the loop of [calculateRSI] at index [i]. *)
Definition rsi_step (prices : list Q) (acc : Q * Q) (i : nat) : Q * Q :=
  let '(gains, losses) := acc in
  let change := nth i prices 0 - nth (i - 1) prices 0 in
  if JS.ltb 0 change then (gains + change, losses)
  else (gains, losses - change).

(** [calculateRSI]: the loop runs over [i = length - period .. length - 1]. *)
Definition calculateRSI (prices : list Q) (period : nat) : option Q :=
  if (length prices <? period + 1)%nat then None
  else
    let '(gains, losses) :=
      fold_left (rsi_step prices) (seq (length prices - period) period) (0, 0) in
    let avgGain := gains / JS.of_nat period in
    let avgLoss := losses / JS.of_nat period in
    if Qeq_bool avgLoss 0 then Some 100
    else
      let rs := avgGain / avgLoss in
      Some (100 - 100 / (1 + rs)).

Record MACD := { macd : Q; signal : Q; histogram : Q }.

(** [calculateMACD]: [!ema12 || !ema26] also holds when an average is [0]. *)
Definition calculateMACD (prices : list Q) : option MACD :=
  let ema12 := calculateEMA prices 12 in
  let ema26 := calculateEMA prices 26 in
  match ema12, ema26 with
  | Some e12, Some e26 =>
      if negb (JS.truthy_num e12) || negb (JS.truthy_num e26) then None
      else
        let macdLine := e12 - e26 in
        Some {| macd := macdLine; signal := macdLine; histogram := 0 |}
  | _, _ => None
  end.

Record Bands := { upper : Q; middle : Q; lower : Q }.

(** The variance computed by [calculateBollingerBands] around [sma]. *)
Definition variance_around (sma : Q) (slice : list Q) (period : nat) : Q :=
  fold_left (fun sum price => sum + (price - sma) ^ 2) slice 0 / JS.of_nat period.

(** [calculateBollingerBands]: [if (!sma) return null] returns [null] both
    when there are too few prices and when the mean is [0].  The arithmetic
    is exact and the square root is a parameter; the bands as the host
    computes them are [Binary64.calculateBollingerBands]. *)
Definition calculateBollingerBands (prices : list Q) (period : nat) (stdDev : Q)
  : option Bands :=
  match calculateSMA prices period with
  | None => None
  | Some sma =>
      if negb (JS.truthy_num sma) then None
      else
        let slice := JS.slice_last period prices in
        let variance := variance_around sma slice period in
        let standardDeviation := Math_sqrt variance in
        Some {| upper := sma + standardDeviation * stdDev;
                middle := sma;
                lower := sma - standardDeviation * stdDev |}
  end.

Record IndicatorSet := {
  currentPrice : option Q;
  sma20 : option Q;
  ema12 : option Q;
  ema26 : option Q;
  rsi : option Q;
  macdOf : option MACD;
  bollinger : option Bands
}.

(** [calculateIndicators] over the quotes of a tick buffer: nothing below
    20 ticks, then the indicators of the last 50 quotes. *)
Definition calculateIndicators (quotes : list Q) : option IndicatorSet :=
  if (length quotes <? 20)%nat then None
  else
    let prices := quotes in
    let closePrices := JS.slice_last 50 prices in
    Some {| currentPrice := last prices;
            sma20 := calculateSMA closePrices 20;
            ema12 := calculateEMA closePrices 12;
            ema26 := calculateEMA closePrices 26;
            rsi := calculateRSI closePrices 14;
            macdOf := calculateMACD closePrices;
            bollinger := calculateBollingerBands closePrices 20 2 |}.

End WithSqrt.
End Indicators.

(** ** The moving average and the bands on doubles *)

(** A JavaScript number is an IEEE 754 binary64 value and every operation
    on numbers rounds to nearest, ties to even.  This is [calculateSMA] and
    [calculateBollingerBands] with that arithmetic. *)
Module Binary64.
Import PrimFloat.
Local Open Scope float_scope.

(** A period or an array length as a number: the sum of [n] ones, which is
    exact for every length an array can have. *)
Definition of_nat (n : nat) : float := Nat.iter n (fun x => x + one) zero.

(** Truthiness of a number: everything but [0], [-0] and [NaN]. *)
Definition truthy_num (x : float) : bool := negb ((x =? zero) || is_nan x).

(** [Math.pow(x, 2)], taken as the correctly rounded square of [x]. *)
Definition Math_pow2 (x : float) : float := x * x.

(** [calculateSMA]. *)
Definition calculateSMA (prices : list float) (period : nat) : option float :=
  if (length prices <? period)%nat then None
  else
    let slice := JS.slice_last period prices in
    Some (fold_left (fun sum price => sum + price) slice zero / of_nat period).

Record Bands := { upper : float; middle : float; lower : float }.

(** [calculateBollingerBands]; [Math.sqrt] is the correctly rounded square
    root. *)
Definition calculateBollingerBands (prices : list float) (period : nat) (stdDev : float)
  : option Bands :=
  match calculateSMA prices period with
  | None => None
  | Some sma =>
      if negb (truthy_num sma) then None
      else
        let slice := JS.slice_last period prices in
        let variance :=
          fold_left (fun sum price => sum + Math_pow2 (price - sma)) slice zero
          / of_nat period in
        let standardDeviation := sqrt variance in
        Some {| upper := sma + standardDeviation * stdDev;
                middle := sma;
                lower := sma - standardDeviation * stdDev |}
  end.

End Binary64.

(** ** Session manager ([DerivWebSocketManager]) *)

Module Session.

(** Decoded inbound frames: the values [JSON.parse] produces.  An object
    is its list of fields, one value per key. *)
#[warnings="-register-all"] Inductive JSON :=
| JNull
| JBool (b : bool)
| JNum (q : Q)
| JStr (s : string)
| JArr (items : list JSON)
| JObj (fields : list (string * JSON)).

Definition truthy (v : JSON) : bool :=
  match v with
  | JNull => false
  | JBool b => b
  | JNum q => JS.truthy_num q
  | JStr s => negb (String.eqb s EmptyString)
  | JArr _ => true
  | JObj _ => true
  end.

Fixpoint assoc (key : string) (fields : list (string * JSON)) : option JSON :=
  match fields with
  | [] => None
  | (k, v) :: rest => if String.eqb k key then Some v else assoc key rest
  end.

(** [message.key]: [undefined] on a missing key and on a value that is not
    an object. *)
Definition field (key : string) (message : JSON) : option JSON :=
  match message with
  | JObj fields => assoc key fields
  | _ => None
  end.

(** [if (message.key)]. *)
Definition present (key : string) (message : JSON) : option JSON :=
  match field key message with
  | Some v => if truthy v then Some v else None
  | None => None
  end.

(** Outbound messages, one constructor per message shape the manager
    builds. *)
Inductive Message :=
| MsgAuthorize (token : string)
| MsgBalance
| MsgPortfolio
| MsgStatement (limit : nat)
| MsgTicks (symbol : string)
| MsgForget (symbol : string)
| MsgProposal (amount : Q) (contract_type currency : string) (duration : Q)
              (duration_unit symbol : string)
| MsgBuy (buy : option Z) (price : Q)
| MsgOpenContract (contract_id : option Z)
| MsgPing.

(** [message.authorize] as a condition: an authorize message with a
    non-empty token. *)
Definition has_authorize (m : Message) : bool :=
  match m with
  | MsgAuthorize token => negb (String.eqb token EmptyString)
  | _ => false
  end.

Inductive Emitted :=
| EvAuthenticated (userId : string) (accountInfo : JSON)
| EvBalance (userId : string) (balance : JSON)
| EvPortfolio (userId : string) (portfolio : JSON)
| EvStatement (userId : string) (statement : JSON)
| EvTick (userId : string) (tick : JSON)
| EvProposal (userId : string) (proposal : JSON)
| EvBuy (userId : string) (buy : JSON)
| EvContractUpdate (userId : string) (contract : JSON)
| EvApiError (userId : string) (error : JSON)
| EvMaxReconnectFailed (userId : string).

Inductive ReadyState := CONNECTING | OPEN | CLOSING | CLOSED.

Definition is_open (r : ReadyState) : bool :=
  match r with OPEN => true | _ => false end.

(** A transport created by [new WebSocket]: its state, what was written to
    it, and the user id and token its event handlers closed over. *)
Record Socket := {
  readyState : ReadyState;
  owner : string;
  ownerToken : string;
  wire : list Message
}.

Record connectionData := {
  ws : nat;
  userId : string;
  token : string;
  isAuthenticated : bool;
  subscriptions : list string;
  messageQueue : list Message;
  lastPing : Z
}.

(** The manager: its two maps, the transports it created (a transport is
    named by its position), the reconnect timers waiting to fire (user id
    and delay in milliseconds) and the events emitted so far. *)
Record State := {
  connections : gmap string connectionData;
  reconnectAttempts : gmap string nat;
  sockets : list Socket;
  timers : list (string * Z);
  emitted : list Emitted
}.

Definition maxReconnectAttempts : nat := 5.
Definition reconnectDelay : Z := 3000.

Definition init : State :=
  {| connections := ∅; reconnectAttempts := ∅; sockets := [];
     timers := []; emitted := [] |}.

Definition with_connections (f : gmap string connectionData -> gmap string connectionData)
           (st : State) : State :=
  {| connections := f (connections st);
     reconnectAttempts := reconnectAttempts st;
     sockets := sockets st; timers := timers st; emitted := emitted st |}.

Definition with_attempts (f : gmap string nat -> gmap string nat) (st : State) : State :=
  {| connections := connections st;
     reconnectAttempts := f (reconnectAttempts st);
     sockets := sockets st; timers := timers st; emitted := emitted st |}.

Definition with_sockets (f : list Socket -> list Socket) (st : State) : State :=
  {| connections := connections st;
     reconnectAttempts := reconnectAttempts st;
     sockets := f (sockets st); timers := timers st; emitted := emitted st |}.

Definition with_timers (f : list (string * Z) -> list (string * Z)) (st : State) : State :=
  {| connections := connections st;
     reconnectAttempts := reconnectAttempts st;
     sockets := sockets st; timers := f (timers st); emitted := emitted st |}.

(** [this.emit(...)]: the event is appended to the log. *)
Definition emit (e : Emitted) (st : State) : State :=
  {| connections := connections st;
     reconnectAttempts := reconnectAttempts st;
     sockets := sockets st; timers := timers st;
     emitted := emitted st ++ [e] |}.

Definition set_readyState (r : ReadyState) (s : Socket) : Socket :=
  {| readyState := r; owner := owner s; ownerToken := ownerToken s; wire := wire s |}.

Definition write (m : Message) (s : Socket) : Socket :=
  {| readyState := readyState s; owner := owner s; ownerToken := ownerToken s;
     wire := wire s ++ [m] |}.

Definition enqueue (m : Message) (c : connectionData) : connectionData :=
  {| ws := ws c; userId := userId c; token := token c;
     isAuthenticated := isAuthenticated c; subscriptions := subscriptions c;
     messageQueue := messageQueue c ++ [m]; lastPing := lastPing c |}.

Definition set_queue (q : list Message) (c : connectionData) : connectionData :=
  {| ws := ws c; userId := userId c; token := token c;
     isAuthenticated := isAuthenticated c; subscriptions := subscriptions c;
     messageQueue := q; lastPing := lastPing c |}.

Definition set_authenticated (c : connectionData) : connectionData :=
  {| ws := ws c; userId := userId c; token := token c;
     isAuthenticated := true; subscriptions := subscriptions c;
     messageQueue := messageQueue c; lastPing := lastPing c |}.

Definition set_lastPing (now : Z) (c : connectionData) : connectionData :=
  {| ws := ws c; userId := userId c; token := token c;
     isAuthenticated := isAuthenticated c; subscriptions := subscriptions c;
     messageQueue := messageQueue c; lastPing := now |}.

Definition set_subscriptions (s : list string) (c : connectionData) : connectionData :=
  {| ws := ws c; userId := userId c; token := token c;
     isAuthenticated := isAuthenticated c; subscriptions := s;
     messageQueue := messageQueue c; lastPing := lastPing c |}.

(** [connection.ws.readyState === OPEN]. *)
Definition socket_open (st : State) (c : connectionData) : bool :=
  match sockets st !! ws c with
  | Some s => is_open (readyState s)
  | None => false
  end.

(** [send]: queued while the session is not authenticated (unless the
    message is the authorize request) or the transport is not open. *)
Definition send (uid : string) (message : Message) (st : State) : State * bool :=
  match connections st !! uid with
  | None => (st, false)
  | Some connection =>
      if negb (isAuthenticated connection) && negb (has_authorize message) then
        (with_connections (insert uid (enqueue message connection)) st, false)
      else if socket_open st connection then
        (with_sockets (alter (write message) (ws connection)) st, true)
      else
        (with_connections (insert uid (enqueue message connection)) st, false)
  end.

(** The [while] loop of [processMessageQueue]; it stops on an empty queue.
    [fuel] bounds the number of turns. *)
Fixpoint drain (fuel : nat) (uid : string) (st : State) : option State :=
  match connections st !! uid with
  | None => Some st
  | Some connection =>
      match messageQueue connection with
      | [] => Some st
      | message :: rest =>
          match fuel with
          | O => None
          | S fuel' =>
              let st1 := with_connections (insert uid (set_queue rest connection)) st in
              drain fuel' uid (fst (send uid message st1))
          end
      end
  end.

(** [processMessageQueue].  A turn of the loop either writes the message
    or puts it back at the end of the queue, so the loop returns within as
    many turns as there are queued messages or not at all ([None]). *)
Definition processMessageQueue (uid : string) (st : State) : option State :=
  match connections st !! uid with
  | None => Some st
  | Some connection =>
      if negb (isAuthenticated connection) then Some st
      else drain (length (messageQueue connection)) uid st
  end.

Definition subscribeToInitialData (uid : string) (st : State) : State :=
  let st1 := fst (send uid MsgBalance st) in
  let st2 := fst (send uid MsgPortfolio st1) in
  fst (send uid (MsgStatement 50) st2).

Definition authenticate (uid : string) (tok : string) (st : State) : State :=
  fst (send uid (MsgAuthorize tok) st).

(** [if (message.key) this.emit(name, ...)]. *)
Definition emit_if (uid key : string) (mk : string -> JSON -> Emitted) (message : JSON)
           (st : State) : State :=
  match present key message with
  | Some v => emit (mk uid v) st
  | None => st
  end.

(** The branch of [handleMessage] on the authorize response. *)
Definition on_authorize (uid : string) (message : JSON) (st : State) : option State :=
  match present "authorize" message with
  | None => Some st
  | Some accountInfo =>
      let st1 := with_connections (alter set_authenticated uid) st in
      let st2 := emit (EvAuthenticated uid accountInfo) st1 in
      match processMessageQueue uid st2 with
      | None => None
      | Some st3 => Some (subscribeToInitialData uid st3)
      end
  end.

(** The branch of [handleMessage] on a ping. *)
Definition on_ping (uid : string) (message : JSON) (now : Z) (st : State) : State :=
  match present "ping" message with
  | None => st
  | Some _ =>
      let st1 := fst (send uid MsgPing st) in
      with_connections (alter (set_lastPing now) uid) st1
  end.

(** [handleMessage] on a decoded frame.  Reading a property of [null] throws;
    the [catch] of the method logs and returns.  The tests on the recognised
    keys are a sequence of independent [if] statements.  [None]: the call
    does not return (see [processMessageQueue]). *)
Definition handleMessage (uid : string) (message : JSON) (now : Z) (st : State)
  : option State :=
  match connections st !! uid with
  | None => Some st
  | Some _ =>
      match message with
      | JNull => Some st
      | _ =>
          match on_authorize uid message st with
          | None => None
          | Some st1 =>
              let st2 := emit_if uid "balance" EvBalance message st1 in
              let st3 := emit_if uid "portfolio" EvPortfolio message st2 in
              let st4 := emit_if uid "statement" EvStatement message st3 in
              let st5 := emit_if uid "tick" EvTick message st4 in
              let st6 := emit_if uid "proposal" EvProposal message st5 in
              let st7 := emit_if uid "buy" EvBuy message st6 in
              let st8 := emit_if uid "proposal_open_contract" EvContractUpdate message st7 in
              let st9 := emit_if uid "error" EvApiError message st8 in
              Some (on_ping uid message now st9)
          end
      end
  end.

(** A JavaScript [Set] of strings in insertion order. *)
Definition set_add (x : string) (s : list string) : list string :=
  if bool_decide (x ∈ s) then s else s ++ [x].

Definition set_delete (x : string) (s : list string) : list string :=
  filter (fun y => y ≠ x) s.

Definition subscribeTicks (uid symbol : string) (st : State) : State :=
  match connections st !! uid with
  | None => st
  | Some _ =>
      let st1 := fst (send uid (MsgTicks symbol) st) in
      with_connections
        (alter (fun c => set_subscriptions (set_add ("ticks_" ++ symbol) (subscriptions c)) c) uid)
        st1
  end.

Definition unsubscribeTicks (uid symbol : string) (st : State) : State :=
  match connections st !! uid with
  | None => st
  | Some _ =>
      let st1 := fst (send uid (MsgForget symbol) st) in
      with_connections
        (alter (fun c => set_subscriptions (set_delete ("ticks_" ++ symbol) (subscriptions c)) c) uid)
        st1
  end.

(** The parameters of [getProposal]; a missing or empty currency or duration
    type takes its default. *)
Record ProposalParams := {
  contractType : string;
  symbol : string;
  stake : Q;
  duration : Q;
  durationType : option string;
  currency : option string
}.

Definition or_default (o : option string) (d : string) : string :=
  match o with
  | Some s => if String.eqb s EmptyString then d else s
  | None => d
  end.

Definition getProposal (uid : string) (params : ProposalParams) (st : State) : State :=
  fst (send uid
         (MsgProposal (stake params) (contractType params)
                      (or_default (currency params) "USD")
                      (duration params)
                      (or_default (durationType params) "t")
                      (symbol params))
         st).

(** [buyContract]: the id is [params.proposalId || params.contractId]. *)
Definition buyContract (uid : string) (proposalId contractId : option Z) (price : Q)
           (st : State) : State :=
  let id := match proposalId with
            | Some p => if (p =? 0)%Z then contractId else Some p
            | None => contractId
            end in
  fst (send uid (MsgBuy id price) st).

Definition subscribeToContract (uid : string) (contractId : option Z) (st : State) : State :=
  fst (send uid (MsgOpenContract contractId) st).

(** [disconnect]: closes an open transport and forgets the session. *)
Definition disconnect (uid : string) (st : State) : State :=
  match connections st !! uid with
  | None => st
  | Some connection =>
      let st1 :=
        if socket_open st connection
        then with_sockets (alter (set_readyState CLOSING) (ws connection)) st
        else st in
      with_attempts (delete uid) (with_connections (delete uid) st1)
  end.

(** [connect]: drops the session the user has, creates a transport and a
    fresh session on it, and sets the reconnect counter to [0]. *)
Definition connect (uid : string) (derivToken : string) (now : Z) (st : State) : State :=
  let st1 := match connections st !! uid with
             | Some _ => disconnect uid st
             | None => st
             end in
  let sock := {| readyState := CONNECTING; owner := uid; ownerToken := derivToken;
                 wire := [] |} in
  let connection := {| ws := length (sockets st1); userId := uid; token := derivToken;
                       isAuthenticated := false; subscriptions := [];
                       messageQueue := []; lastPing := now |} in
  let st2 := with_sockets (fun l => l ++ [sock]) st1 in
  with_attempts (insert uid O) (with_connections (insert uid connection) st2).

(** [handleDisconnect]: below the ceiling a reconnect timer is set and the
    counter goes up; at the ceiling the manager gives up on the session. *)
Definition handleDisconnect (uid : string) (st : State) : State :=
  let attempts := default O (reconnectAttempts st !! uid) in
  if (attempts <? maxReconnectAttempts)%nat then
    let st1 := with_attempts (insert uid (attempts + 1)%nat) st in
    with_timers (fun l => l ++ [(uid, (reconnectDelay * Z.of_nat (attempts + 1))%Z)]) st1
  else
    let st1 := emit (EvMaxReconnectFailed uid) st in
    with_attempts (delete uid) (with_connections (delete uid) st1).

(** The callback of a reconnect timer. *)
Definition reconnectTimer (uid : string) (now : Z) (st : State) : State :=
  match connections st !! uid with
  | Some connection =>
      if negb (String.eqb (token connection) EmptyString)
      then connect uid (token connection) now st
      else st
  | None => st
  end.

Definition isConnected (uid : string) (st : State) : bool :=
  match connections st !! uid with
  | Some connection => socket_open st connection && isAuthenticated connection
  | None => false
  end.

(** The body of the loop of [healthCheck] for one session. *)
Definition healthCheckOne (uid : string) (now : Z) (st : State) : State :=
  match connections st !! uid with
  | None => st
  | Some connection =>
      if (60000 <? now - lastPing connection)%Z then handleDisconnect uid st
      else if socket_open st connection then fst (send uid MsgPing st)
      else st
  end.

(** What happens to the manager: calls of its methods, events of the
    transports it created, and reconnect timers firing. *)
Inductive Input :=
| Connect (uid token : string) (now : Z)
| Disconnect (uid : string)
| Send (uid : string) (message : Message)
| SubscribeTicks (uid symbol : string)
| UnsubscribeTicks (uid symbol : string)
| SocketOpen (sock : nat)
| SocketMessage (sock : nat) (data : JSON) (now : Z)
| SocketError (sock : nat)
| SocketClose (sock : nat)
| TimerFires (index : nat) (now : Z)
| HealthCheck (uid : string) (now : Z).

(** One input.  A transport event runs the handler [connect] installed on
    that transport, with the user id and token of that call.  [None]: the
    handler does not return.  The handler of the transport's error event
    logs and emits [error] on the manager; no listener for [error] is
    attached anywhere in the sources, and an emitter throws on an [error]
    event nobody listens to, so that handler does not return either. *)
Definition step (st : State) (i : Input) : option State :=
  match i with
  | Connect uid tok now => Some (connect uid tok now st)
  | Disconnect uid => Some (disconnect uid st)
  | Send uid message => Some (fst (send uid message st))
  | SubscribeTicks uid symbol => Some (subscribeTicks uid symbol st)
  | UnsubscribeTicks uid symbol => Some (unsubscribeTicks uid symbol st)
  | SocketOpen sock =>
      match sockets st !! sock with
      | Some s =>
          let st1 := with_sockets (alter (set_readyState OPEN) sock) st in
          Some (authenticate (owner s) (ownerToken s) st1)
      | None => Some st
      end
  | SocketMessage sock data now =>
      match sockets st !! sock with
      | Some s => handleMessage (owner s) data now st
      | None => Some st
      end
  | SocketError sock =>
      match sockets st !! sock with
      | Some _ => None
      | None => Some st
      end
  | SocketClose sock =>
      match sockets st !! sock with
      | Some s =>
          let st1 := with_sockets (alter (set_readyState CLOSED) sock) st in
          Some (handleDisconnect (owner s) st1)
      | None => Some st
      end
  | TimerFires index now =>
      match timers st !! index with
      | Some (uid, _) =>
          Some (reconnectTimer uid now (with_timers (delete index) st))
      | None => Some st
      end
  | HealthCheck uid now => Some (healthCheckOne uid now st)
  end.

Fixpoint run (st : State) (inputs : list Input) : option State :=
  match inputs with
  | [] => Some st
  | i :: rest =>
      match step st i with
      | Some st' => run st' rest
      | None => None
      end
  end.

(** [closeAll]: [disconnect] for every user with a session, in the order
    of the keys of the map.  A call touches the entries of its user in the
    two maps and the transport of its session only. *)
Definition closeAll (st : State) : State :=
  fold_left (fun s uid => disconnect uid s) (map fst (map_to_list (connections st))) st.

(** [getActiveConnectionCount]: the sessions whose transport is open. *)
Definition getActiveConnectionCount (st : State) : nat :=
  length (List.filter (fun kc => socket_open st (snd kc)) (map_to_list (connections st))).

End Session.

(** ** Persistence collaborator *)

Module Store.

(** Modelled from the spec: the trade model ([models/Trade]) is not part of
    the sources.  A trade record has the fields the services read and write:
    identity, owning user, optional originating bot, symbol, contract type,
    entry price, stake, duration, status, contract id, payout, exit price,
    realised profit or loss, and the copy-trade provenance (leader id and
    source trade id). *)
Record Trade := {
  _id : nat;
  userId : string;
  botId : option string;
  symbol : string;
  contractType : string;
  entryPrice : option Q;
  stake : Q;
  duration : Q;
  durationType : option string;
  status : string;
  contractId : option Z;
  payout : option Q;
  exitPrice : option Q;
  profitLoss : option Q;
  isCopyTrade : bool;
  copyTradeFrom : option string;
  originalTradeId : option nat
}.

(** Modelled from the spec: the collection of trade records; [create] gives
    a record the next free identity and records are never deleted, so a
    record's identity is its position. *)
Definition create (draft : Trade) (trades : list Trade) : list Trade * Trade :=
  let t := {| _id := length trades; userId := userId draft; botId := botId draft;
              symbol := symbol draft; contractType := contractType draft;
              entryPrice := entryPrice draft; stake := stake draft;
              duration := duration draft; durationType := durationType draft;
              status := status draft; contractId := contractId draft;
              payout := payout draft; exitPrice := exitPrice draft;
              profitLoss := profitLoss draft; isCopyTrade := isCopyTrade draft;
              copyTradeFrom := copyTradeFrom draft;
              originalTradeId := originalTradeId draft |} in
  (trades ++ [t], t).

(** Modelled from the spec: [findById] on the trade collection. *)
Definition findById (id : nat) (trades : list Trade) : option Trade := trades !! id.

(** Modelled from the spec: [findOne] returns the first record that meets the
    condition. *)
Definition findOne (cond : Trade -> bool) (trades : list Trade) : option Trade :=
  List.find cond trades.

Definition same_contract (a b : option Z) : bool := bool_decide (a = b).

(** The writes of [handleBuyConfirmation] to a trade record. *)
Definition opened (cid : option Z) (pay : option Q) (t : Trade) : Trade :=
  {| _id := _id t; userId := userId t; botId := botId t; symbol := symbol t;
     contractType := contractType t; entryPrice := entryPrice t; stake := stake t;
     duration := duration t; durationType := durationType t;
     status := "open"; contractId := cid; payout := pay;
     exitPrice := exitPrice t; profitLoss := profitLoss t;
     isCopyTrade := isCopyTrade t; copyTradeFrom := copyTradeFrom t;
     originalTradeId := originalTradeId t |}.

(** The writes of [handleContractUpdate] to a trade record. *)
Definition closed (exit : option Q) (st : string) (pl : option Q) (t : Trade) : Trade :=
  {| _id := _id t; userId := userId t; botId := botId t; symbol := symbol t;
     contractType := contractType t; entryPrice := entryPrice t; stake := stake t;
     duration := duration t; durationType := durationType t;
     status := st; contractId := contractId t; payout := payout t;
     exitPrice := exit; profitLoss := pl;
     isCopyTrade := isCopyTrade t; copyTradeFrom := copyTradeFrom t;
     originalTradeId := originalTradeId t |}.

(** The settlement frame of a contract, decoded. *)
Record Contract := {
  contract_id : option Z;
  is_sold : bool;
  c_status : string;
  profit : Q;
  exit_tick : option Q;
  current_spot : option Q
}.

(** [contract.is_sold || contract.status === 'won' || contract.status === 'lost']. *)
Definition finished (c : Contract) : bool :=
  is_sold c || String.eqb (c_status c) "won" || String.eqb (c_status c) "lost".

Record CopyTradeSettings := {
  enabled : bool;
  investmentPerTrade : option Q;
  riskPercentage : option Q;
  maxDailyLoss : option Q
}.

(** Modelled from the spec: the user model ([models/User]) is not part of the
    sources.  A user record has the fields the replicator reads. *)
Record User := {
  u_id : string;
  copyTradeSettings : CopyTradeSettings;
  following : list string;
  balance : Q;
  currency : option string
}.

(** The answer of the collaborator to a query: a record, nothing, or a
    rejected promise. *)
Inductive Lookup (A : Type) :=
| Resolved (a : option A)
| Rejected.
Arguments Resolved {A} a.
Arguments Rejected {A}.

End Store.

(** ** Copy-trade replicator ([CopyTradeService]) *)

Module CopyTradeService.
Import Store.

(** The service: its two maps, the per-trade settlement listeners it has
    attached to the session manager (follower id and trade id, in the order
    of attachment), the trade collection and the session manager. *)
Record State := {
  followers : gmap string (list string);
  dailyLoss : gmap string Q;
  listeners : list (string * nat);
  trades : list Trade;
  wsm : Session.State
}.

(** What the persistence collaborator answers during one call. *)
Record Env := {
  findUser : string -> Lookup User;
  findTradeRejects : bool;
  createRejects : string -> bool
}.

Definition with_followers (f : gmap string (list string) -> gmap string (list string))
           (st : State) : State :=
  {| followers := f (followers st); dailyLoss := dailyLoss st;
     listeners := listeners st; trades := trades st; wsm := wsm st |}.

Definition with_dailyLoss (f : gmap string Q -> gmap string Q) (st : State) : State :=
  {| followers := followers st; dailyLoss := f (dailyLoss st);
     listeners := listeners st; trades := trades st; wsm := wsm st |}.

Definition with_listeners (f : list (string * nat) -> list (string * nat)) (st : State)
  : State :=
  {| followers := followers st; dailyLoss := dailyLoss st;
     listeners := f (listeners st); trades := trades st; wsm := wsm st |}.

Definition with_trades (f : list Trade -> list Trade) (st : State) : State :=
  {| followers := followers st; dailyLoss := dailyLoss st;
     listeners := listeners st; trades := f (trades st); wsm := wsm st |}.

Definition with_wsm (f : Session.State -> Session.State) (st : State) : State :=
  {| followers := followers st; dailyLoss := dailyLoss st;
     listeners := listeners st; trades := trades st; wsm := f (wsm st) |}.

Definition registerFollower (followerId leaderId : string) (st : State) : State :=
  let set := default [] (followers st !! leaderId) in
  let st1 := with_followers (insert leaderId (Session.set_add followerId set)) st in
  with_dailyLoss (insert followerId 0) st1.

Definition unregisterFollower (followerId leaderId : string) (st : State) : State :=
  match followers st !! leaderId with
  | Some set =>
      with_followers (insert leaderId (Session.set_delete followerId set)) st
  | None => st
  end.

(** [calculateFollowerStake]: a setting counts when it is present and not
    [0]. *)
Definition calculateFollowerStake (follower : User) (originalStake : Q) : Q :=
  let settings := copyTradeSettings follower in
  let byDefault := Qmin originalStake (balance follower * (2 # 100)) in
  let byRisk :=
    match riskPercentage settings with
    | Some pct =>
        if JS.truthy_num pct then (balance follower * pct) / 100 else byDefault
    | None => byDefault
    end in
  match investmentPerTrade settings with
  | Some amount => if JS.truthy_num amount then amount else byRisk
  | None => byRisk
  end.

(** How a call of an [async] method ends: it returns or it throws. *)
Inductive Outcome := Returned | Threw.

(** The record [copyTradeToFollower] hands to [create]. *)
Definition copyTradeDraft (followerId : string) (leader : User) (originalTrade : Trade)
           (stake : Q) : Trade :=
  {| _id := O; userId := followerId; botId := None;
     symbol := symbol originalTrade;
     contractType := contractType originalTrade;
     entryPrice := entryPrice originalTrade;
     stake := stake;
     duration := duration originalTrade;
     durationType := durationType originalTrade;
     status := "pending"; contractId := None; payout := None;
     exitPrice := None; profitLoss := None;
     isCopyTrade := true;
     copyTradeFrom := Some (u_id leader);
     originalTradeId := Some (_id originalTrade) |}.

(** [this.dailyLoss.get(followerId) || 0]. *)
Definition dailyLossOf (followerId : string) (st : State) : Q :=
  default 0 (dailyLoss st !! followerId).

(** [dailyLoss >= follower.copyTradeSettings.maxDailyLoss]; the comparison
    with a missing ceiling is false. *)
Definition reachedMaxDailyLoss (follower : User) (loss : Q) : bool :=
  match maxDailyLoss (copyTradeSettings follower) with
  | Some ceiling => JS.geb loss ceiling
  | None => false
  end.

Definition setupCopyTradeListener (followerId : string) (tradeId : nat) (st : State) : State :=
  with_listeners (fun l => l ++ [(followerId, tradeId)]) st.

(** [copyTradeToFollower].  [leader] is what [findById] answered for the
    leader; reading [leader._id] of [null] throws.  The [catch] of the method
    logs and throws again. *)
Definition copyTradeToFollower (env : Env) (followerId : string) (leader : option User)
           (originalTrade : Trade) (st : State) : State * Outcome :=
  match findUser env followerId with
  | Rejected => (st, Threw)
  | Resolved None => (st, Returned)
  | Resolved (Some follower) =>
      if negb (enabled (copyTradeSettings follower)) then (st, Returned)
      else
        match leader with
        | None => (st, Threw)
        | Some leader =>
            if negb (bool_decide (u_id leader ∈ following follower)) then
              (unregisterFollower followerId (u_id leader) st, Returned)
            else if reachedMaxDailyLoss follower (dailyLossOf followerId st) then
              (st, Returned)
            else if negb (Session.isConnected followerId (wsm st)) then
              (st, Returned)
            else
              let stake := calculateFollowerStake follower (Store.stake originalTrade) in
              if JS.ltb (balance follower) stake then (st, Returned)
              else if createRejects env followerId then (st, Threw)
              else
                let '(trades', copyTrade) :=
                  create (copyTradeDraft followerId leader originalTrade stake) (trades st) in
                let st1 := with_trades (fun _ => trades') st in
                let st2 :=
                  with_wsm
                    (Session.getProposal followerId
                       {| Session.contractType := contractType originalTrade;
                          Session.symbol := symbol originalTrade;
                          Session.stake := stake;
                          Session.duration := duration originalTrade;
                          Session.durationType := durationType originalTrade;
                          Session.currency := currency follower |})
                    st1 in
                (setupCopyTradeListener followerId (_id copyTrade) st2, Returned)
        end
  end.

(** The loop of [replicateTrade] over the followers of the leader: what a
    call throws is caught and logged, and the loop goes on. *)
Definition replicateLoop (env : Env) (leader : option User) (originalTrade : Trade)
           (leaderFollowers : list string) (st : State) : State :=
  fold_left (fun s followerId => fst (copyTradeToFollower env followerId leader originalTrade s))
            leaderFollowers st.

(** [replicateTrade] on the buy confirmation of [leaderId]. *)
Definition replicateTrade (env : Env) (leaderId : string) (buy_contract_id : option Z)
           (st : State) : State :=
  match followers st !! leaderId with
  | None => st
  | Some leaderFollowers =>
      if (length leaderFollowers =? 0)%nat then st
      else if findTradeRejects env then st
      else
        match findOne (fun t => String.eqb (userId t) leaderId
                                && same_contract (contractId t) buy_contract_id)
                      (trades st) with
        | None => st
        | Some originalTrade =>
            match findUser env leaderId with
            | Rejected => st
            | Resolved leader =>
                replicateLoop env leader originalTrade leaderFollowers st
            end
        end
  end.

(** The listener [setupCopyTradeListener] attached for one copy trade, on a
    contract update of [uid].  The listener waits for [findById] before it
    tests the contract id, adds the loss and takes itself off; it runs here
    as one step, that is, with no other contract update delivered while it
    waits. *)
Definition contractUpdateHandler (followerId : string) (tradeId : nat)
           (uid : string) (contract : Contract) (st : State) : State :=
  if negb (String.eqb uid followerId) then st
  else
    match findById tradeId (trades st) with
    | None => st
    | Some trade =>
        if negb (same_contract (contractId trade) (contract_id contract)) then st
        else if finished contract then
          let st1 :=
            if String.eqb (c_status contract) "lost" then
              let currentLoss := dailyLossOf followerId st in
              with_dailyLoss (insert followerId (currentLoss + Qabs (profit contract))) st
            else st in
          with_listeners (filter (fun l => l ≠ (followerId, tradeId))) st1
        else st
    end.

(** The session manager emits [contract_update]: the listeners attached at
    that moment run in the order of attachment. *)
Definition onContractUpdate (uid : string) (contract : Contract) (st : State) : State :=
  fold_left (fun s l => contractUpdateHandler (fst l) (snd l) uid contract s)
            (listeners st) st.

Definition resetDailyLoss (st : State) : State :=
  with_dailyLoss (fun _ => ∅) st.

Definition init : State :=
  {| followers := ∅; dailyLoss := ∅; listeners := []; trades := [];
     wsm := Session.init |}.

(** What happens to the service: calls of its methods, the two events it
    listens to, a write to a trade record from outside the service (the
    contract id and payout of a buy confirmation; the service itself never
    writes the contract id of a copy), and whatever happens to the session
    manager. *)
Inductive Input :=
| RegisterFollower (followerId leaderId : string)
| UnregisterFollower (followerId leaderId : string)
| ResetDailyLoss
| Buy (leaderId : string) (buy_contract_id : option Z) (env : Env)
| ContractUpdate (uid : string) (contract : Contract)
| TradeOpened (tradeId : nat) (cid : option Z) (pay : option Q)
| Manager (i : Session.Input).

Definition step (st : State) (i : Input) : option State :=
  match i with
  | RegisterFollower f l => Some (registerFollower f l st)
  | UnregisterFollower f l => Some (unregisterFollower f l st)
  | ResetDailyLoss => Some (resetDailyLoss st)
  | Buy l cid env => Some (replicateTrade env l cid st)
  | ContractUpdate uid contract => Some (onContractUpdate uid contract st)
  | TradeOpened id cid pay => Some (with_trades (alter (opened cid pay) id) st)
  | Manager i =>
      match Session.step (wsm st) i with
      | Some w => Some (with_wsm (fun _ => w) st)
      | None => None
      end
  end.

Fixpoint run (st : State) (inputs : list Input) : option State :=
  match inputs with
  | [] => Some st
  | i :: rest =>
      match step st i with
      | Some st' => run st' rest
      | None => None
      end
  end.

(** [getFollowerCount]: the size of the leader's set, [0] without one. *)
Definition getFollowerCount (leaderId : string) (st : State) : nat :=
  match followers st !! leaderId with
  | Some set => length set
  | None => O
  end.

End CopyTradeService.

(** ** Copy-trade endpoints (the follow, unfollow and settings handlers) *)

Module CopyTradeController.
Import Store.

(** The body of a follow or settings request: each field can be missing. *)
Record Body := {
  b_enabled : option bool;
  b_investmentPerTrade : option Q;
  b_riskPercentage : option Q;
  b_maxDailyLoss : option Q
}.

(** The status of the response. *)
Inductive Response := Ok200 | BadRequest400 | Forbidden403 | NotFound404.

(** [x || d] on a number that can be missing. *)
Definition or_num (x : option Q) (d : Q) : Q :=
  match x with
  | Some q => if JS.truthy_num q then q else d
  | None => d
  end.

Definition with_settings (c : CopyTradeSettings) (u : User) : User :=
  {| u_id := u_id u; copyTradeSettings := c; following := following u;
     balance := balance u; currency := currency u |}.

Definition with_following (l : list string) (u : User) : User :=
  {| u_id := u_id u; copyTradeSettings := copyTradeSettings u; following := l;
     balance := balance u; currency := currency u |}.

(** [followLeader].  [subscribed] is the outcome of the subscription test
    on the user, [leaderFound] that of the look-up of the leader.  The
    handler answers with a status, and on success has written the user's
    settings and following list and registered the follower.  The list of
    followers kept on the leader's record is not part of the state, and a
    rejected promise of the persistence layer (status 500) is left out. *)
Definition followLeader (subscribed leaderFound : bool) (leaderId : string) (body : Body)
           (user : User) (svc : CopyTradeService.State)
  : Response * User * CopyTradeService.State :=
  if negb subscribed then (Forbidden403, user, svc)
  else if String.eqb leaderId (u_id user) then (BadRequest400, user, svc)
  else if negb leaderFound then (NotFound404, user, svc)
  else if bool_decide (leaderId ∈ following user) then (BadRequest400, user, svc)
  else
    let settings :=
      {| enabled := true;
         investmentPerTrade := Some (or_num (b_investmentPerTrade body) 10);
         riskPercentage := Some (or_num (b_riskPercentage body) 2);
         maxDailyLoss := Some (or_num (b_maxDailyLoss body) 100) |} in
    let user1 := with_following (following user ++ [leaderId]) (with_settings settings user) in
    (Ok200, user1, CopyTradeService.registerFollower (u_id user) leaderId svc).

Definition set_enabled (b : bool) (c : CopyTradeSettings) : CopyTradeSettings :=
  {| enabled := b; investmentPerTrade := investmentPerTrade c;
     riskPercentage := riskPercentage c; maxDailyLoss := maxDailyLoss c |}.

(** [unfollowLeader]: the leader leaves the following list; copy trading is
    switched off when the list is empty then.  The list of followers kept
    on the leader's record is not part of the state. *)
Definition unfollowLeader (leaderId : string) (user : User) (svc : CopyTradeService.State)
  : Response * User * CopyTradeService.State :=
  if negb (bool_decide (leaderId ∈ following user)) then (BadRequest400, user, svc)
  else
    let rest := filter (fun id => id ≠ leaderId) (following user) in
    let user1 := with_following rest user in
    let user2 :=
      match rest with
      | [] => with_settings (set_enabled false (copyTradeSettings user1)) user1
      | _ => user1
      end in
    (Ok200, user2, CopyTradeService.unregisterFollower (u_id user) leaderId svc).

(** A field of the body replaces a setting when it is truthy. *)
Definition or_keep (x : option Q) (old : option Q) : option Q :=
  match x with
  | Some q => if JS.truthy_num q then Some q else old
  | None => old
  end.

(** [updateCopyTradeSettings]. *)
Definition updateCopyTradeSettings (body : Body) (user : User) : User :=
  let c := copyTradeSettings user in
  with_settings
    {| enabled := match b_enabled body with Some b => b | None => enabled c end;
       investmentPerTrade := or_keep (b_investmentPerTrade body) (investmentPerTrade c);
       riskPercentage := or_keep (b_riskPercentage body) (riskPercentage c);
       maxDailyLoss := or_keep (b_maxDailyLoss body) (maxDailyLoss c) |}
    user.

End CopyTradeController.

(** ** Bot runtime ([BotExecutor]) *)

Module BotExecutor.

Record Tick := { t_symbol : string; quote : Q; epoch : Z }.

(** An entry of the shared tick history. *)
Record TickRecord := { time : Z; price : Q; h_symbol : string }.

Record RiskManagement := {
  maxDailyLoss : option Q;
  maxConsecutiveLosses : option nat
}.

(** Trading hours, with ["HH:MM"] already split into hour and minute. *)
Record TradingHours := {
  enabled : bool;
  startAt : nat * nat;
  endAt : nat * nat
}.

Record Configuration := {
  symbol : string;
  stake : Q;
  duration : Q;
  durationType : option string;
  riskManagement : option RiskManagement;
  tradingHours : option TradingHours;
  entryConditions : bool
}.

(** Modelled from the spec: the bot model ([models/Bot]) is not part of the
    sources.  A bot document has an identity, a strategy type and its
    configuration (symbol, stake, duration, risk limits, trading-hours
    window). *)
Record Bot := {
  _id : string;
  type : string;
  configuration : Configuration
}.

(** The execution data of an active bot.  [currentTrade] holds the identity
    of the trade document; [lastTradeTime] is never written after
    [startBot] and is left out. *)
Record BotData := {
  botId : string;
  userId : string;
  bot : Bot;
  isRunning : bool;
  currentTrade : option nat;
  dailyLoss : Q;
  consecutiveLosses : nat;
  tickBuffer : list Tick
}.

Inductive Action := CALL | PUT | HOLD.

Record Signal := { action : Action; confidence : option Q }.

Definition action_name (a : Action) : string :=
  match a with CALL => "CALL" | PUT => "PUT" | HOLD => "HOLD" end.

Definition hold : Signal := {| action := HOLD; confidence := None |}.

(** [a < b] when an operand can be [undefined]: false then. *)
Definition lt_opt (a b : option Q) : bool :=
  match a, b with
  | Some x, Some y => JS.ltb x y
  | _, _ => false
  end.

(** The rest of the loop of [handleTickUpdate] that waits for a trade
    placement to finish: the user and tick of the call and the bots not yet
    visited. *)
Record LoopRest := {
  k_userId : string;
  k_tick : Tick;
  k_rest : list string
}.

(** A call of [placeTrade] that waits on the persistence layer: for
    [create] to resolve (with the record and the proposal it will then
    send), or for [bot.save()]. *)
Inductive Pending :=
| AwaitCreate (botId : string) (draft : Store.Trade) (params : Session.ProposalParams)
              (k : LoopRest)
| AwaitSave (botId : string) (k : LoopRest).

(** The executor: the active bots in the order they were started, the tick
    history per symbol, the trade collection, the session manager, and the
    calls of [placeTrade] that are waiting. *)
Record State := {
  activeBots : list (string * BotData);
  tickData : gmap string (list TickRecord);
  trades : list Store.Trade;
  wsm : Session.State;
  pending : list Pending
}.

Definition with_activeBots (f : list (string * BotData) -> list (string * BotData))
           (st : State) : State :=
  {| activeBots := f (activeBots st); tickData := tickData st; trades := trades st;
     wsm := wsm st; pending := pending st |}.

Definition with_tickData (f : gmap string (list TickRecord) -> gmap string (list TickRecord))
           (st : State) : State :=
  {| activeBots := activeBots st; tickData := f (tickData st); trades := trades st;
     wsm := wsm st; pending := pending st |}.

Definition with_trades (f : list Store.Trade -> list Store.Trade) (st : State) : State :=
  {| activeBots := activeBots st; tickData := tickData st; trades := f (trades st);
     wsm := wsm st; pending := pending st |}.

Definition with_wsm (f : Session.State -> Session.State) (st : State) : State :=
  {| activeBots := activeBots st; tickData := tickData st; trades := trades st;
     wsm := f (wsm st); pending := pending st |}.

Definition with_pending (f : list Pending -> list Pending) (st : State) : State :=
  {| activeBots := activeBots st; tickData := tickData st; trades := trades st;
     wsm := wsm st; pending := f (pending st) |}.

Definition set_isRunning (b : bool) (d : BotData) : BotData :=
  {| botId := botId d; userId := userId d; bot := bot d; isRunning := b;
     currentTrade := currentTrade d; dailyLoss := dailyLoss d;
     consecutiveLosses := consecutiveLosses d; tickBuffer := tickBuffer d |}.

Definition set_currentTrade (t : option nat) (d : BotData) : BotData :=
  {| botId := botId d; userId := userId d; bot := bot d; isRunning := isRunning d;
     currentTrade := t; dailyLoss := dailyLoss d;
     consecutiveLosses := consecutiveLosses d; tickBuffer := tickBuffer d |}.

Definition set_tickBuffer (b : list Tick) (d : BotData) : BotData :=
  {| botId := botId d; userId := userId d; bot := bot d; isRunning := isRunning d;
     currentTrade := currentTrade d; dailyLoss := dailyLoss d;
     consecutiveLosses := consecutiveLosses d; tickBuffer := b |}.

(** The risk counters after a settlement: a loss adds its magnitude and
    lengthens the streak, anything else ends the streak. *)
Definition settle_risk (tradeStatus : string) (profitLoss : Q) (d : BotData) : BotData :=
  if String.eqb tradeStatus "lost" then
    {| botId := botId d; userId := userId d; bot := bot d; isRunning := isRunning d;
       currentTrade := currentTrade d;
       dailyLoss := dailyLoss d + Qabs profitLoss;
       consecutiveLosses := S (consecutiveLosses d); tickBuffer := tickBuffer d |}
  else
    {| botId := botId d; userId := userId d; bot := bot d; isRunning := isRunning d;
       currentTrade := currentTrade d; dailyLoss := dailyLoss d;
       consecutiveLosses := O; tickBuffer := tickBuffer d |}.

(** [this.activeBots.get(botId)]. *)
Fixpoint getBot (id : string) (bots : list (string * BotData)) : option BotData :=
  match bots with
  | [] => None
  | (k, d) :: rest => if String.eqb k id then Some d else getBot id rest
  end.

(** A write to the execution data of bot [id]. *)
Fixpoint updateBot (id : string) (f : BotData -> BotData) (bots : list (string * BotData))
  : list (string * BotData) :=
  match bots with
  | [] => []
  | (k, d) :: rest =>
      if String.eqb k id then (k, f d) :: rest else (k, d) :: updateBot id f rest
  end.

(** [this.activeBots.set(botId, data)]: a new key goes last, a known key
    keeps its place. *)
Fixpoint setBot (id : string) (data : BotData) (bots : list (string * BotData))
  : list (string * BotData) :=
  match bots with
  | [] => [(id, data)]
  | (k, d) :: rest =>
      if String.eqb k id then (k, data) :: rest else (k, d) :: setBot id data rest
  end.

(** [array.push(x); if (array.length > cap) array.shift()]. *)
Definition push_capped {A} (cap : nat) (x : A) (l : list A) : list A :=
  let l' := l ++ [x] in
  if (cap <? length l')%nat then tl l' else l'.

Section WithSqrt.

Variable Math_sqrt : Q -> Q.

Definition checkRiskManagement (botData : BotData) : bool :=
  let riskMgmt := riskManagement (configuration (bot botData)) in
  match riskMgmt with
  | None => true
  | Some r =>
      if match maxDailyLoss r with
         | Some m => JS.truthy_num m && JS.geb (dailyLoss botData) m
         | None => false
         end
      then false
      else if match maxConsecutiveLosses r with
              | Some m => negb (m =? 0)%nat && (m <=? consecutiveLosses botData)%nat
              | None => false
              end
      then false
      else true
  end.

(** [isWithinTradingHours]; [currentTime] is the minute of the day of the
    wall clock. *)
Definition isWithinTradingHours (tradingHours : TradingHours) (currentTime : nat) : bool :=
  let startTime := (fst (startAt tradingHours) * 60 + snd (startAt tradingHours))%nat in
  let endTime := (fst (endAt tradingHours) * 60 + snd (endAt tradingHours))%nat in
  (startTime <=? currentTime)%nat && (currentTime <=? endTime)%nat.

Definition scalperStrategy (indicators : Indicators.IndicatorSet) : Signal :=
  let rsi := Indicators.rsi indicators in
  let currentPrice := Indicators.currentPrice indicators in
  match Indicators.bollinger indicators with
  | Some bollinger =>
      if negb (JS.truthy rsi) then hold
      else if lt_opt rsi (Some 30)
              && lt_opt currentPrice (Some (Indicators.lower bollinger)) then
        {| action := CALL; confidence := Some (8 # 10) |}
      else if lt_opt (Some 70) rsi
              && lt_opt (Some (Indicators.upper bollinger)) currentPrice then
        {| action := PUT; confidence := Some (8 # 10) |}
      else hold
  | None => hold
  end.

Definition trendFollowerStrategy (indicators : Indicators.IndicatorSet) : Signal :=
  let ema12 := Indicators.ema12 indicators in
  let ema26 := Indicators.ema26 indicators in
  match Indicators.macdOf indicators with
  | Some macd =>
      if negb (JS.truthy ema12) || negb (JS.truthy ema26) then hold
      else if lt_opt ema26 ema12 && JS.ltb 0 (Indicators.macd macd) then
        {| action := CALL; confidence := Some (7 # 10) |}
      else if lt_opt ema12 ema26 && JS.ltb (Indicators.macd macd) 0 then
        {| action := PUT; confidence := Some (7 # 10) |}
      else hold
  | None => hold
  end.

Definition swingStrategy (indicators : Indicators.IndicatorSet) : Signal :=
  let rsi := Indicators.rsi indicators in
  let sma20 := Indicators.sma20 indicators in
  let currentPrice := Indicators.currentPrice indicators in
  if negb (JS.truthy rsi) || negb (JS.truthy sma20) then hold
  else if lt_opt sma20 currentPrice && lt_opt (Some 45) rsi && lt_opt rsi (Some 65) then
    {| action := CALL; confidence := Some (6 # 10) |}
  else if lt_opt currentPrice sma20 && lt_opt (Some 35) rsi && lt_opt rsi (Some 55) then
    {| action := PUT; confidence := Some (6 # 10) |}
  else hold.

Definition evaluateCustomStrategy (indicators : Indicators.IndicatorSet) : Signal := hold.

Definition evaluateStrategy (b : Bot) (indicators : option Indicators.IndicatorSet) : Signal :=
  match indicators with
  | None => hold
  | Some ind =>
      if String.eqb (type b) "scalper" || String.eqb (type b) "elite_speedbot" then
        scalperStrategy ind
      else if String.eqb (type b) "trend_follower" then trendFollowerStrategy ind
      else if String.eqb (type b) "swing" then swingStrategy ind
      else if entryConditions (configuration b) then evaluateCustomStrategy ind
      else hold
  end.

(** [evaluateTradeSignal] up to its call of [placeTrade]: the signal and
    indicators [placeTrade] is called with, or [None] when the method
    returns without placing a trade. *)
Definition evaluateTradeSignal (botData : BotData) (currentTime : nat)
  : option (Signal * option Indicators.IndicatorSet) :=
  match currentTrade botData with
  | Some _ => None
  | None =>
      let config := configuration (bot botData) in
      if negb (checkRiskManagement botData) then None
      else if match tradingHours config with
              | Some th => enabled th && negb (isWithinTradingHours th currentTime)
              | None => false
              end
      then None
      else
        let indicators :=
          Indicators.calculateIndicators Math_sqrt (map quote (tickBuffer botData)) in
        let signal := evaluateStrategy (bot botData) indicators in
        match action signal with
        | HOLD => None
        | _ => Some (signal, indicators)
        end
  end.

(** The record [placeTrade] hands to [create]. *)
Definition tradeDraft (botData : BotData) (signal : Signal) (currentTick : Tick)
  : Store.Trade :=
  let config := configuration (bot botData) in
  {| Store._id := O; Store.userId := userId botData;
     Store.botId := Some (_id (bot botData));
     Store.symbol := symbol config;
     Store.contractType := action_name (action signal);
     Store.entryPrice := Some (quote currentTick);
     Store.stake := stake config;
     Store.duration := duration config;
     Store.durationType := durationType config;
     Store.status := "pending"; Store.contractId := None; Store.payout := None;
     Store.exitPrice := None; Store.profitLoss := None;
     Store.isCopyTrade := false; Store.copyTradeFrom := None;
     Store.originalTradeId := None |}.

(** The proposal [placeTrade] asks for once [create] has resolved. *)
Definition tradeProposal (botData : BotData) (signal : Signal) : Session.ProposalParams :=
  let config := configuration (bot botData) in
  {| Session.contractType := action_name (action signal);
     Session.symbol := symbol config;
     Session.stake := stake config;
     Session.duration := duration config;
     Session.durationType := durationType config;
     Session.currency := Some "USD" |}.

(** The loop of [handleTickUpdate] over the active bots, from the bots in
    [ids] on.  A bot of the user on the symbol that is running gets the tick
    in its buffer and is evaluated.  When the evaluation calls [placeTrade],
    the call waits for [create] and the loop with it; otherwise the loop
    goes on to the next bot. *)
Fixpoint processBots (ids : list string) (uid : string) (tick : Tick) (currentTime : nat)
         (st : State) : State :=
  match ids with
  | [] => st
  | id :: rest =>
      match getBot id (activeBots st) with
      | Some botData =>
          if String.eqb (userId botData) uid
             && String.eqb (symbol (configuration (bot botData))) (t_symbol tick)
             && isRunning botData
          then
            let botData1 :=
              set_tickBuffer (push_capped 100 tick (tickBuffer botData)) botData in
            let st1 := with_activeBots (updateBot id (fun _ => botData1)) st in
            match evaluateTradeSignal botData1 currentTime with
            | Some (signal, _) =>
                with_pending
                  (fun l => l ++ [AwaitCreate id (tradeDraft botData1 signal tick)
                                              (tradeProposal botData1 signal)
                                              {| k_userId := uid; k_tick := tick;
                                                 k_rest := rest |}])
                  st1
            | None => processBots rest uid tick currentTime st1
            end
          else processBots rest uid tick currentTime st
      | None => processBots rest uid tick currentTime st
      end
  end.

(** [handleTickUpdate]: the tick goes to the history of its symbol (the last
    1000 are kept), then to the bots. *)
Definition handleTickUpdate (uid : string) (tick : Tick) (currentTime : nat) (st : State)
  : State :=
  let history := default [] (tickData st !! t_symbol tick) in
  let entry := {| time := epoch tick; price := quote tick; h_symbol := t_symbol tick |} in
  let st1 := with_tickData (insert (t_symbol tick) (push_capped 1000 entry history)) st in
  processBots (map fst (activeBots st1)) uid tick currentTime st1.

(** [create] resolves for the waiting call at [index]: [placeTrade] sends
    the proposal request, stores the trade in the current-trade slot of the
    bot and waits for [bot.save()]. *)
Definition createResolves (index : nat) (st : State) : State :=
  match pending st !! index with
  | Some (AwaitCreate id draft params k) =>
      let '(trades', trade) := Store.create draft (trades st) in
      let st1 := with_trades (fun _ => trades') st in
      let st2 := with_wsm (Session.getProposal (k_userId k) params) st1 in
      let st3 :=
        with_activeBots (updateBot id (set_currentTrade (Some (Store._id trade)))) st2 in
      with_pending (fun l => delete index l ++ [AwaitSave id k]) st3
  | _ => st
  end.

(** [bot.save()] resolves for the waiting call at [index]: [placeTrade] and
    [evaluateTradeSignal] return and the loop of [handleTickUpdate] goes on
    with the bots it had not visited. *)
Definition saveResolves (index : nat) (currentTime : nat) (st : State) : State :=
  match pending st !! index with
  | Some (AwaitSave _ k) =>
      processBots (k_rest k) (k_userId k) (k_tick k) currentTime
                  (with_pending (delete index) st)
  | _ => st
  end.

(** The promise the call at [index] waits for is rejected: the error leaves
    [placeTrade] and [evaluateTradeSignal] and ends [handleTickUpdate]. *)
Definition rejects (index : nat) (st : State) : State :=
  with_pending (delete index) st.

(** The first active bot, in the order of the map, that meets [cond]. *)
Definition firstBot (cond : BotData -> bool) (bots : list (string * BotData))
  : option (string * BotData) :=
  List.find (fun kd => cond (snd kd)) bots.

(** [handleBuyConfirmation]: the confirmation goes to the first bot of the
    user that has a current trade. *)
Definition handleBuyConfirmation (uid : string) (buy_contract_id : option Z)
           (buy_payout : option Q) (st : State) : State :=
  match firstBot (fun d => String.eqb (userId d) uid
                           && bool_decide (is_Some (currentTrade d)))
                 (activeBots st) with
  | Some (_, botData) =>
      match currentTrade botData with
      | Some tradeId =>
          let st1 :=
            with_trades (alter (Store.opened buy_contract_id buy_payout) tradeId) st in
          with_wsm (Session.subscribeToContract uid buy_contract_id) st1
      | None => st
      end
  | None => st
  end.

(** [contract.exit_tick || contract.current_spot]. *)
Definition exit_of (c : Store.Contract) : option Q :=
  if JS.truthy (Store.exit_tick c) then Store.exit_tick c else Store.current_spot c.

(** The trade [handleContractUpdate] finds for a contract. *)
Definition tradeOfContract (contract : Store.Contract) (st : State) : option Store.Trade :=
  Store.findOne
    (fun t => Store.same_contract (Store.contractId t) (Store.contract_id contract))
    (trades st).

(** [handleContractUpdate]: a finished contract closes the trade record,
    frees the slot of the bot that holds the trade and updates its risk
    counters.  The performance figures [updateBotPerformance] keeps on the
    bot and user documents are not part of the state. *)
Definition handleContractUpdate (uid : string) (contract : Store.Contract) (st : State)
  : State :=
  match tradeOfContract contract st with
  | None => st
  | Some trade =>
      if Store.finished contract then
        let st1 :=
          with_trades
            (alter (Store.closed (exit_of contract) (Store.c_status contract)
                                 (Some (Store.profit contract)))
                   (Store._id trade))
            st in
        match firstBot (fun d => bool_decide (currentTrade d = Some (Store._id trade)))
                       (activeBots st1) with
        | Some (id, _) =>
            with_activeBots
              (updateBot id
                 (fun d => settle_risk (Store.c_status contract) (Store.profit contract)
                                       (set_currentTrade None d)))
              st1
        | None => st1
        end
      else st
  end.

Definition pauseBot (id : string) (st : State) : State :=
  with_activeBots (updateBot id (set_isRunning false)) st.

Definition resumeBot (id : string) (st : State) : State :=
  with_activeBots (updateBot id (set_isRunning true)) st.

(** [startBot], given the bot document [findById] answered. *)
Definition startBot (id uid : string) (b : Bot) (st : State) : State :=
  let st1 := with_wsm (Session.subscribeTicks uid (symbol (configuration b))) st in
  let data := {| botId := id; userId := uid; bot := b; isRunning := true;
                 currentTrade := None; dailyLoss := 0; consecutiveLosses := O;
                 tickBuffer := [] |} in
  let st2 := with_activeBots (setBot id data) st1 in
  match tickData st2 !! symbol (configuration b) with
  | Some _ => st2
  | None => with_tickData (insert (symbol (configuration b)) []) st2
  end.

Definition init : State :=
  {| activeBots := []; tickData := ∅; trades := []; wsm := Session.init;
     pending := [] |}.

(** What happens to the executor between the start and the stop of its
    bots: the three events it listens to, the promises of the persistence
    layer that waiting calls are resumed by, pause and resume, and whatever
    happens to the session manager. *)
Inductive Input :=
| TickEvent (uid : string) (tick : Tick) (currentTime : nat)
| CreateResolves (index : nat)
| SaveResolves (index : nat) (currentTime : nat)
| Rejects (index : nat)
| BuyConfirmation (uid : string) (buy_contract_id : option Z) (buy_payout : option Q)
| ContractUpdate (uid : string) (contract : Store.Contract)
| PauseBot (id : string)
| ResumeBot (id : string)
| Manager (i : Session.Input).

Definition step (st : State) (i : Input) : option State :=
  match i with
  | TickEvent uid tick currentTime => Some (handleTickUpdate uid tick currentTime st)
  | CreateResolves index => Some (createResolves index st)
  | SaveResolves index currentTime => Some (saveResolves index currentTime st)
  | Rejects index => Some (rejects index st)
  | BuyConfirmation uid cid pay => Some (handleBuyConfirmation uid cid pay st)
  | ContractUpdate uid contract => Some (handleContractUpdate uid contract st)
  | PauseBot id => Some (pauseBot id st)
  | ResumeBot id => Some (resumeBot id st)
  | Manager i =>
      match Session.step (wsm st) i with
      | Some w => Some (with_wsm (fun _ => w) st)
      | None => None
      end
  end.

Fixpoint run (st : State) (inputs : list Input) : option State :=
  match inputs with
  | [] => Some st
  | i :: rest =>
      match step st i with
      | Some st' => run st' rest
      | None => None
      end
  end.

(** [this.activeBots.delete(botId)]. *)
Definition removeBot (id : string) (bots : list (string * BotData))
  : list (string * BotData) :=
  List.filter (fun kd => negb (String.eqb (fst kd) id)) bots.

(** [stopBot]: the ticks of the bot's symbol are unsubscribed for its user
    and the bot leaves the map; nothing happens for a bot that is not
    active. *)
Definition stopBot (id : string) (st : State) : State :=
  match getBot id (activeBots st) with
  | None => st
  | Some botData =>
      let st1 :=
        with_wsm (Session.unsubscribeTicks (userId botData)
                    (symbol (configuration (bot botData)))) st in
      with_activeBots (removeBot id) st1
  end.

(** Modelled from the spec: the performance figures of a bot document
    ([models/Bot] is not part of the sources): win and loss counts, profit
    and loss totals, the running streak (positive for wins, negative for
    losses), the longest streaks, the best and worst trade, and the average
    win and loss.  The win rate and the profit factor are computed by
    methods of the model and are left out. *)
Record Performance := {
  totalTrades : nat;
  winningTrades : nat;
  losingTrades : nat;
  totalProfit : Q;
  totalLoss : Q;
  currentStreak : Z;
  longestWinStreak : Z;
  longestLoseStreak : Z;
  bestTrade : Q;
  worstTrade : Q;
  netProfitLoss : Q;
  averageWin : Q;
  averageLoss : Q
}.

(** The writes of [updateBotPerformance] to the performance figures for a
    trade closed with [tradeStatus] and [profitLoss]. *)
Definition updateBotPerformance (tradeStatus : string) (profitLoss : Q) (perf : Performance)
  : Performance :=
  let total := S (totalTrades perf) in
  let p1 :=
    if String.eqb tradeStatus "won" then
      let streak := if (0 <? currentStreak perf)%Z then (currentStreak perf + 1)%Z else 1%Z in
      {| totalTrades := total;
         winningTrades := S (winningTrades perf);
         losingTrades := losingTrades perf;
         totalProfit := totalProfit perf + profitLoss;
         totalLoss := totalLoss perf;
         currentStreak := streak;
         longestWinStreak :=
           if (longestWinStreak perf <? streak)%Z then streak else longestWinStreak perf;
         longestLoseStreak := longestLoseStreak perf;
         bestTrade := if JS.ltb (bestTrade perf) profitLoss then profitLoss else bestTrade perf;
         worstTrade := worstTrade perf;
         netProfitLoss := netProfitLoss perf;
         averageWin := averageWin perf;
         averageLoss := averageLoss perf |}
    else if String.eqb tradeStatus "lost" then
      let streak := if (currentStreak perf <? 0)%Z then (currentStreak perf - 1)%Z else (-1)%Z in
      {| totalTrades := total;
         winningTrades := winningTrades perf;
         losingTrades := S (losingTrades perf);
         totalProfit := totalProfit perf;
         totalLoss := totalLoss perf + Qabs profitLoss;
         currentStreak := streak;
         longestWinStreak := longestWinStreak perf;
         longestLoseStreak :=
           if (longestLoseStreak perf <? Z.abs streak)%Z then Z.abs streak
           else longestLoseStreak perf;
         bestTrade := bestTrade perf;
         worstTrade := if JS.ltb profitLoss (worstTrade perf) then profitLoss else worstTrade perf;
         netProfitLoss := netProfitLoss perf;
         averageWin := averageWin perf;
         averageLoss := averageLoss perf |}
    else
      {| totalTrades := total;
         winningTrades := winningTrades perf;
         losingTrades := losingTrades perf;
         totalProfit := totalProfit perf;
         totalLoss := totalLoss perf;
         currentStreak := currentStreak perf;
         longestWinStreak := longestWinStreak perf;
         longestLoseStreak := longestLoseStreak perf;
         bestTrade := bestTrade perf;
         worstTrade := worstTrade perf;
         netProfitLoss := netProfitLoss perf;
         averageWin := averageWin perf;
         averageLoss := averageLoss perf |} in
  {| totalTrades := totalTrades p1;
     winningTrades := winningTrades p1;
     losingTrades := losingTrades p1;
     totalProfit := totalProfit p1;
     totalLoss := totalLoss p1;
     currentStreak := currentStreak p1;
     longestWinStreak := longestWinStreak p1;
     longestLoseStreak := longestLoseStreak p1;
     bestTrade := bestTrade p1;
     worstTrade := worstTrade p1;
     netProfitLoss := totalProfit p1 - totalLoss p1;
     averageWin :=
       if (0 <? winningTrades p1)%nat then totalProfit p1 / JS.of_nat (winningTrades p1)
       else averageWin p1;
     averageLoss :=
       if (0 <? losingTrades p1)%nat then totalLoss p1 / JS.of_nat (losingTrades p1)
       else averageLoss p1 |}.

End WithSqrt.
End BotExecutor.

(** * Properties *)

(** ** Notions the properties are stated with *)

Module Props.

(** Each price is below the next one. *)
Fixpoint strictly_increasing (prices : list Q) : bool :=
  match prices with
  | [] => true
  | x :: rest =>
      match rest with
      | [] => true
      | y :: _ => JS.ltb x y && strictly_increasing rest
      end
  end.

(** Each price is above the next one. *)
Fixpoint strictly_decreasing (prices : list Q) : bool :=
  match prices with
  | [] => true
  | x :: rest =>
      match rest with
      | [] => true
      | y :: _ => JS.ltb y x && strictly_decreasing rest
      end
  end.

(** A square root on the rationals that is exact on the squares of
    rationals: the integer square roots of the reduced numerator and
    denominator. *)
Definition sqrt_floor (q : Q) : Q :=
  let r := Qred q in
  Z.sqrt (Qnum r) # Pos.sqrt (Qden r).

(** *** Mean and deviation on doubles *)





(** *** Copy-trade fan-out *)

(** A follower takes a copy of the leader's trade when the follower's record
    is found with copy trading enabled, the follower still follows the
    leader, is below the daily-loss ceiling, has an authenticated session on
    an open transport, can afford the computed stake, and the trade record
    can be created. *)
Definition takes_copy (env : CopyTradeService.Env) (leader : Store.User)
           (originalTrade : Store.Trade) (st : CopyTradeService.State) (f : string) : bool :=
  match CopyTradeService.findUser env f with
  | Store.Resolved (Some follower) =>
      Store.enabled (Store.copyTradeSettings follower)
      && bool_decide (Store.u_id leader ∈ Store.following follower)
      && negb (CopyTradeService.reachedMaxDailyLoss follower
                 (CopyTradeService.dailyLossOf f st))
      && Session.isConnected f (CopyTradeService.wsm st)
      && negb (JS.ltb (Store.balance follower)
                 (CopyTradeService.calculateFollowerStake follower
                    (Store.stake originalTrade)))
      && negb (CopyTradeService.createRejects env f)
  | _ => false
  end.

(** The stake of the copy for follower [f]. *)
Definition copy_stake (env : CopyTradeService.Env) (originalTrade : Store.Trade)
           (f : string) : Q :=
  match CopyTradeService.findUser env f with
  | Store.Resolved (Some follower) =>
      CopyTradeService.calculateFollowerStake follower (Store.stake originalTrade)
  | _ => 0
  end.

(** The trade collection after a copy was recorded for each of [fs], in
    that order. *)
Definition with_copies (env : CopyTradeService.Env) (leader : Store.User)
           (originalTrade : Store.Trade) (fs : list string) (trades : list Store.Trade)
  : list Store.Trade :=
  fold_left
    (fun ts f =>
       fst (Store.create
              (CopyTradeService.copyTradeDraft f leader originalTrade
                 (copy_stake env originalTrade f))
              ts))
    fs trades.



(** The checks of [copyTradeToFollower] read the state only through the
    daily-loss map and through [isConnected]: two states with the same
    checks. *)
Definition same_checks (st st' : CopyTradeService.State) : Prop :=
  CopyTradeService.dailyLoss st' = CopyTradeService.dailyLoss st /\
  forall v, Session.isConnected v (CopyTradeService.wsm st') =
            Session.isConnected v (CopyTradeService.wsm st).

(** *** Daily loss *)

(** The losses of the trades of bot [id] on record: the magnitudes of the
    profit or loss of the trades of the bot closed with status [lost],
    summed. *)
Definition settled_losses (id : string) (trades : list Store.Trade) : Q :=
  fold_right Qplus 0
    (map (fun t => match Store.profitLoss t with
                   | Some pl => Qabs pl
                   | None => 0
                   end)
         (List.filter (fun t => bool_decide (Store.botId t = Some id)
                                && String.eqb (Store.status t) "lost")
                      trades)).

(** *** Orders *)

Definition is_proposal (m : Session.Message) : bool :=
  match m with
  | Session.MsgProposal _ _ _ _ _ _ => true
  | _ => false
  end.

(** The proposal requests written to the transports of the manager. *)
Definition proposals_written (w : Session.State) : list Session.Message :=
  List.filter is_proposal (concat (map Session.wire (Session.sockets w))).

(** *** Inbound dispatch *)

(** The typed event of one recognised key, when the key is present with a
    truthy value. *)
Definition event_of (uid key : string) (mk : string -> Session.JSON -> Session.Emitted)
           (message : Session.JSON) : list Session.Emitted :=
  match Session.present key message with
  | Some v => [mk uid v]
  | None => []
  end.

(** The typed events of a frame: one for each recognised key that is
    present, in the order of the tests of [handleMessage]. *)
Definition frame_events (uid : string) (message : Session.JSON) : list Session.Emitted :=
  event_of uid "authorize" Session.EvAuthenticated message
  ++ event_of uid "balance" Session.EvBalance message
  ++ event_of uid "portfolio" Session.EvPortfolio message
  ++ event_of uid "statement" Session.EvStatement message
  ++ event_of uid "tick" Session.EvTick message
  ++ event_of uid "proposal" Session.EvProposal message
  ++ event_of uid "buy" Session.EvBuy message
  ++ event_of uid "proposal_open_contract" Session.EvContractUpdate message
  ++ event_of uid "error" Session.EvApiError message.

(** The typed events of a frame received for [uid]: none without a session
    and none for the frame [null]. *)
Definition dispatched (uid : string) (message : Session.JSON) (st : Session.State)
  : list Session.Emitted :=
  match Session.connections st !! uid, message with
  | None, _ => []
  | Some _, Session.JNull => []
  | Some _, _ => frame_events uid message
  end.

(** The keys [handleMessage] emits a typed event for. *)
Definition event_keys : list string :=
  ["authorize"; "balance"; "portfolio"; "statement"; "tick"; "proposal"; "buy";
   "proposal_open_contract"; "error"].

(** How many of these keys a frame carries. *)
Definition keys_present (message : Session.JSON) : nat :=
  length (List.filter (fun key => bool_decide (is_Some (Session.present key message)))
                      event_keys).

(** The frame carries none of the keys [handleMessage] looks at. *)
Definition unrecognised (message : Session.JSON) : Prop :=
  keys_present message = 0%nat /\ Session.present "ping" message = None.

(** The manager when [handleMessage] has marked the session of [uid]
    as authenticated and emitted the event, before it flushes the queue. *)
Definition authorized (uid : string) (accountInfo : Session.JSON) (st : Session.State)
  : Session.State :=
  Session.emit (Session.EvAuthenticated uid accountInfo)
               (Session.with_connections (alter Session.set_authenticated uid) st).

(** One turn of the loop of [processMessageQueue]: the first message is
    taken off the queue and handed to [send]. *)
Definition flush_turn (uid : string) (st : Session.State) : Session.State :=
  match Session.connections st !! uid with
  | Some connection =>
      match Session.messageQueue connection with
      | message :: rest =>
          fst (Session.send uid message
                 (Session.with_connections
                    (insert uid (Session.set_queue rest connection)) st))
      | [] => st
      end
  | None => st
  end.

(** The manager after [n] turns of that loop. *)
Definition flush_turns (n : nat) (uid : string) (st : Session.State) : Session.State :=
  Nat.iter n (flush_turn uid) st.

(** *** Bot runtime: buffers, performance *)

(** Every bot holds at most 100 ticks and every symbol history at most
    1000. *)
Definition buffers_capped (st : BotExecutor.State) : Prop :=
  Forall (fun kd => (length (BotExecutor.tickBuffer (snd kd)) <= 100)%nat)
         (BotExecutor.activeBots st) /\
  forall sym history,
    BotExecutor.tickData st !! sym = Some history -> (length history <= 1000)%nat.

(** The performance figures after the settlements of a list of trades,
    each with its status and its profit or loss. *)
Definition settleAll (settlements : list (string * Q)) (perf : BotExecutor.Performance)
  : BotExecutor.Performance :=
  fold_left (fun p s => BotExecutor.updateBotPerformance (fst s) (snd s) p) settlements perf.

(** The counts add up and the longest streaks are at least the running
    streak. *)
Definition figures_consistent (p : BotExecutor.Performance) : Prop :=
  (BotExecutor.winningTrades p + BotExecutor.losingTrades p
   <= BotExecutor.totalTrades p)%nat /\
  (BotExecutor.currentStreak p <= BotExecutor.longestWinStreak p)%Z /\
  (- BotExecutor.currentStreak p <= BotExecutor.longestLoseStreak p)%Z.

(** The settlements closed as won or lost. *)
Definition closed_won_or_lost (settlements : list (string * Q)) : nat :=
  length (List.filter (fun s => String.eqb (fst s) "won" || String.eqb (fst s) "lost")
                      settlements).

(** The executor is consistent: the ids of the active bots are distinct,
    the identity of every trade record is its position, every
    current-trade slot names a record of the collection, and no two bots
    hold the same trade. *)
Definition executor_consistent (st : BotExecutor.State) : Prop :=
  NoDup (map fst (BotExecutor.activeBots st)) /\
  (forall i t, BotExecutor.trades st !! i = Some t -> Store._id t = i) /\
  (forall k d tid,
      In (k, d) (BotExecutor.activeBots st) ->
      BotExecutor.currentTrade d = Some tid ->
      (tid < length (BotExecutor.trades st))%nat) /\
  (forall k1 d1 k2 d2 tid,
      In (k1, d1) (BotExecutor.activeBots st) ->
      In (k2, d2) (BotExecutor.activeBots st) ->
      BotExecutor.currentTrade d1 = Some tid ->
      BotExecutor.currentTrade d2 = Some tid ->
      k1 = k2).

(** Every slot of [new] is empty or is the slot of the same bot in [old]. *)
Definition slots_from (old new : list (string * BotExecutor.BotData)) : Prop :=
  forall k d',
    In (k, d') new ->
    BotExecutor.currentTrade d' = None \/
    exists d0, In (k, d0) old /\ BotExecutor.currentTrade d0 = BotExecutor.currentTrade d'.

(** The identity of every record of the list is its position, counted from
    [i]. *)
Fixpoint ids_in_place (i : nat) (ts : list Store.Trade) : bool :=
  match ts with
  | [] => true
  | t :: rest => (Store._id t =? i)%nat && ids_in_place (S i) rest
  end.

(** The decision of a trend-following bot read off the two averages. *)
Definition by_averages (ema12 ema26 : option Q) : BotExecutor.Action :=
  match ema12, ema26 with
  | Some a, Some b =>
      if JS.truthy_num a && JS.truthy_num b then
        if JS.ltb b a then BotExecutor.CALL
        else if JS.ltb a b then BotExecutor.PUT
        else BotExecutor.HOLD
      else BotExecutor.HOLD
  | _, _ => BotExecutor.HOLD
  end.

(** The checks a copy trade has passed: it was recorded for a registered
    follower of the leader whose record has copy trading switched on and
    lists the leader, who is below the daily-loss ceiling, is connected,
    and whose balance covers the stake of the copy. *)
Definition copy_checked (env : CopyTradeService.Env) (leaderId : string)
           (st : CopyTradeService.State) (t : Store.Trade) : Prop :=
  exists follower leader fs,
    CopyTradeService.followers st !! leaderId = Some fs /\
    In (Store.userId t) fs /\
    CopyTradeService.findUser env leaderId = Store.Resolved (Some leader) /\
    CopyTradeService.findUser env (Store.userId t) = Store.Resolved (Some follower) /\
    Store.isCopyTrade t = true /\
    Store.copyTradeFrom t = Some (Store.u_id leader) /\
    Store.enabled (Store.copyTradeSettings follower) = true /\
    Store.u_id leader ∈ Store.following follower /\
    CopyTradeService.reachedMaxDailyLoss follower
      (CopyTradeService.dailyLossOf (Store.userId t) st) = false /\
    Session.isConnected (Store.userId t) (CopyTradeService.wsm st) = true /\
    Store.stake t <= Store.balance follower.

(** The user after a sequence of settings requests. *)
Definition afterSettings (bodies : list CopyTradeController.Body) (user : Store.User)
  : Store.User :=
  fold_left (fun u b => CopyTradeController.updateCopyTradeSettings b u) bodies user.

End Props.

(** ** Scenarios *)

Module Scenario.

(** A session manager in which [uid] has an authenticated session on an
    open transport: connect, the transport opens, the authorize response
    arrives. *)
Definition online (uid : string) : Session.State :=
  default Session.init
    (Session.run Session.init
       [Session.Connect uid "token" 0;
        Session.SocketOpen 0;
        Session.SocketMessage 0 (Session.JObj [("authorize", Session.JObj [])]) 0]).

(** The leader's trade, opened under contract 77 with a stake of 10. *)
Definition leaderTrade : Store.Trade :=
  {| Store._id := 0; Store.userId := "leader"; Store.botId := None;
     Store.symbol := "R_100"; Store.contractType := "CALL";
     Store.entryPrice := Some 100; Store.stake := 10; Store.duration := 5;
     Store.durationType := Some "t"; Store.status := "open";
     Store.contractId := Some 77%Z; Store.payout := Some 19;
     Store.exitPrice := None; Store.profitLoss := None;
     Store.isCopyTrade := false; Store.copyTradeFrom := None;
     Store.originalTradeId := None |}.

Definition user (id : string) (on : bool) (amount : option Q) (pct : option Q)
           (bal : Q) : Store.User :=
  {| Store.u_id := id;
     Store.copyTradeSettings :=
       {| Store.enabled := on; Store.investmentPerTrade := amount;
          Store.riskPercentage := pct; Store.maxDailyLoss := Some 100 |};
     Store.following := ["leader"];
     Store.balance := bal;
     Store.currency := Some "USD" |}.

(** Three followers: ann has copy trading disabled, bob stakes 10 on a
    balance of 4, cat risks 5 percent of a balance of 1000. *)
Definition users (id : string) : Store.Lookup Store.User :=
  if String.eqb id "leader" then Store.Resolved (Some (user "leader" false None None 500))
  else if String.eqb id "ann" then Store.Resolved (Some (user "ann" false (Some 10) None 1000))
  else if String.eqb id "bob" then Store.Resolved (Some (user "bob" true (Some 10) None 4))
  else if String.eqb id "cat" then Store.Resolved (Some (user "cat" true None (Some 5) 1000))
  else Store.Resolved None.

Definition env : CopyTradeService.Env :=
  {| CopyTradeService.findUser := users;
     CopyTradeService.findTradeRejects := false;
     CopyTradeService.createRejects := fun _ => false |}.

(** The replicator with the leader's trade on record and cat online,
    before anybody follows the leader. *)
Definition replicator0 : CopyTradeService.State :=
  {| CopyTradeService.followers := ∅;
     CopyTradeService.dailyLoss := ∅;
     CopyTradeService.listeners := [];
     CopyTradeService.trades := [leaderTrade];
     CopyTradeService.wsm := online "cat" |}.

(** The three followers registered for the leader. *)
Definition replicator3 : CopyTradeService.State :=
  CopyTradeService.registerFollower "cat" "leader"
    (CopyTradeService.registerFollower "bob" "leader"
       (CopyTradeService.registerFollower "ann" "leader" replicator0)).

(** A swing bot on R_100 with a stake of 10. *)
Definition swingBot : BotExecutor.Bot :=
  {| BotExecutor._id := "bot1";
     BotExecutor.type := "swing";
     BotExecutor.configuration :=
       {| BotExecutor.symbol := "R_100";
          BotExecutor.stake := 10;
          BotExecutor.duration := 5;
          BotExecutor.durationType := Some "t";
          BotExecutor.riskManagement :=
            Some {| BotExecutor.maxDailyLoss := Some 100;
                    BotExecutor.maxConsecutiveLosses := Some 3%nat |};
          BotExecutor.tradingHours := None;
          BotExecutor.entryConditions := false |} |}.

(** The executor after [startBot] of that bot for cat, who is online. *)
Definition executor0 : BotExecutor.State :=
  BotExecutor.startBot "bot1" "cat" swingBot
    {| BotExecutor.activeBots := []; BotExecutor.tickData := ∅;
       BotExecutor.trades := []; BotExecutor.wsm := online "cat";
       BotExecutor.pending := [] |}.

(** A market that goes up 3 and down 2 in turn: 10, 13, 11, 14, 12, 15, ... *)
Definition quoteAt (n : nat) : Q :=
  JS.of_nat (10 + Nat.div2 n + (if Nat.odd n then 3 else 0)).

(** The tick event number [n] of that market, on R_100 for cat. *)
Definition tickAt (n : nat) : BotExecutor.Input :=
  BotExecutor.TickEvent "cat"
    {| BotExecutor.t_symbol := "R_100"; BotExecutor.quote := quoteAt n;
       BotExecutor.epoch := Z.of_nat n |}
    0.

(** The first [n] ticks of that market. *)
Definition zigzag (n : nat) : list BotExecutor.Input := map tickAt (seq 0 n).

(** The twentieth tick gives the bot its first signal (the price 22 is above
    the average 16 and the RSI is 60) and [placeTrade] asks for the trade
    record; the next tick (price 20, average 16.5, RSI 60) arrives before
    the record is there; then the two records are created. *)
Definition rapidTicks : list BotExecutor.Input :=
  zigzag 20 ++ [tickAt 20; BotExecutor.CreateResolves 0; BotExecutor.CreateResolves 0].

Definition lostContract (cid : Z) (loss : Q) : Store.Contract :=
  {| Store.contract_id := Some cid; Store.is_sold := true;
     Store.c_status := "lost"; Store.profit := - loss;
     Store.exit_tick := Some 26; Store.current_spot := Some 26 |}.

(** Cat follows the leader, takes a copy of the leader's trade, the copy
    is opened under contract 78 and settles with a loss of 50. *)
Definition losingCopy : list CopyTradeService.Input :=
  [CopyTradeService.RegisterFollower "cat" "leader";
   CopyTradeService.Buy "leader" (Some 77%Z) env;
   CopyTradeService.TradeOpened 1 (Some 78%Z) (Some 95);
   CopyTradeService.ContractUpdate "cat" (lostContract 78 50)].

(** The data of the bot of [executor0]. *)
Definition bot1Data : BotExecutor.BotData :=
  {| BotExecutor.botId := "bot1"; BotExecutor.userId := "cat";
     BotExecutor.bot := swingBot; BotExecutor.isRunning := true;
     BotExecutor.currentTrade := None; BotExecutor.dailyLoss := 0;
     BotExecutor.consecutiveLosses := 0; BotExecutor.tickBuffer := [] |}.

Definition authorizeResponse : Session.JSON :=
  Session.JObj [("authorize", Session.JObj [("loginid", Session.JStr "CR1")])].

(** A frame with a tick and an error. *)
Definition tickWithError : Session.JSON :=
  Session.JObj [("tick", Session.JObj [("quote", Session.JNum 22)]);
                ("error", Session.JObj [("code", Session.JStr "RateLimit")])].

(** Cat connects, is authenticated, subscribes to the ticks of R_100; the
    transport closes; a subscription to R_50 is sent while the session is
    down. *)
Definition beforeReconnect : list Session.Input :=
  [Session.Connect "cat" "token" 0;
   Session.SocketOpen 0;
   Session.SocketMessage 0 authorizeResponse 0;
   Session.SubscribeTicks "cat" "R_100";
   Session.SocketClose 0;
   Session.SubscribeTicks "cat" "R_50"].

(** The reconnect timer fires, the new transport opens and the authorize
    response arrives. *)
Definition reconnect : list Session.Input :=
  [Session.TimerFires 0 1;
   Session.SocketOpen 1;
   Session.SocketMessage 1 authorizeResponse 2].

(** Cat's session just after [connect]. *)
Definition connected : Session.State := Session.connect "cat" "token" 0 Session.init.

(** The transport closes and the reconnect timer fires, [n] times over:
    each new transport closes in turn. *)
Fixpoint flapping (n : nat) : list Session.Input :=
  match n with
  | O => []
  | S k => flapping k ++ [Session.SocketClose k; Session.TimerFires 0 0]
  end.

(** The manager when cat is authenticated and subscribed to R_100. *)
Definition subscribed : Session.State :=
  default Session.init
    (Session.run Session.init
       [Session.Connect "cat" "token" 0;
        Session.SocketOpen 0;
        Session.SocketMessage 0 authorizeResponse 0;
        Session.SubscribeTicks "cat" "R_100"]).

(** Cat's session and transport in [subscribed]. *)
Definition subscribedSession : Session.connectionData :=
  {| Session.ws := 0; Session.userId := "cat"; Session.token := "token";
     Session.isAuthenticated := true; Session.subscriptions := ["ticks_R_100"];
     Session.messageQueue := []; Session.lastPing := 0 |}.

Definition subscribedSocket : Session.Socket :=
  {| Session.readyState := Session.OPEN; Session.owner := "cat";
     Session.ownerToken := "token";
     Session.wire := [Session.MsgAuthorize "token"; Session.MsgBalance;
                      Session.MsgPortfolio; Session.MsgStatement 50;
                      Session.MsgTicks "R_100"] |}.

(** Cat's session after the [n]-th reconnect: fresh, on transport [n]. *)
Definition sessionOn (n : nat) : Session.connectionData :=
  {| Session.ws := n; Session.userId := "cat"; Session.token := "token";
     Session.isAuthenticated := false; Session.subscriptions := [];
     Session.messageQueue := []; Session.lastPing := 0 |}.

(** The manager after the [n]-th reconnect of cat: the session is on
    transport [n], which is connecting, the reconnect counter is [0], no
    timer is waiting and no event was emitted. *)
Definition reconnected (n : nat) (st : Session.State) : Prop :=
  Session.connections st !! "cat" = Some (sessionOn n) /\
  Session.sockets st !! n =
    Some {| Session.readyState := Session.CONNECTING; Session.owner := "cat";
            Session.ownerToken := "token"; Session.wire := [] |} /\
  length (Session.sockets st) = S n /\
  Session.reconnectAttempts st !! "cat" = Some O /\
  Session.timers st = [] /\
  Session.emitted st = [].

(** The data of a bot of cat on R_100 with the given type, risk limits,
    trading hours, daily loss and tick buffer. *)
Definition botDataOf (ty : string) (risk : option BotExecutor.RiskManagement)
           (hours : option BotExecutor.TradingHours) (loss : Q)
           (buffer : list BotExecutor.Tick) : BotExecutor.BotData :=
  {| BotExecutor.botId := "bot1"; BotExecutor.userId := "cat";
     BotExecutor.bot :=
       {| BotExecutor._id := "bot1"; BotExecutor.type := ty;
          BotExecutor.configuration :=
            {| BotExecutor.symbol := "R_100"; BotExecutor.stake := 10;
               BotExecutor.duration := 5; BotExecutor.durationType := Some "t";
               BotExecutor.riskManagement := risk;
               BotExecutor.tradingHours := hours;
               BotExecutor.entryConditions := true |} |};
     BotExecutor.isRunning := true; BotExecutor.currentTrade := None;
     BotExecutor.dailyLoss := loss; BotExecutor.consecutiveLosses := 0;
     BotExecutor.tickBuffer := buffer |}.

(** Twenty ticks of a market that falls by 1 from 50. *)
Definition fallingTicks : list BotExecutor.Tick :=
  map (fun n => {| BotExecutor.t_symbol := "R_100";
                   BotExecutor.quote := JS.of_nat (50 - n);
                   BotExecutor.epoch := Z.of_nat n |})
      (seq 0 20).

(** A window from 22:00 to 06:00. *)
Definition nightWindow : BotExecutor.TradingHours :=
  {| BotExecutor.enabled := true; BotExecutor.startAt := (22, 0)%nat;
     BotExecutor.endAt := (6, 0)%nat |}.

Definition ceilingOf (c : Q) : BotExecutor.RiskManagement :=
  {| BotExecutor.maxDailyLoss := Some c; BotExecutor.maxConsecutiveLosses := None |}.

(** The bot of [executor0] has placed a trade: the record is created and
    saved, the proposal is asked for, and the slot of the bot holds the
    trade. *)
Definition awaitingConfirmation : BotExecutor.State :=
  default executor0
    (BotExecutor.run Props.sqrt_floor executor0
       (zigzag 20 ++ [BotExecutor.CreateResolves 0; BotExecutor.SaveResolves 0 0])).

(** The trade is confirmed under contract 90. *)
Definition inTrade : BotExecutor.State :=
  BotExecutor.handleBuyConfirmation "cat" (Some 90%Z) (Some 19) awaitingConfirmation.

(** A second bot of cat on the same symbol is started. *)
Definition twoBots : BotExecutor.State :=
  BotExecutor.startBot "bot2" "cat"
    {| BotExecutor._id := "bot2"; BotExecutor.type := "scalper";
       BotExecutor.configuration := BotExecutor.configuration swingBot |}
    executor0.

(** The figures of a bot that has not traded. *)
Definition noTrades : BotExecutor.Performance :=
  {| BotExecutor.totalTrades := 0; BotExecutor.winningTrades := 0;
     BotExecutor.losingTrades := 0; BotExecutor.totalProfit := 0;
     BotExecutor.totalLoss := 0; BotExecutor.currentStreak := 0;
     BotExecutor.longestWinStreak := 0; BotExecutor.longestLoseStreak := 0;
     BotExecutor.bestTrade := 0; BotExecutor.worstTrade := 0;
     BotExecutor.netProfitLoss := 0; BotExecutor.averageWin := 0;
     BotExecutor.averageLoss := 0 |}.

(** Cat connects and the transport opens; before the authorize response
    arrives cat connects again, and asks for ticks on the new session, which
    queues the request.  The response to the first authorize request is
    then delivered on the first transport. *)
Definition secondConnect : Session.State :=
  default Session.init
    (Session.run Session.init
       [Session.Connect "cat" "token" 0;
        Session.SocketOpen 0;
        Session.Connect "cat" "token" 1;
        Session.SubscribeTicks "cat" "R_100"]).

(** Cat has left the leader: the record of cat no longer lists the
    leader, the registry of the service still does. *)
Definition catLeft : CopyTradeService.Env :=
  {| CopyTradeService.findUser :=
       fun id =>
         if String.eqb id "cat"
         then Store.Resolved
                (Some (CopyTradeController.with_following []
                         (user "cat" true None (Some 5) 1000)))
         else users id;
     CopyTradeService.findTradeRejects := false;
     CopyTradeService.createRejects := fun _ => false |}.

(** A follow request that asks for 25 a trade and leaves the rest to the
    defaults, and a settings request that sets the investment to [0] and
    the risk percentage to 5. *)
Definition followBody : CopyTradeController.Body :=
  {| CopyTradeController.b_enabled := None;
     CopyTradeController.b_investmentPerTrade := Some 25;
     CopyTradeController.b_riskPercentage := None;
     CopyTradeController.b_maxDailyLoss := None |}.

Definition riskBody : CopyTradeController.Body :=
  {| CopyTradeController.b_enabled := None;
     CopyTradeController.b_investmentPerTrade := Some 0;
     CopyTradeController.b_riskPercentage := Some 5;
     CopyTradeController.b_maxDailyLoss := None |}.

(** Dan follows nobody and has copy trading switched off. *)
Definition dan : Store.User :=
  {| Store.u_id := "dan";
     Store.copyTradeSettings :=
       {| Store.enabled := false; Store.investmentPerTrade := None;
          Store.riskPercentage := None; Store.maxDailyLoss := None |};
     Store.following := [];
     Store.balance := 1000;
     Store.currency := Some "USD" |}.

(** The bot places two trades on two ticks in a row (see [rapidTicks]).
    The first record is created and its order is confirmed under contract
    90; then the second record is created, and the slot of the bot, which
    held the first trade, holds the second.  Contract 90 is lost by 10, and
    the two calls of [placeTrade] return. *)
Definition orphanedLoss : list BotExecutor.Input :=
  zigzag 20 ++
  [tickAt 20;
   BotExecutor.CreateResolves 0;
   BotExecutor.BuyConfirmation "cat" (Some 90%Z) (Some 19);
   BotExecutor.CreateResolves 0;
   BotExecutor.ContractUpdate "cat" (lostContract 90 10);
   BotExecutor.SaveResolves 0 0;
   BotExecutor.SaveResolves 0 0].


End Scenario.

(** ** Numbers *)

Lemma ltb_lt (x y : Q) : JS.ltb x y = true <-> x < y.
Proof.
  unfold JS.ltb. rewrite negb_true_iff. split.
  - intros H. apply Qnot_le_lt. intros Hle.
    apply Qle_bool_iff in Hle. congruence.
  - intros H. destruct (Qle_bool y x) eqn:E; [|reflexivity].
    apply Qle_bool_iff in E. lra.
Qed.

Lemma ltb_ge (x y : Q) : JS.ltb x y = false <-> y <= x.
Proof.
  unfold JS.ltb. rewrite negb_false_iff. apply Qle_bool_iff.
Qed.

Lemma truthy_num_neq (x : Q) : JS.truthy_num x = true <-> ~ x == 0.
Proof.
  unfold JS.truthy_num. rewrite negb_true_iff. split.
  - intros H E. apply Qeq_bool_iff in E. congruence.
  - intros H. destruct (Qeq_bool x 0) eqn:E; [|reflexivity].
    apply Qeq_bool_iff in E. contradiction.
Qed.


(** ** Indicators *)

Section IndicatorFacts.

Import Indicators Props.

Lemma increasing_nth (prices : list Q) :
  strictly_increasing prices = true ->
  forall i, (S i < length prices)%nat -> nth i prices 0 < nth (S i) prices 0.
Proof.
  induction prices as [|x rest IH]; intros Hinc i Hi; [simpl in Hi; lia|].
  destruct rest as [|y rest']; [simpl in Hi; lia|].
  cbn [strictly_increasing] in Hinc. apply andb_prop in Hinc as [Hxy Hrest].
  destruct i as [|i].
  - simpl. now apply ltb_lt.
  - change (nth i (y :: rest') 0 < nth (S i) (y :: rest') 0).
    apply IH; [exact Hrest|]. simpl in Hi |- *. lia.
Qed.

Lemma decreasing_nth (prices : list Q) :
  strictly_decreasing prices = true ->
  forall i, (S i < length prices)%nat -> nth (S i) prices 0 < nth i prices 0.
Proof.
  induction prices as [|x rest IH]; intros Hdec i Hi; [simpl in Hi; lia|].
  destruct rest as [|y rest']; [simpl in Hi; lia|].
  cbn [strictly_decreasing] in Hdec. apply andb_prop in Hdec as [Hxy Hrest].
  destruct i as [|i].
  - simpl. now apply ltb_lt.
  - change (nth (S i) (y :: rest') 0 < nth i (y :: rest') 0).
    apply IH; [exact Hrest|]. simpl in Hi |- *. lia.
Qed.

(** While every change is a gain the loss accumulator is not touched. *)
Lemma rsi_loop_gains (prices : list Q) (idx : list nat) :
  (forall i, In i idx -> nth (i - 1) prices 0 < nth i prices 0) ->
  forall gains losses,
    snd (fold_left (rsi_step prices) idx (gains, losses)) = losses.
Proof.
  induction idx as [|i idx IH]; intros Hup gains losses; [reflexivity|].
  cbn [fold_left]. unfold rsi_step at 2.
  assert (Hi : JS.ltb 0 (nth i prices 0 - nth (i - 1) prices 0) = true).
  { apply ltb_lt. specialize (Hup i (or_introl eq_refl)). lra. }
  rewrite Hi. apply IH. intros j Hj. apply Hup. now right.
Qed.

(** While every change is a loss the gain accumulator is not touched and
    the loss accumulator grows. *)
Lemma rsi_loop_losses (prices : list Q) (idx : list nat) :
  (forall i, In i idx -> nth i prices 0 < nth (i - 1) prices 0) ->
  forall gains losses,
    fst (fold_left (rsi_step prices) idx (gains, losses)) = gains /\
    losses <= snd (fold_left (rsi_step prices) idx (gains, losses)) /\
    (idx <> [] -> losses < snd (fold_left (rsi_step prices) idx (gains, losses))).
Proof.
  induction idx as [|i idx IH]; intros Hdown gains losses.
  - cbn. repeat split; [lra | congruence].
  - cbn [fold_left]. unfold rsi_step at 2 4 6.
    assert (Hlt : nth i prices 0 < nth (i - 1) prices 0)
      by (apply Hdown; now left).
    assert (Hi : JS.ltb 0 (nth i prices 0 - nth (i - 1) prices 0) = false).
    { apply ltb_ge. lra. }
    rewrite Hi.
    destruct (IH (fun j Hj => Hdown j (or_intror Hj)) gains
                 (losses - (nth i prices 0 - nth (i - 1) prices 0)))
      as (Hg & Hle & _).
    repeat split; [exact Hg | lra | intros _; lra].
Qed.

(** C8.  For every window of 15 prices, [calculateRSI] with period 14
    returns 100 when the prices are strictly increasing (the average loss is
    zero) and a number equal to 0 when they are strictly decreasing. *)
Theorem rsi_of_monotone_window (prices : list Q) :
  length prices = 15%nat ->
  (strictly_increasing prices = true -> calculateRSI prices 14 = Some 100) /\
  (strictly_decreasing prices = true ->
   exists r, calculateRSI prices 14 = Some r /\ r == 0).
Proof.
  intros Hlen. unfold calculateRSI. rewrite Hlen.
  change (15 <? 14 + 1)%nat with false. cbv iota.
  change (15 - 14)%nat with 1%nat.
  split; intros Hmono.
  - pose proof (rsi_loop_gains prices (seq 1 14)) as Hloop.
    destruct (fold_left (rsi_step prices) (seq 1 14) (0, 0)) as [gains losses] eqn:E.
    assert (Hl : losses = 0).
    { specialize (Hloop
        (fun i Hi => ltac:(apply in_seq in Hi; destruct i as [|i]; [lia|];
                           replace (S i - 1)%nat with i by lia;
                           apply increasing_nth; [exact Hmono | lia])) 0 0).
      rewrite E in Hloop. exact Hloop. }
    subst losses. reflexivity.
  - pose proof (rsi_loop_losses prices (seq 1 14)) as Hloop.
    destruct (fold_left (rsi_step prices) (seq 1 14) (0, 0)) as [gains losses] eqn:E.
    specialize (Hloop
      (fun i Hi => ltac:(apply in_seq in Hi; destruct i as [|i]; [lia|];
                         replace (S i - 1)%nat with i by lia;
                         apply decreasing_nth; [exact Hmono | lia])) 0 0).
    rewrite E in Hloop. cbn [fst snd] in Hloop.
    destruct Hloop as (Hg & _ & Hpos). subst gains.
    specialize (Hpos ltac:(discriminate)).
    assert (Havg : ~ losses / JS.of_nat 14 == 0).
    { intros Hz. change (JS.of_nat 14) with 14 in Hz.
      assert (losses == 0) by (rewrite <- (Qmult_div_r losses 14), Hz by discriminate; ring).
      lra. }
    destruct (Qeq_bool (losses / JS.of_nat 14) 0) eqn:Eb.
    { apply Qeq_bool_iff in Eb. contradiction. }
    eexists. split; [reflexivity|].
    assert (Hrs : 0 / JS.of_nat 14 / (losses / JS.of_nat 14) == 0)
      by (unfold Qdiv; ring).
    rewrite Hrs. reflexivity.
Qed.

Lemma rsi_of_monotone_window_witness :
  calculateRSI [1; 2; 3; 4; 5; 6; 7; 8; 9; 10; 11; 12; 13; 14; 15] 14 = Some 100 /\
  exists r,
    calculateRSI [15; 14; 13; 12; 11; 10; 9; 8; 7; 6; 5; 4; 3; 2; 1] 14 = Some r /\
    r == 0.
Proof.
  split.
  - exact (proj1 (rsi_of_monotone_window
                    [1; 2; 3; 4; 5; 6; 7; 8; 9; 10; 11; 12; 13; 14; 15] eq_refl) eq_refl).
  - exact (proj2 (rsi_of_monotone_window
                    [15; 14; 13; 12; 11; 10; 9; 8; 7; 6; 5; 4; 3; 2; 1] eq_refl) eq_refl).
Defined.

End IndicatorFacts.

(** ** The Bollinger bands on doubles *)

Section BollingerBands.

Import Props.




End BollingerBands.

(** ** Session manager *)

Section SessionFacts.

Import Session Props Scenario.

Lemma send_emitted (uid : string) (m : Message) (st : State) :
  emitted (fst (send uid m st)) = emitted st.
Proof.
  unfold send. destruct (connections st !! uid) as [c|]; [|reflexivity].
  destruct (negb (isAuthenticated c) && negb (has_authorize m)); [reflexivity|].
  destruct (socket_open st c); reflexivity.
Qed.

Lemma socket_open_write (st : State) (m : Message) (i : nat) (c : connectionData) :
  socket_open (with_sockets (alter (write m) i) st) c = socket_open st c.
Proof.
  unfold socket_open. cbn. destruct (decide (i = ws c)) as [->|Hne].
  - rewrite list_lookup_alter_eq. destruct (sockets st !! ws c); reflexivity.
  - rewrite list_lookup_alter_ne by exact Hne. reflexivity.
Qed.

(** Sending to a user changes for no user whether a session is connected. *)
Lemma send_isConnected (uid v : string) (m : Message) (st : State) :
  isConnected v (fst (send uid m st)) = isConnected v st.
Proof.
  unfold send. destruct (connections st !! uid) as [c|] eqn:Hc; [|reflexivity].
  assert (Hq : isConnected v (with_connections (insert uid (enqueue m c)) st)
               = isConnected v st).
  { unfold isConnected. cbn. destruct (decide (uid = v)) as [->|Hne].
    - rewrite lookup_insert_eq, Hc. reflexivity.
    - rewrite lookup_insert_ne by exact Hne. reflexivity. }
  destruct (negb (isAuthenticated c) && negb (has_authorize m)); [exact Hq|].
  destruct (socket_open st c); [|exact Hq].
  unfold isConnected. cbn [fst]. change (connections (with_sockets _ st)) with (connections st).
  destruct (connections st !! v) as [c'|]; [|reflexivity].
  rewrite socket_open_write. reflexivity.
Qed.

Lemma getProposal_isConnected (uid v : string) (p : ProposalParams) (st : State) :
  isConnected v (getProposal uid p st) = isConnected v st.
Proof. apply send_isConnected. Qed.

(** *** Inbound dispatch *)

Lemma drain_emitted (fuel : nat) (uid : string) :
  forall st st', drain fuel uid st = Some st' -> emitted st' = emitted st.
Proof.
  induction fuel as [|fuel IH]; intros st st' H; cbn in H.
  - destruct (connections st !! uid) as [c|]; [|congruence].
    destruct (messageQueue c); congruence.
  - destruct (connections st !! uid) as [c|]; [|congruence].
    destruct (messageQueue c) as [|m rest]; [congruence|].
    apply IH in H. rewrite H, send_emitted. reflexivity.
Qed.

Lemma processMessageQueue_emitted (uid : string) (st st' : State) :
  processMessageQueue uid st = Some st' -> emitted st' = emitted st.
Proof.
  unfold processMessageQueue. destruct (connections st !! uid) as [c|]; [|congruence].
  destruct (negb (isAuthenticated c)); [congruence|]. apply drain_emitted.
Qed.

Lemma subscribeToInitialData_emitted (uid : string) (st : State) :
  emitted (subscribeToInitialData uid st) = emitted st.
Proof. unfold subscribeToInitialData. rewrite !send_emitted. reflexivity. Qed.

Lemma on_authorize_emitted (uid : string) (message : JSON) (st st' : State) :
  on_authorize uid message st = Some st' ->
  emitted st' = emitted st ++ event_of uid "authorize" EvAuthenticated message.
Proof.
  unfold on_authorize, event_of. destruct (present "authorize" message) as [v|].
  - destruct (processMessageQueue uid _) as [st3|] eqn:E; [|discriminate].
    intros H. injection H as <-.
    rewrite subscribeToInitialData_emitted, (processMessageQueue_emitted _ _ _ E).
    reflexivity.
  - intros H. injection H as <-. rewrite app_nil_r. reflexivity.
Qed.

Lemma emit_if_emitted (uid key : string) mk (message : JSON) (st : State) :
  emitted (emit_if uid key mk message st) = emitted st ++ event_of uid key mk message.
Proof.
  unfold emit_if, event_of. destruct (present key message); [reflexivity|].
  rewrite app_nil_r. reflexivity.
Qed.

Lemma on_ping_emitted (uid : string) (message : JSON) (now : Z) (st : State) :
  emitted (on_ping uid message now st) = emitted st.
Proof.
  unfold on_ping. destruct (present "ping" message); [|reflexivity].
  cbn. apply send_emitted.
Qed.

Lemma event_of_length (uid key : string) mk (message : JSON) :
  length (event_of uid key mk message) =
  if bool_decide (is_Some (present key message)) then 1%nat else 0%nat.
Proof.
  unfold event_of. destruct (present key message) as [v|].
  - rewrite bool_decide_eq_true_2 by eauto. reflexivity.
  - rewrite bool_decide_eq_false_2 by (intros [? ?]; discriminate). reflexivity.
Qed.

Lemma frame_events_length (uid : string) (message : JSON) :
  length (frame_events uid message) = keys_present message.
Proof.
  unfold frame_events, keys_present, event_keys. rewrite !length_app, !event_of_length.
  cbn [List.filter].
  repeat match goal with
         | |- context [bool_decide (is_Some (present ?k message))] =>
             destruct (bool_decide (is_Some (present k message)))
         end; reflexivity.
Qed.

Lemma filter_none_length {A} (p : A -> bool) (l : list A) :
  length (List.filter p l) = 0%nat -> forall x, In x l -> p x = false.
Proof.
  induction l as [|y l IH]; cbn; intros H x Hin; [contradiction|].
  destruct (p y) eqn:E; [discriminate|].
  destruct Hin as [->|Hin]; [exact E | exact (IH H x Hin)].
Qed.

(** The flush of the queue of an authenticated session on an open
    transport: the queued messages are written in the order of the queue,
    after what was written before, and the queue is empty. *)
Lemma drain_open (uid : string) (q : list Message) :
  forall (st : State) (c : connectionData) (s : Socket),
    connections st !! uid = Some c ->
    messageQueue c = q ->
    isAuthenticated c = true ->
    sockets st !! ws c = Some s ->
    readyState s = OPEN ->
    exists st' c' s',
      drain (length q) uid st = Some st' /\
      connections st' !! uid = Some c' /\
      messageQueue c' = [] /\
      subscriptions c' = subscriptions c /\
      ws c' = ws c /\
      sockets st' !! ws c = Some s' /\
      wire s' = wire s ++ q.
Proof.
  induction q as [|m rest IH]; intros st c s Hc Hq Hauth Hs Hopen.
  - exists st, c, s. cbn. rewrite Hc, Hq, app_nil_r. repeat split; assumption.
  - cbn [length drain]. rewrite Hc, Hq.
    set (st1 := with_connections (insert uid (set_queue rest c)) st).
    assert (Hsend : fst (send uid m st1) = with_sockets (alter (write m) (ws c)) st1).
    { unfold send. unfold st1 at 1. cbn [connections with_connections].
      rewrite lookup_insert_eq. cbn [isAuthenticated set_queue]. rewrite Hauth.
      cbn [negb andb]. unfold socket_open. cbn [sockets ws set_queue with_connections st1].
      rewrite Hs, Hopen. reflexivity. }
    rewrite Hsend.
    destruct (IH (with_sockets (alter (write m) (ws c)) st1) (set_queue rest c) (write m s))
      as (st' & c' & s' & Hd & Hc' & Hq' & Hsub & Hws & Hs' & Hw).
    + cbn. apply lookup_insert_eq.
    + reflexivity.
    + exact Hauth.
    + cbn. rewrite list_lookup_alter_eq, Hs. reflexivity.
    + exact Hopen.
    + exists st', c', s'. repeat split; try assumption.
      rewrite Hw. cbn. rewrite <- app_assoc. reflexivity.
Qed.

(** The flush of the queue of an authenticated session whose transport is
    not open never ends: what it takes off the queue, [send] puts back. *)
Lemma drain_spins (uid : string) (fuel : nat) :
  forall (st : State) (c : connectionData),
    connections st !! uid = Some c ->
    isAuthenticated c = true ->
    messageQueue c <> [] ->
    socket_open st c = false ->
    drain fuel uid st = None.
Proof.
  induction fuel as [|fuel IH]; intros st c Hc Hauth Hq Hopen;
    cbn [drain]; rewrite Hc; destruct (messageQueue c) as [|m rest] eqn:E;
    try congruence.
  set (st1 := with_connections (insert uid (set_queue rest c)) st).
  assert (Hsend : fst (send uid m st1) =
                  with_connections (insert uid (enqueue m (set_queue rest c))) st1).
  { unfold send. unfold st1 at 1. cbn [connections with_connections].
    rewrite lookup_insert_eq. cbn [isAuthenticated set_queue]. rewrite Hauth.
    cbn [negb andb].
    assert (Ho : socket_open st1 (set_queue rest c) = false) by exact Hopen.
    rewrite Ho. reflexivity. }
  rewrite Hsend.
  apply (IH _ (enqueue m (set_queue rest c))).
  - cbn. apply lookup_insert_eq.
  - exact Hauth.
  - cbn. intros H. apply app_eq_nil in H as [_ H]. discriminate.
  - exact Hopen.
Qed.

Lemma present_not_null (key : string) (message v : JSON) :
  present key message = Some v -> message <> JNull.
Proof. intros H ->. discriminate. Qed.

Lemma socket_open_spec (st : State) (c : connectionData) :
  socket_open st c = true ->
  exists s, sockets st !! ws c = Some s /\ readyState s = OPEN.
Proof.
  unfold socket_open. destruct (sockets st !! ws c) as [s|]; [|discriminate].
  intros H. exists s. split; [reflexivity|]. destruct (readyState s); try discriminate.
  reflexivity.
Qed.

(** The turns of that loop emit nothing and leave the queue as long as it
    was. *)
Lemma flush_turns_spin (uid : string) (n : nat) :
  forall (st : State) (c : connectionData),
    connections st !! uid = Some c ->
    isAuthenticated c = true ->
    messageQueue c <> [] ->
    socket_open st c = false ->
    emitted (flush_turns n uid st) = emitted st /\
    exists c',
      connections (flush_turns n uid st) !! uid = Some c' /\
      isAuthenticated c' = true /\
      messageQueue c' <> [] /\
      socket_open (flush_turns n uid st) c' = false.
Proof.
  induction n as [|n IH]; intros st c Hc Hauth Hq Hopen.
  - cbn. split; [reflexivity|]. eauto.
  - assert (E : flush_turns (S n) uid st = flush_turns n uid (flush_turn uid st)).
    { unfold flush_turns. rewrite Nat.iter_succ_r. reflexivity. }
    destruct (messageQueue c) as [|m rest] eqn:Em; [congruence|].
    set (st1 := with_connections (insert uid (set_queue rest c)) st).
    assert (Hsend : fst (send uid m st1) =
                    with_connections (insert uid (enqueue m (set_queue rest c))) st1).
    { unfold send. unfold st1 at 1. cbn [connections with_connections].
      rewrite lookup_insert_eq. cbn [isAuthenticated set_queue]. rewrite Hauth.
      cbn [negb andb].
      assert (Ho : socket_open st1 (set_queue rest c) = false) by exact Hopen.
      rewrite Ho. reflexivity. }
    assert (E1 : flush_turn uid st =
                 with_connections (insert uid (enqueue m (set_queue rest c))) st1).
    { unfold flush_turn. rewrite Hc, Em. exact Hsend. }
    rewrite E, E1.
    destruct (IH (with_connections (insert uid (enqueue m (set_queue rest c))) st1)
                 (enqueue m (set_queue rest c))) as (He & Hex).
    + cbn. apply lookup_insert_eq.
    + exact Hauth.
    + cbn. intros H. apply app_eq_nil in H as [_ H]. discriminate.
    + exact Hopen.
    + split; [rewrite He; reflexivity | exact Hex].
Qed.

(** When [handleMessage] does not return: the frame has an authorize key,
    the session has a queued message, and its transport is not open. *)
Lemma handleMessage_none (uid : string) (message : JSON) (now : Z) (st : State) :
  handleMessage uid message now st = None <->
  exists c v,
    connections st !! uid = Some c /\
    present "authorize" message = Some v /\
    messageQueue c <> [] /\
    socket_open st c = false.
Proof.
  split.
  - unfold handleMessage. destruct (connections st !! uid) as [c|] eqn:Hc; [|discriminate].
    intros H.
    assert (Ha : on_authorize uid message st = None).
    { destruct message; try discriminate;
        destruct (on_authorize uid _ st); try discriminate; reflexivity. }
    clear H. unfold on_authorize in Ha.
    destruct (present "authorize" message) as [v|] eqn:Hv; [|discriminate].
    exists c, v. split; [reflexivity|]. split; [reflexivity|].
    fold (authorized uid v st) in Ha.
    assert (Hc' : connections (authorized uid v st) !! uid = Some (set_authenticated c)).
    { cbn. rewrite lookup_alter_eq, Hc. reflexivity. }
    destruct (processMessageQueue uid (authorized uid v st)) as [st3|] eqn:Hp;
      [discriminate|].
    unfold processMessageQueue in Hp. rewrite Hc' in Hp.
    change (drain (length (messageQueue c)) uid (authorized uid v st) = None) in Hp.
    split.
    + intros Hq. rewrite Hq in Hp. cbn [length drain] in Hp. rewrite Hc' in Hp.
      cbn [messageQueue set_authenticated] in Hp. rewrite Hq in Hp. discriminate.
    + destruct (socket_open st c) eqn:Ho; [|reflexivity]. exfalso.
      destruct (socket_open_spec st c Ho) as (s & Hs & Hopen).
      destruct (drain_open uid (messageQueue c)
                  (authorized uid v st) (set_authenticated c) s)
        as (st' & _ & _ & Hd & _); try reflexivity; try assumption.
      rewrite Hd in Hp. discriminate.
  - intros (c & v & Hc & Hv & Hq & Ho).
    assert (Hc' : connections (authorized uid v st) !! uid = Some (set_authenticated c)).
    { cbn. rewrite lookup_alter_eq, Hc. reflexivity. }
    assert (Hp : processMessageQueue uid (authorized uid v st) = None).
    { unfold processMessageQueue. rewrite Hc'. cbn [isAuthenticated set_authenticated negb].
      apply (drain_spins uid _ _ (set_authenticated c)); try assumption. reflexivity. }
    unfold handleMessage. rewrite Hc.
    assert (Ha : on_authorize uid message st = None).
    { unfold on_authorize. rewrite Hv. fold (authorized uid v st). rewrite Hp. reflexivity. }
    pose proof (present_not_null _ _ _ Hv) as Hnn.
    destruct message; try contradiction; rewrite Ha; reflexivity.
Qed.

(** C7, as the code has it.  For every decoded frame of a user with a
    session, [handleMessage] emits one typed event for each of the nine
    recognised keys the frame carries with a truthy value, in the order of
    its tests, hence at most one when the frame carries at most one of
    them; a frame that carries none of the keys the method looks at leaves
    the manager as it was, and no error is raised.  The method returns for
    every frame but one kind: a frame with an authorize key, for a session
    that has a queued message and a transport that is not open.  On such a
    frame the session is marked authenticated and [authenticated] is
    emitted, the only event of the frame, and the flush of the queue that
    follows never ends. *)
Theorem handleMessage_events (uid : string) (message : JSON) (now : Z) (st : State) :
  (forall st',
      handleMessage uid message now st = Some st' ->
      emitted st' = emitted st ++ dispatched uid message st) /\
  length (frame_events uid message) = keys_present message /\
  (unrecognised message -> handleMessage uid message now st = Some st) /\
  (present "authorize" message = None -> is_Some (handleMessage uid message now st)) /\
  (handleMessage uid message now st = None <->
   exists c v,
     connections st !! uid = Some c /\
     present "authorize" message = Some v /\
     messageQueue c <> [] /\
     socket_open st c = false) /\
  (forall c v,
      connections st !! uid = Some c ->
      present "authorize" message = Some v ->
      messageQueue c <> [] ->
      socket_open st c = false ->
      (forall fuel, drain fuel uid (authorized uid v st) = None) /\
      forall n,
        emitted (flush_turns n uid (authorized uid v st)) =
          emitted st ++ [EvAuthenticated uid v] /\
        exists c',
          connections (flush_turns n uid (authorized uid v st)) !! uid = Some c' /\
          messageQueue c' <> []).
Proof.
  split; [|split; [|split; [|split; [|split]]]].
  - intros st'. unfold handleMessage, dispatched.
    destruct (connections st !! uid) as [c|] eqn:Hc.
    2:{ intros H. injection H as <-. rewrite app_nil_r. reflexivity. }
    destruct (match message with JNull => true | _ => false end) eqn:Hnull.
    { destruct message; try discriminate. intros H. injection H as <-.
      rewrite app_nil_r. reflexivity. }
    replace (match message with JNull => [] | _ => frame_events uid message end)
      with (frame_events uid message) by (destruct message; try reflexivity; discriminate).
    intros H.
    assert (H' : match on_authorize uid message st with
                 | Some st1 =>
                     Some (on_ping uid message now
                             (emit_if uid "error" EvApiError message
                             (emit_if uid "proposal_open_contract" EvContractUpdate message
                             (emit_if uid "buy" EvBuy message
                             (emit_if uid "proposal" EvProposal message
                             (emit_if uid "tick" EvTick message
                             (emit_if uid "statement" EvStatement message
                             (emit_if uid "portfolio" EvPortfolio message
                             (emit_if uid "balance" EvBalance message st1)))))))))
                 | None => None
                 end = Some st').
    { destruct message; exact H. }
    clear H. destruct (on_authorize uid message st) as [st1|] eqn:E; [|discriminate].
    injection H' as <-.
    rewrite on_ping_emitted, !emit_if_emitted, (on_authorize_emitted _ _ _ _ E).
    unfold frame_events. rewrite <- !app_assoc. reflexivity.
  - apply frame_events_length.
  - intros [Hkeys Hping].
    assert (Hnone : forall key, In key event_keys -> present key message = None).
    { intros key Hin. apply (filter_none_length _ _ Hkeys) in Hin.
      destruct (present key message); [|reflexivity].
      rewrite bool_decide_eq_true_2 in Hin by eauto. discriminate. }
    unfold handleMessage. destruct (connections st !! uid) as [c|]; [|reflexivity].
    unfold on_authorize, emit_if, on_ping.
    rewrite Hping, !Hnone by (cbn; tauto).
    destruct message; reflexivity.
  - intros Hauth. unfold handleMessage.
    destruct (connections st !! uid) as [c|]; [|eauto].
    unfold on_authorize. rewrite Hauth. destruct message; eauto.
  - apply handleMessage_none.
  - intros c v Hc Hv Hq Ho.
    assert (Hc' : connections (authorized uid v st) !! uid = Some (set_authenticated c)).
    { cbn. rewrite lookup_alter_eq, Hc. reflexivity. }
    split.
    + intros fuel. apply (drain_spins uid fuel _ (set_authenticated c)); try assumption.
      reflexivity.
    + intros n.
      destruct (flush_turns_spin uid n (authorized uid v st) (set_authenticated c))
        as (He & c' & Hc'' & _ & Hq' & _); try assumption; try reflexivity.
      split; [rewrite He; reflexivity | eauto].
Qed.

Lemma handleMessage_events_witness :
  handleMessage "cat" (JObj [("msg_type", JStr "pong")]) 0 (online "cat") =
  Some (online "cat").
Proof.
  apply (proj1 (proj2 (proj2 (handleMessage_events "cat" (JObj [("msg_type", JStr "pong")])
                                0 (online "cat"))))).
  split; reflexivity.
Defined.

(** C7, as stated, fails on a frame that carries two recognised keys: a
    frame with a tick and an error makes the handler emit two typed
    events. *)
Lemma two_events_from_one_frame :
  exists st',
    handleMessage "cat" tickWithError 0 (online "cat") = Some st' /\
    emitted st' =
    emitted (online "cat") ++
    [EvTick "cat" (JObj [("quote", JNum 22)]);
     EvApiError "cat" (JObj [("code", JStr "RateLimit")])] /\
    ~ (length (emitted st') - length (emitted (online "cat")) <= 1)%nat.
Proof.
  eexists. split; [vm_compute; reflexivity|].
  split; [vm_compute; reflexivity|]. vm_compute. lia.
Qed.

(** *** Reconnection *)

Lemma disconnect_sockets_length (uid : string) (st : State) :
  length (sockets (disconnect uid st)) = length (sockets st).
Proof.
  unfold disconnect. destruct (connections st !! uid) as [c|]; [|reflexivity].
  destruct (socket_open st c); cbn; [apply length_alter | reflexivity].
Qed.

(** [connect] leaves the user with a fresh session on a new transport and
    a reconnect counter of [0], whatever session the user had. *)
Lemma connect_fresh (uid tok : string) (now : Z) (st : State) :
  connections (connect uid tok now st) !! uid =
    Some {| ws := length (sockets st); userId := uid; token := tok;
            isAuthenticated := false; subscriptions := []; messageQueue := [];
            lastPing := now |} /\
  sockets (connect uid tok now st) !! length (sockets st) =
    Some {| readyState := CONNECTING; owner := uid; ownerToken := tok; wire := [] |} /\
  length (sockets (connect uid tok now st)) = S (length (sockets st)) /\
  reconnectAttempts (connect uid tok now st) !! uid = Some O /\
  timers (connect uid tok now st) = timers st /\
  emitted (connect uid tok now st) = emitted st.
Proof.
  unfold connect.
  set (st1 := match connections st !! uid with
              | Some _ => disconnect uid st
              | None => st
              end).
  assert (Hlen : length (sockets st1) = length (sockets st)).
  { unfold st1. destruct (connections st !! uid); [apply disconnect_sockets_length|reflexivity]. }
  assert (Hrest : timers st1 = timers st /\ emitted st1 = emitted st).
  { unfold st1, disconnect. destruct (connections st !! uid) as [c|]; [|split; reflexivity].
    destruct (socket_open st c); split; reflexivity. }
  cbn. rewrite !lookup_insert_eq, Hlen. repeat split.
  - rewrite <- Hlen. apply list_lookup_middle. reflexivity.
  - rewrite length_app, Hlen. cbn. lia.
  - apply Hrest.
  - apply Hrest.
Qed.

(** An unexpected close below the ceiling sets a timer; the session stays
    as it was. *)
Lemma close_sets_timer (st : State) (sock : nat) (s : Socket) :
  sockets st !! sock = Some s ->
  (default O (reconnectAttempts st !! owner s) < maxReconnectAttempts)%nat ->
  exists st1,
    step st (SocketClose sock) = Some st1 /\
    connections st1 = connections st /\
    length (sockets st1) = length (sockets st) /\
    timers st1 =
      timers st ++
      [(owner s,
        (reconnectDelay * Z.of_nat (default O (reconnectAttempts st !! owner s) + 1))%Z)] /\
    emitted st1 = emitted st.
Proof.
  intros Hs Hlt. cbn [step]. rewrite Hs. eexists. split; [reflexivity|].
  unfold handleDisconnect. cbn [reconnectAttempts with_sockets].
  apply Nat.ltb_lt in Hlt. rewrite Hlt. cbn.
  repeat split. apply length_alter.
Qed.

(** C2, as the code has it.  After an unexpected close below the ceiling,
    the reconnect timer replaces the user's session by a fresh one on a new
    transport, with the same token: it is not authenticated, its
    subscription set is empty and its message queue is empty, and nothing
    has been written to the new transport, whatever the subscriptions and
    the queue were before the close.  On a session, a message sent before
    authentication goes to the end of the queue, and the flush of the queue
    of an authenticated session on an open transport writes the queued
    messages in their original order. *)
Theorem reconnect_starts_fresh_session :
  (forall (st : State) (uid : string) (c : connectionData) (sock : nat) (s : Socket)
          (now : Z),
      connections st !! uid = Some c ->
      token c <> EmptyString ->
      sockets st !! sock = Some s ->
      owner s = uid ->
      (default O (reconnectAttempts st !! uid) < maxReconnectAttempts)%nat ->
      exists st1 st2,
        step st (SocketClose sock) = Some st1 /\
        step st1 (TimerFires (length (timers st)) now) = Some st2 /\
        connections st2 !! uid =
          Some {| ws := length (sockets st); userId := uid; token := token c;
                  isAuthenticated := false; subscriptions := []; messageQueue := [];
                  lastPing := now |} /\
        sockets st2 !! length (sockets st) =
          Some {| readyState := CONNECTING; owner := uid; ownerToken := token c;
                  wire := [] |}) /\
  (forall (st : State) (uid : string) (c : connectionData) (m : Message),
      connections st !! uid = Some c ->
      isAuthenticated c = false ->
      has_authorize m = false ->
      connections (fst (send uid m st)) !! uid = Some (enqueue m c)) /\
  (forall (st : State) (uid : string) (c : connectionData) (s : Socket),
      connections st !! uid = Some c ->
      isAuthenticated c = true ->
      sockets st !! ws c = Some s ->
      readyState s = OPEN ->
      exists st' c' s',
        processMessageQueue uid st = Some st' /\
        connections st' !! uid = Some c' /\
        messageQueue c' = [] /\
        sockets st' !! ws c = Some s' /\
        wire s' = wire s ++ messageQueue c).
Proof.
  repeat split.
  - intros st uid c sock s now Hc Htok Hs Hown Hlt. subst uid.
    destruct (close_sets_timer st sock s Hs Hlt) as (st1 & Hstep & Hconn & Hlen & Htim & _).
    exists st1. eexists. split; [exact Hstep|].
    cbn [step]. rewrite Htim, list_lookup_middle by reflexivity.
    split; [reflexivity|].
    unfold reconnectTimer. cbn [connections with_timers]. rewrite Hconn, Hc.
    destruct (String.eqb_spec (token c) EmptyString) as [E|_]; [contradiction|].
    cbn [negb].
    destruct (connect_fresh (owner s) (token c) now (with_timers (delete (length (timers st))) st1))
      as (H1 & H2 & _).
    cbn [sockets with_timers] in H1, H2. rewrite Hlen in H1, H2.
    split; [exact H1 | exact H2].
  - intros st uid c m Hc Hauth Hm. unfold send. rewrite Hc, Hauth, Hm. cbn.
    apply lookup_insert_eq.
  - intros st uid c s Hc Hauth Hs Hopen.
    destruct (drain_open uid (messageQueue c) st c s Hc eq_refl Hauth Hs Hopen)
      as (st' & c' & s' & Hd & Hc' & Hq' & _ & _ & Hs' & Hw).
    exists st', c', s'. unfold processMessageQueue. rewrite Hc, Hauth. cbn [negb].
    repeat split; assumption.
Qed.

Lemma reconnect_starts_fresh_session_witness :
  exists st1 st2,
    step subscribed (SocketClose 0) = Some st1 /\
    step st1 (TimerFires (length (timers subscribed)) 1) = Some st2 /\
    connections st2 !! "cat" =
      Some {| ws := length (sockets subscribed); userId := "cat";
              token := token subscribedSession;
              isAuthenticated := false; subscriptions := []; messageQueue := [];
              lastPing := 1 |} /\
    sockets st2 !! length (sockets subscribed) =
      Some {| readyState := CONNECTING; owner := "cat";
              ownerToken := token subscribedSession; wire := [] |}.
Proof.
  apply (proj1 reconnect_starts_fresh_session subscribed "cat" subscribedSession 0%nat
               subscribedSocket 1%Z).
  - vm_compute. reflexivity.
  - discriminate.
  - vm_compute. reflexivity.
  - reflexivity.
  - vm_compute. lia.
Defined.

(** C2, as stated, fails.  Cat is subscribed to the ticks of R_100 when the
    transport closes, and subscribes to R_50 while the session is down (the
    request is queued).  After the reconnect the session has no
    subscription and an empty queue, and what was written to the new
    transport is the authorize request and the three initial requests:
    neither subscription was sent again and the queued request is gone. *)
Lemma reconnect_drops_subscriptions :
  exists before after c0 c1 s1,
    run Session.init beforeReconnect = Some before /\
    connections before !! "cat" = Some c0 /\
    subscriptions c0 = ["ticks_R_100"; "ticks_R_50"] /\
    messageQueue c0 = [MsgTicks "R_50"] /\
    run before reconnect = Some after /\
    connections after !! "cat" = Some c1 /\
    isAuthenticated c1 = true /\
    subscriptions c1 = [] /\
    messageQueue c1 = [] /\
    sockets after !! ws c1 = Some s1 /\
    wire s1 = [MsgAuthorize "token"; MsgBalance; MsgPortfolio; MsgStatement 50] /\
    subscriptions c1 <> subscriptions c0.
Proof.
  do 5 eexists.
  split; [vm_compute; reflexivity|].
  split; [vm_compute; reflexivity|].
  split; [reflexivity|]. split; [reflexivity|].
  split; [vm_compute; reflexivity|].
  split; [vm_compute; reflexivity|].
  split; [reflexivity|]. split; [reflexivity|]. split; [reflexivity|].
  split; [vm_compute; reflexivity|].
  split; [reflexivity|]. discriminate.
Qed.

(** *** The reconnect ceiling *)

(** Below the ceiling [handleDisconnect] sets one timer, with a delay of
    the base interval times the attempt number, and counts the attempt. *)
Lemma handleDisconnect_below_ceiling (uid : string) (st : State) (attempts : nat) :
  default O (reconnectAttempts st !! uid) = attempts ->
  (attempts < maxReconnectAttempts)%nat ->
  timers (handleDisconnect uid st) =
    timers st ++ [(uid, (reconnectDelay * Z.of_nat (attempts + 1))%Z)] /\
  reconnectAttempts (handleDisconnect uid st) !! uid = Some (attempts + 1)%nat /\
  connections (handleDisconnect uid st) = connections st /\
  emitted (handleDisconnect uid st) = emitted st.
Proof.
  intros Ha Hlt. unfold handleDisconnect. rewrite Ha.
  apply Nat.ltb_lt in Hlt. rewrite Hlt. cbn. rewrite lookup_insert_eq.
  repeat split.
Qed.

(** At the ceiling [handleDisconnect] emits the give-up event once, drops
    the session and its counter, and sets no timer. *)
Lemma handleDisconnect_at_ceiling (uid : string) (st : State) :
  (maxReconnectAttempts <= default O (reconnectAttempts st !! uid))%nat ->
  emitted (handleDisconnect uid st) = emitted st ++ [EvMaxReconnectFailed uid] /\
  connections (handleDisconnect uid st) !! uid = None /\
  reconnectAttempts (handleDisconnect uid st) !! uid = None /\
  timers (handleDisconnect uid st) = timers st.
Proof.
  intros Hge. unfold handleDisconnect.
  destruct (default O (reconnectAttempts st !! uid) <? maxReconnectAttempts)%nat eqn:E.
  - apply Nat.ltb_lt in E. lia.
  - cbn. rewrite !lookup_delete_eq. repeat split.
Qed.

Lemma run_app (l1 l2 : list Input) :
  forall st,
    run st (l1 ++ l2) =
    match run st l1 with
    | Some st' => run st' l2
    | None => None
    end.
Proof.
  induction l1 as [|i l1 IH]; intros st; cbn; [reflexivity|].
  destruct (step st i); [apply IH | reflexivity].
Qed.

Lemma connected_reconnected : reconnected 0 connected.
Proof. unfold reconnected, connected. vm_compute. repeat split. Qed.

(** One more round: the transport of the session closes and the timer
    fires. *)
Lemma reconnected_round (n : nat) (st : State) :
  reconnected n st ->
  exists st1 st2,
    step st (SocketClose n) = Some st1 /\
    timers st1 = [("cat", 3000%Z)] /\
    emitted st1 = [] /\
    step st1 (TimerFires 0 0) = Some st2 /\
    reconnected (S n) st2.
Proof.
  intros (Hc & Hs & Hlen & Ha & Ht & He).
  destruct (close_sets_timer st n _ Hs) as (st1 & Hstep & Hconn & Hlen1 & Htim & Hem).
  { cbn. rewrite Ha. cbn. unfold maxReconnectAttempts. lia. }
  cbn [owner] in Htim. rewrite Ha, Ht in Htim. cbn in Htim.
  exists st1. eexists. split; [exact Hstep|]. split; [exact Htim|].
  split; [congruence|].
  cbn [step]. rewrite Htim. cbn [lookup list_lookup].
  split; [reflexivity|].
  unfold reconnectTimer. cbn [connections with_timers]. rewrite Hconn, Hc.
  cbn [token sessionOn String.eqb Ascii.eqb Bool.eqb negb].
  destruct (connect_fresh "cat" "token" 0 (with_timers (delete 0%nat) st1))
    as (H1 & H2 & H3 & H4 & H5 & H6).
  cbn [sockets timers emitted with_timers] in H1, H2, H3, H4, H5, H6.
  rewrite Hlen1, Hlen in H1, H2, H3. rewrite Htim in H5. rewrite Hem, He in H6.
  unfold reconnected. repeat split; assumption.
Qed.

Lemma flapping_reconnected (n : nat) :
  exists st, run connected (flapping n) = Some st /\ reconnected n st.
Proof.
  induction n as [|n (st & Hrun & Hinv)].
  - exists connected. split; [reflexivity | apply connected_reconnected].
  - destruct (reconnected_round n st Hinv) as (st1 & st2 & H1 & _ & _ & H2 & Hinv').
    exists st2. split; [|exact Hinv'].
    cbn [flapping]. rewrite run_app, Hrun. cbn [run]. rewrite H1, H2. reflexivity.
Qed.

(** C3 at the failing input.  Cat's transport closes and the reconnect
    timer fires, [n] times over, for any [n]: the session is still there,
    the reconnect counter is back at [0] (the timer calls [connect], which
    sets it to [0]), no timer is waiting and no event was emitted.  When
    the transport closes once more, one more reconnect is set, with the
    base delay of 3000, and [max_reconnect_failed] is not emitted: the
    ceiling of 5 is never reached and the delay does not grow. *)
Theorem reconnect_counter_reset_by_connect (n : nat) :
  exists st st1,
    run connected (flapping n) = Some st /\
    connections st !! "cat" = Some (sessionOn n) /\
    reconnectAttempts st !! "cat" = Some O /\
    timers st = [] /\
    emitted st = [] /\
    step st (SocketClose n) = Some st1 /\
    timers st1 = [("cat", 3000%Z)] /\
    emitted st1 = [].
Proof.
  destruct (flapping_reconnected n) as (st & Hrun & Hinv).
  destruct (reconnected_round n st Hinv) as (st1 & _ & H1 & Ht & He & _).
  destruct Hinv as (Hc & _ & _ & Ha & Htim & Hem).
  exists st, st1. repeat split; assumption.
Qed.

End SessionFacts.

(** ** Copy-trade replicator *)

Section CopyTradeFacts.

Import Store CopyTradeService Props.

(** C6.  [calculateFollowerStake] is a function of the follower's settings,
    the follower's balance and the leader's stake alone: it returns
    [investmentPerTrade] when that is set, else [balance * riskPercentage /
    100] when [riskPercentage] is set, else the smaller of the leader's
    stake and [0.02 * balance]; with balance 1000, risk percentage 5 and no
    investment per trade it returns 50.  (A setting is set when it is
    present and not zero.) *)
Theorem stake_policy :
  (forall f1 f2 originalStake,
      copyTradeSettings f1 = copyTradeSettings f2 -> balance f1 = balance f2 ->
      calculateFollowerStake f1 originalStake = calculateFollowerStake f2 originalStake) /\
  (forall follower originalStake amount,
      investmentPerTrade (copyTradeSettings follower) = Some amount ->
      JS.truthy (Some amount) = true ->
      calculateFollowerStake follower originalStake = amount) /\
  (forall follower originalStake pct,
      JS.truthy (investmentPerTrade (copyTradeSettings follower)) = false ->
      riskPercentage (copyTradeSettings follower) = Some pct ->
      JS.truthy (Some pct) = true ->
      calculateFollowerStake follower originalStake = balance follower * pct / 100) /\
  (forall follower originalStake,
      JS.truthy (investmentPerTrade (copyTradeSettings follower)) = false ->
      JS.truthy (riskPercentage (copyTradeSettings follower)) = false ->
      calculateFollowerStake follower originalStake =
      Qmin originalStake (balance follower * (2 # 100))) /\
  (forall follower originalStake,
      balance follower = 1000 ->
      riskPercentage (copyTradeSettings follower) = Some 5 ->
      investmentPerTrade (copyTradeSettings follower) = None ->
      calculateFollowerStake follower originalStake == 50).
Proof.
  unfold calculateFollowerStake. repeat split.
  - intros f1 f2 s Hs Hb. rewrite Hs, Hb. reflexivity.
  - intros follower s amount Hi Ht. rewrite Hi. cbn in Ht. rewrite Ht. reflexivity.
  - intros follower s pct Hi Hr Ht. rewrite Hr. cbn in Ht. rewrite Ht.
    destruct (investmentPerTrade (copyTradeSettings follower)) as [a|]; [|reflexivity].
    cbn in Hi. rewrite Hi. reflexivity.
  - intros follower s Hi Hr.
    destruct (investmentPerTrade (copyTradeSettings follower)) as [a|];
      destruct (riskPercentage (copyTradeSettings follower)) as [p|];
      cbn in Hi, Hr; rewrite ?Hi, ?Hr; reflexivity.
  - intros follower s Hb Hr Hi. rewrite Hi, Hr, Hb. reflexivity.
Qed.

Lemma stake_policy_witness :
  calculateFollowerStake (Scenario.user "cat" true None (Some 5) 1000) 10 == 50 /\
  calculateFollowerStake (Scenario.user "bob" true (Some 10) None 4) 25 = 10.
Proof.
  split.
  - apply (proj2 (proj2 (proj2 (proj2 stake_policy)))); reflexivity.
  - apply (proj1 (proj2 stake_policy)); reflexivity.
Defined.

(** C10.  [registerFollower] sets the follower's daily loss to [0] whatever
    it was and adds the follower to the leader's set; after it the
    max-daily-loss check of [copyTradeToFollower] lets the follower through
    for every positive ceiling, also when it stopped the follower before,
    without [resetDailyLoss]. *)
Theorem registerFollower_resets_daily_loss (followerId leaderId : string) (st : State) :
  dailyLoss (registerFollower followerId leaderId st) !! followerId = Some 0 /\
  followerId ∈ default [] (followers (registerFollower followerId leaderId st) !! leaderId) /\
  forall follower ceiling,
    maxDailyLoss (copyTradeSettings follower) = Some ceiling ->
    0 < ceiling ->
    reachedMaxDailyLoss follower
      (dailyLossOf followerId (registerFollower followerId leaderId st)) = false.
Proof.
  unfold registerFollower. cbn. repeat split.
  - apply lookup_insert_eq.
  - rewrite lookup_insert_eq. cbn. unfold Session.set_add.
    case_bool_decide as Hin; [exact Hin|]. apply elem_of_app. right.
    apply list_elem_of_singleton. reflexivity.
  - intros follower ceiling Hc Hpos. unfold reachedMaxDailyLoss, dailyLossOf.
    cbn. rewrite Hc, lookup_insert_eq. cbn. unfold JS.geb.
    destruct (Qle_bool ceiling 0) eqn:E; [|reflexivity].
    apply Qle_bool_iff in E. lra.
Qed.

Lemma registerFollower_resets_daily_loss_witness :
  let st := default Scenario.replicator0
              (run Scenario.replicator0 Scenario.losingCopy) in
  let cat := Scenario.user "cat" true None (Some 5) 1000 in
  dailyLossOf "cat" st = 50 /\
  reachedMaxDailyLoss cat (dailyLossOf "cat" (registerFollower "cat" "leader2" st)) = false.
Proof.
  split.
  - vm_compute. reflexivity.
  - apply (proj2 (proj2 (registerFollower_resets_daily_loss "cat" "leader2" _))
                 (Scenario.user "cat" true None (Some 5) 1000) 100).
    + reflexivity.
    + reflexivity.
Defined.

(** *** Fan-out *)

Lemma same_checks_refl (st : State) : same_checks st st.
Proof. split; reflexivity. Qed.

Lemma same_checks_trans (a b c : State) :
  same_checks a b -> same_checks b c -> same_checks a c.
Proof.
  intros [H1 H2] [H3 H4]. split; [congruence|].
  intros v. rewrite H4. apply H2.
Qed.

Lemma takes_copy_same_checks env leader originalTrade (st st' : State) (f : string) :
  same_checks st st' ->
  takes_copy env leader originalTrade st' f = takes_copy env leader originalTrade st f.
Proof.
  intros [Hd Hc]. unfold takes_copy, dailyLossOf. rewrite Hd, Hc. reflexivity.
Qed.

Lemma unregisterFollower_same_checks (f l : string) (st : State) :
  same_checks st (unregisterFollower f l st).
Proof.
  unfold unregisterFollower. destruct (followers st !! l); split; reflexivity.
Qed.

(** One call of [copyTradeToFollower], whether it returns or throws: the
    checks of the other followers are as before, and the trade collection has
    one more record exactly when the follower takes a copy. *)
Lemma copyTradeToFollower_effect env leader originalTrade (f : string) (st : State) :
  let st' := fst (copyTradeToFollower env f (Some leader) originalTrade st) in
  same_checks st st' /\
  trades st' =
  if takes_copy env leader originalTrade st f
  then fst (create (copyTradeDraft f leader originalTrade (copy_stake env originalTrade f))
                   (trades st))
  else trades st.
Proof.
  unfold copyTradeToFollower, takes_copy, copy_stake.
  destruct (findUser env f) as [[follower|]|]; cbn [fst];
    try (split; [apply same_checks_refl | reflexivity]).
  destruct (enabled (copyTradeSettings follower)); cbn [negb andb fst];
    [|split; [apply same_checks_refl | reflexivity]].
  destruct (bool_decide (u_id leader ∈ following follower)); cbn [negb andb fst].
  2:{ split; [apply unregisterFollower_same_checks|].
      unfold unregisterFollower. destruct (followers st !! u_id leader); reflexivity. }
  destruct (reachedMaxDailyLoss follower (dailyLossOf f st)); cbn [negb andb fst];
    [split; [apply same_checks_refl | reflexivity]|].
  destruct (Session.isConnected f (wsm st)); cbn [negb andb fst];
    [|split; [apply same_checks_refl | reflexivity]].
  destruct (JS.ltb (balance follower)
              (calculateFollowerStake follower (Store.stake originalTrade)));
    cbn [negb andb fst]; [split; [apply same_checks_refl | reflexivity]|].
  destruct (createRejects env f); cbn [negb andb fst];
    [split; [apply same_checks_refl | reflexivity]|].
  split; [|reflexivity].
  split; [reflexivity|]. intros v. cbn. apply getProposal_isConnected.
Qed.

(** The loop over the followers records a copy for exactly the followers
    that take one, whatever the calls for the other followers do. *)
Lemma replicateLoop_trades env leader originalTrade (fs : list string) (st : State) :
  same_checks st (replicateLoop env (Some leader) originalTrade fs st) /\
  trades (replicateLoop env (Some leader) originalTrade fs st) =
  with_copies env leader originalTrade
    (List.filter (takes_copy env leader originalTrade st) fs) (trades st).
Proof.
  revert st. induction fs as [|f fs IH]; intros st.
  - split; [apply same_checks_refl | reflexivity].
  - unfold replicateLoop. cbn [fold_left].
    destruct (copyTradeToFollower_effect env leader originalTrade f st) as [Hg Ht].
    set (st1 := fst (copyTradeToFollower env f (Some leader) originalTrade st)) in *.
    destruct (IH st1) as [Hg' Ht']. unfold replicateLoop in Hg', Ht'.
    split; [exact (same_checks_trans _ _ _ Hg Hg')|].
    rewrite Ht', Ht.
    rewrite (List.filter_ext _ (takes_copy env leader originalTrade st)
               (fun g => takes_copy_same_checks env leader originalTrade st st1 g Hg)).
    cbn [List.filter].
    destruct (takes_copy env leader originalTrade st f); reflexivity.
Qed.






(** The same fan-out when the look-up of the first follower is rejected, so
    that the call for that follower throws: the copy for the last follower
    is recorded all the same. *)
Example fan_out_after_exception :
  let env' := {| findUser := fun id => if String.eqb id "ann" then Rejected
                                       else Scenario.users id;
                 findTradeRejects := false;
                 createRejects := fun _ => false |} in
  snd (copyTradeToFollower env' "ann" (Some (Scenario.user "leader" false None None 500))
         Scenario.leaderTrade Scenario.replicator3) = Threw /\
  map userId (CopyTradeService.trades
                (replicateTrade env' "leader" (Some 77%Z) Scenario.replicator3)) =
  ["leader"; "cat"].
Proof. vm_compute. split; reflexivity. Qed.

End CopyTradeFacts.

(** ** Bot runtime *)

Section BotFacts.

Import BotExecutor Props.

Variable Math_sqrt : Q -> Q.

Lemma getBot_updateBot (id k : string) (f : BotData -> BotData) bots :
  getBot id (updateBot k f bots) =
  if String.eqb k id then f <$> getBot id bots else getBot id bots.
Proof.
  induction bots as [|[k' d] bots IH]; cbn.
  - destruct (String.eqb k id); reflexivity.
  - destruct (String.eqb_spec k' k) as [->|Hk]; cbn.
    + destruct (String.eqb_spec k id) as [->|Hid]; cbn; [reflexivity|].
      reflexivity.
    + rewrite IH. destruct (String.eqb_spec k id) as [->|Hid].
      * destruct (String.eqb_spec k' id) as [->|_]; [congruence|reflexivity].
      * reflexivity.
Qed.

End BotFacts.

(** ** Orders of a bot *)

Section Orders.

Import BotExecutor Props Scenario.

Variable Math_sqrt : Q -> Q.

(** The loop over the bots stops at the first bot that places a trade: one
    tick event leaves at most one more call waiting for [create]. *)
Lemma processBots_pending (ids : list string) uid tick clock :
  forall st,
    (length (pending (processBots Math_sqrt ids uid tick clock st))
     <= S (length (pending st)))%nat.
Proof.
  induction ids as [|k ids IH]; intros st; cbn [processBots]; [lia|].
  destruct (getBot k (activeBots st)) as [d|]; [|apply IH].
  destruct (String.eqb (userId d) uid
            && String.eqb (symbol (configuration (bot d))) (t_symbol tick)
            && isRunning d); [|apply IH].
  destruct (evaluateTradeSignal Math_sqrt _ clock) as [[sig ind]|].
  - cbn. rewrite length_app. cbn. lia.
  - etransitivity; [apply IH|]. cbn. lia.
Qed.

(** A bot whose current-trade slot is taken is not evaluated. *)
Lemma evaluateTradeSignal_in_trade (d : BotData) (clock tradeId : nat) :
  currentTrade d = Some tradeId -> evaluateTradeSignal Math_sqrt d clock = None.
Proof. intros H. unfold evaluateTradeSignal. rewrite H. reflexivity. Qed.

(** A tick for a bot whose slot is empty places a trade whenever the
    strategy gives a signal, whatever calls of [placeTrade] are still
    waiting: a placement in flight for the same bot does not hold it back. *)
Lemma tick_places_whatever_is_pending (st : State) (id : string) (d : BotData)
      (tick : Tick) (clock : nat) (sig : Signal) ind :
  activeBots st = [(id, d)] ->
  symbol (configuration (bot d)) = t_symbol tick ->
  isRunning d = true ->
  let d1 := set_tickBuffer (push_capped 100 tick (tickBuffer d)) d in
  evaluateTradeSignal Math_sqrt d1 clock = Some (sig, ind) ->
  pending (handleTickUpdate Math_sqrt (userId d) tick clock st) =
  pending st ++
  [AwaitCreate id (tradeDraft d1 sig tick) (tradeProposal d1 sig)
               {| k_userId := userId d; k_tick := tick; k_rest := [] |}].
Proof.
  intros Hbots Hsym Hrun d1 Hsig. unfold handleTickUpdate.
  cbn [activeBots with_tickData]. rewrite Hbots. cbn [map fst processBots].
  cbn [activeBots with_tickData]. rewrite Hbots. cbn [getBot].
  rewrite String.eqb_refl, String.eqb_refl, Hsym, String.eqb_refl, Hrun.
  cbn [andb]. fold d1. rewrite Hsig. reflexivity.
Qed.

(** C1 at the failing input.  The bot has no open trade.  Its twentieth
    tick gives a signal: [placeTrade] is waiting for [create] and the
    current-trade slot is still empty.  The next tick arrives before
    [create] resolves and gives a signal again.  When both calls have
    resumed there are two pending trade records of the bot and two proposal
    requests on the wire, and no trade has settled in between. *)
Theorem duplicate_order_before_create_resolves :
  (exists st d draft params k,
      run Math_sqrt executor0 (zigzag 20) = Some st /\
      getBot "bot1" (activeBots st) = Some d /\
      currentTrade d = None /\
      pending st = [AwaitCreate "bot1" draft params k] /\
      trades st = []) /\
  (exists st,
      run Math_sqrt executor0 rapidTicks = Some st /\
      map Store.botId (trades st) = [Some "bot1"; Some "bot1"] /\
      map Store.status (trades st) = ["pending"; "pending"] /\
      map Store.entryPrice (trades st) = [Some 22; Some 20] /\
      length (proposals_written (wsm st)) = 2%nat).
Proof.
  split.
  - do 5 eexists. split; [vm_compute; reflexivity|].
    split; [vm_compute; reflexivity|]. repeat split.
  - eexists. split; [vm_compute; reflexivity|]. repeat split.
Qed.

(** ** Daily loss of a bot *)

(** C4 at the failing input.  The bot places two trades on two ticks in a
    row.  The first is confirmed under contract 90 while the slot of the
    bot holds it; then the second record is created and takes the slot.
    Contract 90 is lost by 10: the record of the first trade is closed as
    lost with a loss of 10, no bot holds that trade, and the daily loss of
    the bot, the only accumulator of the bot, stays at 0, as does the
    count of consecutive losses.  The losses of the trades of the bot
    settled as lost since the bot was started sum to 10. *)
Theorem daily_loss_misses_orphaned_trade :
  exists st d t,
    run Math_sqrt executor0 orphanedLoss = Some st /\
    trades st !! 0%nat = Some t /\
    Store.botId t = Some "bot1" /\
    Store.status t = "lost" /\
    Store.profitLoss t = Some (- (10)) /\
    settled_losses "bot1" (trades st) = 10 /\
    getBot "bot1" (activeBots st) = Some d /\
    dailyLoss d = 0 /\
    consecutiveLosses d = 0%nat /\
    currentTrade d = Some 1%nat /\
    ~ dailyLoss d == settled_losses "bot1" (trades st).
Proof.
  do 3 eexists. split; [vm_compute; reflexivity|].
  split; [vm_compute; reflexivity|].
  split; [reflexivity|]. split; [reflexivity|]. split; [reflexivity|].
  split; [vm_compute; reflexivity|].
  split; [vm_compute; reflexivity|].
  split; [reflexivity|]. split; [reflexivity|]. split; [reflexivity|].
  vm_compute. discriminate.
Qed.

End Orders.

(** * Further properties *)

(** ** Indicators: ranges and windows *)

Section IndicatorRanges.

Import Indicators Props.

Lemma of_nat_positive (n : nat) : (0 < n)%nat -> 0 < JS.of_nat n.
Proof. intros H. unfold JS.of_nat, Qlt. simpl. lia. Qed.

Lemma of_nat_nonneg (n : nat) : 0 <= JS.of_nat n.
Proof. unfold JS.of_nat, Qle. simpl. lia. Qed.




Lemma slice_last_app {A} (n : nat) (pre w : list A) :
  (0 < n <= length w)%nat -> JS.slice_last n (pre ++ w) = JS.slice_last n w.
Proof.
  intros H. unfold JS.slice_last. destruct n as [|n]; [lia|].
  rewrite length_app, List.skipn_app.
  rewrite List.skipn_all2 by lia. cbn [app]. f_equal. lia.
Qed.

Lemma last_app_nonempty {A} (pre w : list A) :
  w <> [] -> last (pre ++ w) = last w.
Proof.
  intros Hw. induction pre as [|x pre IH]; [reflexivity|].
  cbn [app]. destruct (pre ++ w) eqn:E.
  - destruct pre, w; cbn in E; congruence.
  - rewrite <- IH. reflexivity.
Qed.

(** The indicators of a tick buffer are those of its last 50 quotes: what
    came before them has no effect. *)
Theorem indicators_of_last_50 (Math_sqrt : Q -> Q) (older recent : list Q) :
  (50 <= length recent)%nat ->
  calculateIndicators Math_sqrt (older ++ recent) = calculateIndicators Math_sqrt recent.
Proof.
  intros Hlen. unfold calculateIndicators.
  rewrite length_app.
  destruct (length older + length recent <? 20)%nat eqn:E1;
    [apply Nat.ltb_lt in E1; lia|].
  destruct (length recent <? 20)%nat eqn:E2; [apply Nat.ltb_lt in E2; lia|].
  rewrite slice_last_app by lia.
  rewrite last_app_nonempty by (destruct recent; [cbn in Hlen; lia | discriminate]).
  reflexivity.
Qed.

Lemma indicators_of_last_50_witness :
  calculateIndicators sqrt_floor ([1; 2; 3] ++ map Scenario.quoteAt (seq 0 50)) =
  calculateIndicators sqrt_floor (map Scenario.quoteAt (seq 0 50)).
Proof.
  apply (indicators_of_last_50 sqrt_floor [1; 2; 3] (map Scenario.quoteAt (seq 0 50))).
  rewrite length_map, length_seq. lia.
Defined.

(** *** A falling market *)

Lemma decreasing_skipn (n : nat) (prices : list Q) :
  strictly_decreasing prices = true -> strictly_decreasing (skipn n prices) = true.
Proof.
  revert prices. induction n as [|n IH]; intros prices H; [exact H|].
  destruct prices as [|x rest]; [reflexivity|]. cbn [skipn]. apply IH.
  destruct rest as [|y rest']; [reflexivity|].
  cbn [strictly_decreasing] in H. apply andb_prop in H. tauto.
Qed.

Lemma decreasing_slice_last (n : nat) (prices : list Q) :
  strictly_decreasing prices = true ->
  strictly_decreasing (JS.slice_last n prices) = true.
Proof.
  intros H. unfold JS.slice_last. destruct n; [exact H|]. now apply decreasing_skipn.
Qed.

(** On strictly falling prices the RSI is zero. *)
Lemma rsi_of_falling_prices (prices : list Q) (period : nat) :
  (0 < period)%nat ->
  (period + 1 <= length prices)%nat ->
  strictly_decreasing prices = true ->
  exists r, calculateRSI prices period = Some r /\ r == 0.
Proof.
  intros Hpos Hlen Hdec. unfold calculateRSI.
  destruct (length prices <? period + 1)%nat eqn:E; [apply Nat.ltb_lt in E; lia|].
  pose proof (rsi_loop_losses prices (seq (length prices - period) period)) as Hloop.
  destruct (fold_left (rsi_step prices) (seq (length prices - period) period) (0, 0))
    as [gains losses] eqn:Ef.
  assert (Hdown : forall i, In i (seq (length prices - period) period) ->
                            nth i prices 0 < nth (i - 1) prices 0).
  { intros i Hi. apply in_seq in Hi. destruct i as [|i]; [lia|].
    replace (S i - 1)%nat with i by lia. apply decreasing_nth; [exact Hdec | lia]. }
  specialize (Hloop Hdown 0 0). rewrite Ef in Hloop. cbn [fst snd] in Hloop.
  destruct Hloop as (Hg & _ & Hlt). subst gains.
  assert (Hl : 0 < losses).
  { apply Hlt. destruct period; [lia | discriminate]. }
  pose proof (of_nat_positive period Hpos) as Hn.
  assert (Hal : 0 < losses / JS.of_nat period).
  { apply Qlt_shift_div_l; lra. }
  destruct (Qeq_bool (losses / JS.of_nat period) 0) eqn:Eb.
  { apply Qeq_bool_iff in Eb. lra. }
  eexists. split; [reflexivity|].
  assert (Hrs : 0 / JS.of_nat period / (losses / JS.of_nat period) == 0)
    by (unfold Qdiv; ring).
  rewrite Hrs. reflexivity.
Qed.

End IndicatorRanges.

(** ** Bot runtime: when a bot does not trade *)

Section BotGuards.

Import Indicators BotExecutor Props.

Variable Math_sqrt : Q -> Q.

Lemma slice_last_short {A} (n : nat) (l : list A) :
  (length l <= n)%nat -> JS.slice_last n l = l.
Proof.
  intros H. unfold JS.slice_last. destruct n; [reflexivity|].
  replace (length l - S n)%nat with 0%nat by lia. reflexivity.
Qed.

Lemma slice_last_length_min {A} (n : nat) (l : list A) :
  (0 < n)%nat -> length (JS.slice_last n l) = Nat.min n (length l).
Proof.
  intros H. unfold JS.slice_last. destruct n; [lia|]. rewrite length_skipn. lia.
Qed.

(** What [evaluateTradeSignal] returns when the strategy holds. *)
Lemma no_trade_on_hold (d : BotData) (clock : nat) :
  action (evaluateStrategy (bot d)
            (calculateIndicators Math_sqrt (map quote (tickBuffer d)))) = HOLD ->
  evaluateTradeSignal Math_sqrt d clock = None.
Proof.
  intros H. unfold evaluateTradeSignal.
  destruct (currentTrade d); [reflexivity|].
  destruct (negb (checkRiskManagement d)); [reflexivity|].
  destruct (match tradingHours (configuration (bot d)) with
            | Some th => enabled th && negb (isWithinTradingHours th clock)
            | None => false
            end); [reflexivity|].
  rewrite H. reflexivity.
Qed.

(** No bot places a trade before its buffer holds 20 ticks, and a
    trend-following bot none before it holds 26. *)
Theorem no_trade_on_short_buffer (d : BotData) (clock : nat) :
  ((length (tickBuffer d) < 20)%nat -> evaluateTradeSignal Math_sqrt d clock = None) /\
  (type (bot d) = "trend_follower" ->
   (length (tickBuffer d) < 26)%nat -> evaluateTradeSignal Math_sqrt d clock = None).
Proof.
  split.
  - intros Hlen. apply no_trade_on_hold. unfold calculateIndicators.
    rewrite length_map. apply Nat.ltb_lt in Hlen. rewrite Hlen. reflexivity.
  - intros Htype Hlen. apply no_trade_on_hold. unfold calculateIndicators.
    rewrite length_map.
    destruct (length (tickBuffer d) <? 20)%nat; [reflexivity|].
    unfold evaluateStrategy. rewrite Htype. cbn [String.eqb Ascii.eqb Bool.eqb orb].
    unfold trendFollowerStrategy. cbn [macdOf ema12 ema26].
    assert (H26 : calculateEMA (JS.slice_last 50 (map quote (tickBuffer d))) 26 = None).
    { unfold calculateEMA.
      rewrite slice_last_short by (rewrite length_map; lia).
      rewrite length_map. apply Nat.ltb_lt in Hlen. rewrite Hlen. reflexivity. }
    unfold calculateMACD. rewrite H26.
    destruct (calculateEMA (JS.slice_last 50 (map quote (tickBuffer d))) 12); reflexivity.
Qed.

(** A scalper or swing bot places no trade on a buffer of strictly falling
    quotes: the RSI is zero there, and both strategies take a zero RSI for
    a missing one. *)
Theorem no_trade_on_falling_market (d : BotData) (clock : nat) :
  type (bot d) = "scalper" \/ type (bot d) = "elite_speedbot" \/ type (bot d) = "swing" ->
  (20 <= length (tickBuffer d))%nat ->
  strictly_decreasing (map quote (tickBuffer d)) = true ->
  evaluateTradeSignal Math_sqrt d clock = None.
Proof.
  intros Htype Hlen Hdec. apply no_trade_on_hold. unfold calculateIndicators.
  rewrite length_map.
  destruct (length (tickBuffer d) <? 20)%nat eqn:E; [apply Nat.ltb_lt in E; lia|].
  destruct (rsi_of_falling_prices (JS.slice_last 50 (map quote (tickBuffer d))) 14)
    as (r & Hr & Hz).
  - lia.
  - rewrite slice_last_length_min, length_map by lia. lia.
  - now apply decreasing_slice_last.
  - assert (Hfalsy : JS.truthy (Some r) = false).
    { cbn. unfold JS.truthy_num. apply Qeq_bool_iff in Hz. rewrite Hz. reflexivity. }
    unfold evaluateStrategy.
    destruct Htype as [Ht | [Ht | Ht]]; rewrite Ht;
      cbn [String.eqb Ascii.eqb Bool.eqb orb].
    + unfold scalperStrategy. cbn [bollinger rsi currentPrice]. rewrite Hr, Hfalsy.
      destruct (calculateBollingerBands _ _ _ _); reflexivity.
    + unfold scalperStrategy. cbn [bollinger rsi currentPrice]. rewrite Hr, Hfalsy.
      destruct (calculateBollingerBands _ _ _ _); reflexivity.
    + unfold swingStrategy. cbn [rsi sma20 currentPrice]. rewrite Hr, Hfalsy.
      reflexivity.
Qed.

(** A bot whose type is none of the four built-in ones never places a
    trade: the custom strategy always holds. *)
Theorem no_trade_for_custom_bot (d : BotData) (clock : nat) :
  type (bot d) <> "scalper" -> type (bot d) <> "elite_speedbot" ->
  type (bot d) <> "trend_follower" -> type (bot d) <> "swing" ->
  evaluateTradeSignal Math_sqrt d clock = None.
Proof.
  intros H1 H2 H3 H4. apply no_trade_on_hold. unfold evaluateStrategy.
  destruct (calculateIndicators _ _); [|reflexivity].
  apply String.eqb_neq in H1, H2, H3, H4. rewrite H1, H2, H3, H4. cbn [orb].
  destruct (entryConditions (configuration (bot d))); reflexivity.
Qed.

(** The daily-loss ceiling: a bot whose daily loss has reached a ceiling
    other than zero places no trade, and a ceiling of zero stops nothing,
    whatever the loss. *)
Theorem daily_loss_ceiling (d : BotData) (r : RiskManagement) (ceiling : Q) (clock : nat) :
  riskManagement (configuration (bot d)) = Some r ->
  maxDailyLoss r = Some ceiling ->
  (~ ceiling == 0 -> ceiling <= dailyLoss d ->
   evaluateTradeSignal Math_sqrt d clock = None) /\
  (ceiling == 0 -> maxConsecutiveLosses r = None -> checkRiskManagement d = true).
Proof.
  intros Hr Hc. split.
  - intros Hnz Hle. unfold evaluateTradeSignal.
    destruct (currentTrade d); [reflexivity|].
    unfold checkRiskManagement. rewrite Hr, Hc.
    apply truthy_num_neq in Hnz. rewrite Hnz. cbn [andb].
    unfold JS.geb. apply Qle_bool_iff in Hle. rewrite Hle. reflexivity.
  - intros Hz Hn. unfold checkRiskManagement. rewrite Hr, Hc, Hn.
    unfold JS.truthy_num. apply Qeq_bool_iff in Hz. rewrite Hz. reflexivity.
Qed.

(** A trading window that ends before it starts (a night window such as
    22:00 to 06:00) contains no time of the day: a bot with such a window
    never places a trade. *)
Theorem no_trade_in_night_window (d : BotData) (th : TradingHours) (clock : nat) :
  tradingHours (configuration (bot d)) = Some th ->
  enabled th = true ->
  (fst (endAt th) * 60 + snd (endAt th) < fst (startAt th) * 60 + snd (startAt th))%nat ->
  isWithinTradingHours th clock = false /\
  evaluateTradeSignal Math_sqrt d clock = None.
Proof.
  intros Hth Hen Hlt.
  assert (Hout : isWithinTradingHours th clock = false).
  { unfold isWithinTradingHours. apply andb_false_iff.
    destruct (Nat.le_gt_cases (fst (startAt th) * 60 + snd (startAt th)) clock) as [Hs|Hs].
    - right. apply Nat.leb_gt. lia.
    - left. apply Nat.leb_gt. lia. }
  split; [exact Hout|]. unfold evaluateTradeSignal.
  destruct (currentTrade d); [reflexivity|].
  destruct (negb (checkRiskManagement d)); [reflexivity|].
  rewrite Hth, Hen, Hout. reflexivity.
Qed.

(** The MACD line is the difference of the two averages, so its sign says
    nothing the comparison of the averages has not said: a trend-following
    bot calls when the 12-period average is above the 26-period one, puts
    when it is below, and holds when they are equal or one of them is
    missing or [0]. *)
Theorem trend_follower_decides_by_averages (quotes : list Q) :
  (20 <= length quotes)%nat ->
  exists ind,
    calculateIndicators Math_sqrt quotes = Some ind /\
    (forall m, macdOf ind = Some m -> macd m = signal m /\ histogram m = 0) /\
    action (trendFollowerStrategy ind) = by_averages (ema12 ind) (ema26 ind).
Proof.
  intros Hlen. unfold calculateIndicators.
  destruct (Nat.ltb_spec (length quotes) 20) as [?|_]; [lia|].
  eexists. split; [reflexivity|]. cbn [macdOf ema12 ema26].
  unfold calculateMACD, trendFollowerStrategy, by_averages. cbn [macdOf ema12 ema26].
  destruct (calculateEMA (JS.slice_last 50 quotes) 12) as [a|];
    destruct (calculateEMA (JS.slice_last 50 quotes) 26) as [b|];
    try (split; [intros m; discriminate | reflexivity]).
  cbn [JS.truthy lt_opt].
  destruct (JS.truthy_num a); destruct (JS.truthy_num b); cbn [negb orb andb];
    try (split; [intros m; discriminate | reflexivity]).
  split; [intros m E; injection E as <-; split; reflexivity|].
  cbn [macd].
  destruct (JS.ltb b a) eqn:Eba.
  - apply ltb_lt in Eba. assert (H : JS.ltb 0 (a - b) = true) by (apply ltb_lt; lra).
    rewrite H. reflexivity.
  - apply ltb_ge in Eba. cbn [andb].
    destruct (JS.ltb a b) eqn:Eab.
    + apply ltb_lt in Eab. assert (H : JS.ltb (a - b) 0 = true) by (apply ltb_lt; lra).
      rewrite H. reflexivity.
    + reflexivity.
Qed.

End BotGuards.

Lemma no_trade_on_short_buffer_witness :
  BotExecutor.evaluateTradeSignal Props.sqrt_floor Scenario.bot1Data 0 = None.
Proof.
  apply (proj1 (no_trade_on_short_buffer Props.sqrt_floor Scenario.bot1Data 0)).
  simpl. lia.
Defined.

Lemma no_trade_on_falling_market_witness :
  BotExecutor.evaluateTradeSignal Props.sqrt_floor
    (Scenario.botDataOf "scalper" None None 0 Scenario.fallingTicks) 0 = None.
Proof.
  apply (no_trade_on_falling_market Props.sqrt_floor
           (Scenario.botDataOf "scalper" None None 0 Scenario.fallingTicks) 0).
  - left. reflexivity.
  - vm_compute. lia.
  - vm_compute. reflexivity.
Defined.

Lemma no_trade_for_custom_bot_witness :
  BotExecutor.evaluateTradeSignal Props.sqrt_floor
    (Scenario.botDataOf "custom" None None 0 Scenario.fallingTicks) 0 = None.
Proof.
  apply (no_trade_for_custom_bot Props.sqrt_floor
           (Scenario.botDataOf "custom" None None 0 Scenario.fallingTicks) 0);
    discriminate.
Defined.

Lemma daily_loss_ceiling_witness :
  BotExecutor.evaluateTradeSignal Props.sqrt_floor
    (Scenario.botDataOf "swing" (Some (Scenario.ceilingOf 100)) None 120 []) 0 = None /\
  BotExecutor.checkRiskManagement
    (Scenario.botDataOf "swing" (Some (Scenario.ceilingOf 0)) None 120 []) = true.
Proof.
  split.
  - apply (proj1 (daily_loss_ceiling Props.sqrt_floor
                    (Scenario.botDataOf "swing" (Some (Scenario.ceilingOf 100)) None 120 [])
                    (Scenario.ceilingOf 100) 100 0 eq_refl eq_refl)).
    + discriminate.
    + discriminate.
  - apply (proj2 (daily_loss_ceiling Props.sqrt_floor
                    (Scenario.botDataOf "swing" (Some (Scenario.ceilingOf 0)) None 120 [])
                    (Scenario.ceilingOf 0) 0 0 eq_refl eq_refl)); reflexivity.
Defined.

Lemma no_trade_in_night_window_witness :
  BotExecutor.isWithinTradingHours Scenario.nightWindow (23 * 60) = false /\
  BotExecutor.evaluateTradeSignal Props.sqrt_floor
    (Scenario.botDataOf "swing" None (Some Scenario.nightWindow) 0 []) (23 * 60) = None.
Proof.
  apply (no_trade_in_night_window Props.sqrt_floor
           (Scenario.botDataOf "swing" None (Some Scenario.nightWindow) 0 [])
           Scenario.nightWindow (23 * 60) eq_refl eq_refl).
  simpl. lia.
Defined.

Lemma trend_follower_decides_by_averages_witness :
  exists ind,
    Indicators.calculateIndicators Props.sqrt_floor (map Scenario.quoteAt (seq 0 30)) =
      Some ind /\
    BotExecutor.action (BotExecutor.trendFollowerStrategy ind) = BotExecutor.CALL.
Proof.
  destruct (trend_follower_decides_by_averages Props.sqrt_floor
              (map Scenario.quoteAt (seq 0 30))) as (ind & E & _ & A).
  - simpl. lia.
  - exists ind. split; [exact E|]. rewrite A. vm_compute in E. injection E as <-.
    vm_compute. reflexivity.
Defined.

(** ** Bot runtime: buffers, pause, confirmations *)

Section BotState.

Import BotExecutor Props.

Variable Math_sqrt : Q -> Q.

Lemma push_capped_length {A} (cap : nat) (x : A) (l : list A) :
  (length l <= cap)%nat -> (length (push_capped cap x l) <= cap)%nat.
Proof.
  intros H. unfold push_capped. rewrite length_app. cbn [length].
  destruct (cap <? length l + 1)%nat eqn:E.
  - destruct l as [|y l]; cbn in *; [lia|]. rewrite length_app. cbn. lia.
  - apply Nat.ltb_ge in E. rewrite length_app. cbn. lia.
Qed.

Lemma getBot_In (id : string) (d : BotData) bots :
  getBot id bots = Some d -> In (id, d) bots.
Proof.
  induction bots as [|[k d'] bots IH]; cbn; [discriminate|].
  destruct (String.eqb_spec k id) as [->|_].
  - intros H. injection H as ->. now left.
  - intros H. right. now apply IH.
Qed.

Lemma Forall_updateBot (P : BotData -> Prop) (k : string) (f : BotData -> BotData) bots :
  Forall (fun kd => P (snd kd)) bots ->
  (forall d, In (k, d) bots -> P (f d)) ->
  Forall (fun kd => P (snd kd)) (updateBot k f bots).
Proof.
  induction 1 as [|[k' d] bots Hd Hall IH]; intros Hf; cbn; [constructor|].
  destruct (String.eqb_spec k' k) as [->|_].
  - constructor; [|exact Hall]. cbn. apply Hf. now left.
  - constructor; [exact Hd|]. apply IH. intros d' Hin. apply Hf. now right.
Qed.

Lemma processBots_buffers (ids : list string) uid tick clock :
  forall st,
    Forall (fun kd => (length (tickBuffer (snd kd)) <= 100)%nat) (activeBots st) ->
    Forall (fun kd => (length (tickBuffer (snd kd)) <= 100)%nat)
           (activeBots (processBots Math_sqrt ids uid tick clock st)) /\
    tickData (processBots Math_sqrt ids uid tick clock st) = tickData st.
Proof.
  induction ids as [|k ids IH]; intros st Hall; cbn [processBots]; [split; auto|].
  destruct (getBot k (activeBots st)) as [d|] eqn:Hk; [|apply IH, Hall].
  destruct (String.eqb (userId d) uid
            && String.eqb (symbol (configuration (bot d))) (t_symbol tick)
            && isRunning d); [|apply IH, Hall].
  assert (Hall' : Forall (fun kd => (length (tickBuffer (snd kd)) <= 100)%nat)
                    (updateBot k (fun _ => set_tickBuffer
                                             (push_capped 100 tick (tickBuffer d)) d)
                               (activeBots st))).
  { apply (Forall_updateBot (fun d => (length (tickBuffer d) <= 100)%nat)); [exact Hall|].
    intros _ _. cbn. apply push_capped_length.
    apply getBot_In in Hk. rewrite List.Forall_forall in Hall. exact (Hall _ Hk). }
  destruct (evaluateTradeSignal Math_sqrt _ clock) as [[sig ind]|].
  - split; [exact Hall' | reflexivity].
  - destruct (IH (with_activeBots
                    (updateBot k (fun _ => set_tickBuffer
                                             (push_capped 100 tick (tickBuffer d)) d)) st)
                 Hall') as [H1 H2].
    split; [exact H1 | exact H2].
Qed.

Lemma step_buffers_capped (st st' : State) (i : Input) :
  buffers_capped st -> step Math_sqrt st i = Some st' -> buffers_capped st'.
Proof.
  intros [Hb Ht].
  destruct i as [uid tick clock|k|k clock|k|uid cid pay|uid contract|k|k|m];
    cbn [step]; intros H; try (injection H as <-).
  - unfold handleTickUpdate.
    set (st1 := with_tickData _ st).
    destruct (processBots_buffers (map fst (activeBots st1)) uid tick clock st1 Hb)
      as [H1 H2].
    split; [exact H1|]. rewrite H2. cbn. intros sym history.
    destruct (decide (t_symbol tick = sym)) as [->|Hne].
    + rewrite lookup_insert_eq. intros E. injection E as <-.
      apply push_capped_length.
      destruct (tickData st !! sym) as [h|] eqn:Eh; cbn; [exact (Ht _ _ Eh) | lia].
    + rewrite lookup_insert_ne by exact Hne. apply Ht.
  - unfold createResolves.
    destruct (pending st !! k) as [[b draft params kk|b kk]|]; try (split; assumption).
    cbn. split; [|exact Ht].
    apply (Forall_updateBot (fun d => (length (tickBuffer d) <= 100)%nat)); [exact Hb|].
    intros d Hin. cbn. rewrite List.Forall_forall in Hb. exact (Hb _ Hin).
  - unfold saveResolves.
    destruct (pending st !! k) as [[b draft params kk|b kk]|]; try (split; assumption).
    destruct (processBots_buffers (k_rest kk) (k_userId kk) (k_tick kk) clock
                (with_pending (delete k) st) Hb) as [H1 H2].
    split; [exact H1|]. rewrite H2. exact Ht.
  - split; assumption.
  - unfold handleBuyConfirmation.
    destruct (firstBot _ (activeBots st)) as [[b d]|]; [|split; assumption].
    destruct (currentTrade d); split; assumption.
  - unfold handleContractUpdate.
    destruct (tradeOfContract contract st) as [trade|]; [|split; assumption].
    destruct (Store.finished contract); [|split; assumption].
    cbn [activeBots with_trades].
    destruct (firstBot _ (activeBots st)) as [[holder d]|]; [|split; assumption].
    split; [|exact Ht]. cbn.
    apply (Forall_updateBot (fun d => (length (tickBuffer d) <= 100)%nat)); [exact Hb|].
    intros d' Hin. unfold settle_risk.
    rewrite List.Forall_forall in Hb. specialize (Hb _ Hin).
    destruct (String.eqb (Store.c_status contract) "lost"); exact Hb.
  - split; [|exact Ht]. cbn.
    apply (Forall_updateBot (fun d => (length (tickBuffer d) <= 100)%nat)); [exact Hb|].
    intros d Hin. rewrite List.Forall_forall in Hb. exact (Hb _ Hin).
  - split; [|exact Ht]. cbn.
    apply (Forall_updateBot (fun d => (length (tickBuffer d) <= 100)%nat)); [exact Hb|].
    intros d Hin. rewrite List.Forall_forall in Hb. exact (Hb _ Hin).
  - destruct (Session.step (wsm st) m); [|discriminate]. injection H as <-.
    split; assumption.
Qed.

(** Whatever happens to the executor, no bot ever holds more than 100
    ticks and no symbol history more than 1000. *)
Theorem buffers_stay_capped (inputs : list Input) :
  forall st st',
    buffers_capped st -> run Math_sqrt st inputs = Some st' -> buffers_capped st'.
Proof.
  induction inputs as [|i rest IH]; intros st st' Hc H; cbn in H.
  - injection H as <-. exact Hc.
  - destruct (step Math_sqrt st i) as [st1|] eqn:E; [|discriminate].
    exact (IH st1 st' (step_buffers_capped st st1 i Hc E) H).
Qed.

Lemma processBots_paused (id : string) (d : BotData) (ids : list string) uid tick clock :
  isRunning d = false ->
  forall st,
    getBot id (activeBots st) = Some d ->
    getBot id (activeBots (processBots Math_sqrt ids uid tick clock st)) = Some d.
Proof.
  intros Hp. induction ids as [|k ids IH]; intros st Hd; cbn [processBots]; [exact Hd|].
  destruct (getBot k (activeBots st)) as [dk|] eqn:Hk; [|apply IH, Hd].
  destruct (String.eqb (userId dk) uid
            && String.eqb (symbol (configuration (bot dk))) (t_symbol tick)
            && isRunning dk) eqn:Hm; [|apply IH, Hd].
  assert (Hne : String.eqb k id = false).
  { destruct (String.eqb_spec k id) as [->|]; [|reflexivity].
    rewrite Hd in Hk. injection Hk as <-. rewrite Hp, andb_false_r in Hm. discriminate. }
  assert (Hd' : getBot id (updateBot k (fun _ => set_tickBuffer
                                                  (push_capped 100 tick (tickBuffer dk)) dk)
                                     (activeBots st)) = Some d).
  { rewrite getBot_updateBot, Hne. exact Hd. }
  destruct (evaluateTradeSignal Math_sqrt _ clock) as [[sig ind]|].
  - exact Hd'.
  - apply IH. exact Hd'.
Qed.

(** A paused bot is not touched by ticks: after [pauseBot], a tick leaves
    its data (buffer, slot, counters) as they were, and [resumeBot] gives
    the data of before the pause back. *)
Theorem paused_bot_ignores_ticks (st : State) (id : string) (d : BotData) uid tick clock :
  getBot id (activeBots st) = Some d ->
  isRunning d = true ->
  getBot id (activeBots (handleTickUpdate Math_sqrt uid tick clock (pauseBot id st))) =
    Some (set_isRunning false d) /\
  getBot id (activeBots
               (resumeBot id (handleTickUpdate Math_sqrt uid tick clock (pauseBot id st)))) =
    Some d.
Proof.
  intros Hd Hrun.
  assert (H1 : getBot id (activeBots
                            (handleTickUpdate Math_sqrt uid tick clock (pauseBot id st)))
               = Some (set_isRunning false d)).
  { unfold handleTickUpdate. apply processBots_paused; [reflexivity|].
    cbn. rewrite getBot_updateBot, String.eqb_refl, Hd. reflexivity. }
  split; [exact H1|].
  unfold resumeBot. cbn [activeBots with_activeBots].
  rewrite getBot_updateBot, String.eqb_refl, H1. cbn.
  destruct d. cbn in Hrun. subst. reflexivity.
Qed.

(** *** Consistency of slots and records *)

Lemma map_fst_updateBot (k : string) (f : BotData -> BotData) bots :
  map fst (updateBot k f bots) = map fst bots.
Proof.
  induction bots as [|[k' d] bots IH]; cbn; [reflexivity|].
  destruct (String.eqb k' k); cbn; [reflexivity | now rewrite IH].
Qed.

Lemma In_updateBot (k k' : string) (f : BotData -> BotData) (d' : BotData) bots :
  In (k', d') (updateBot k f bots) ->
  In (k', d') bots \/ (k' = k /\ exists d, In (k, d) bots /\ d' = f d).
Proof.
  induction bots as [|[k0 d0] bots IH]; cbn; [tauto|].
  destruct (String.eqb_spec k0 k) as [->|Hne]; cbn.
  - intros [E|Hin]; [|tauto]. injection E as <- <-. right. eauto.
  - intros [E|Hin]; [tauto|]. destruct (IH Hin) as [?|(-> & d & Hd & ->)]; [tauto|].
    right. eauto.
Qed.

(** With distinct ids, the entries of the other bots are the old ones and
    the entry of the written bot is the written one. *)
Lemma In_updateBot_NoDup (k k' : string) (f : BotData -> BotData) (d' : BotData) bots :
  NoDup (map fst bots) ->
  In (k', d') (updateBot k f bots) ->
  (k' <> k /\ In (k', d') bots) \/ (k' = k /\ exists d, In (k, d) bots /\ d' = f d).
Proof.
  induction bots as [|[k0 d0] bots IH]; cbn; [tauto|].
  intros Hnd. apply NoDup_cons in Hnd as [Hnotin Hnd].
  destruct (String.eqb_spec k0 k) as [->|Hne]; cbn.
  - intros [E|Hin].
    + injection E as <- <-. right. eauto.
    + left. split; [|tauto]. intros ->. apply Hnotin.
      apply list_elem_of_In. apply (in_map fst) in Hin. exact Hin.
  - intros [E|Hin].
    + injection E as <- <-. left. split; [congruence | tauto].
    + destruct (IH Hnd Hin) as [[? ?]|(-> & d & Hd & ->)]; [tauto|]. right. eauto.
Qed.

Lemma slots_from_refl bots : slots_from bots bots.
Proof. intros k d Hin. right. eauto. Qed.

Lemma slots_from_trans a b c : slots_from a b -> slots_from b c -> slots_from a c.
Proof.
  intros Hab Hbc k d Hin. destruct (Hbc k d Hin) as [?|(d1 & Hin1 & E1)]; [tauto|].
  destruct (Hab k d1 Hin1) as [E|(d0 & Hin0 & E0)].
  - left. congruence.
  - right. exists d0. split; [assumption | congruence].
Qed.

(** A write that keeps or empties the slot of the written bot. *)
Lemma slots_from_updateBot (k : string) (f : BotData -> BotData) bots :
  (forall d, In (k, d) bots ->
             currentTrade (f d) = None \/
             exists d0, In (k, d0) bots /\ currentTrade d0 = currentTrade (f d)) ->
  slots_from bots (updateBot k f bots).
Proof.
  intros Hf k' d' Hin. destruct (In_updateBot _ _ _ _ _ Hin) as [?|(-> & d & Hd & ->)].
  - right. eauto.
  - exact (Hf d Hd).
Qed.

Lemma consistent_from (st st' : State) :
  executor_consistent st ->
  NoDup (map fst (activeBots st')) ->
  slots_from (activeBots st) (activeBots st') ->
  (length (trades st) <= length (trades st'))%nat ->
  (forall i t, trades st' !! i = Some t -> Store._id t = i) ->
  executor_consistent st'.
Proof.
  intros (Hnd & _ & Hb & Hu) Hkeys Hslots Hlen Hwf.
  split; [exact Hkeys|]. split; [exact Hwf|]. split.
  - intros k d tid Hin Hc. destruct (Hslots k d Hin) as [E|(d0 & Hin0 & E0)];
      [congruence|].
    assert (tid < length (trades st))%nat by (apply (Hb k d0); congruence). lia.
  - intros k1 d1 k2 d2 tid H1 H2 Hc1 Hc2.
    destruct (Hslots k1 d1 H1) as [E|(e1 & He1 & E1)]; [congruence|].
    destruct (Hslots k2 d2 H2) as [E|(e2 & He2 & E2)]; [congruence|].
    apply (Hu k1 e1 k2 e2 tid); congruence.
Qed.

Lemma processBots_slots (ids : list string) uid tick clock :
  forall st,
    map fst (activeBots (processBots Math_sqrt ids uid tick clock st)) =
      map fst (activeBots st) /\
    slots_from (activeBots st) (activeBots (processBots Math_sqrt ids uid tick clock st)) /\
    trades (processBots Math_sqrt ids uid tick clock st) = trades st.
Proof.
  induction ids as [|k ids IH]; intros st; cbn [processBots];
    [split; [reflexivity | split; [apply slots_from_refl | reflexivity]]|].
  destruct (getBot k (activeBots st)) as [d|] eqn:Hk; [|apply IH].
  destruct (String.eqb (userId d) uid
            && String.eqb (symbol (configuration (bot d))) (t_symbol tick)
            && isRunning d); [|apply IH].
  set (f := fun _ : BotData => set_tickBuffer (push_capped 100 tick (tickBuffer d)) d).
  assert (Hs : slots_from (activeBots st) (updateBot k f (activeBots st))).
  { apply slots_from_updateBot. intros d0 _. right. exists d.
    split; [now apply getBot_In | reflexivity]. }
  destruct (evaluateTradeSignal Math_sqrt _ clock) as [[sig ind]|].
  - cbn. rewrite map_fst_updateBot. split; [reflexivity | split; [exact Hs | reflexivity]].
  - destruct (IH (with_activeBots (updateBot k f) st)) as (H1 & H2 & H3).
    cbn in H1, H2, H3. rewrite map_fst_updateBot in H1.
    split; [exact H1|]. split; [|exact H3].
    exact (slots_from_trans _ _ _ Hs H2).
Qed.

Lemma alter_keeps_ids (f : Store.Trade -> Store.Trade) (i : nat) (ts : list Store.Trade) :
  (forall t, Store._id (f t) = Store._id t) ->
  (forall j t, ts !! j = Some t -> Store._id t = j) ->
  forall j t, alter f i ts !! j = Some t -> Store._id t = j.
Proof.
  intros Hf Hwf j t. destruct (decide (i = j)) as [->|Hne].
  - rewrite list_lookup_alter_eq. destruct (ts !! j) as [t0|] eqn:E; [|discriminate].
    cbn. intros H. injection H as <-. rewrite Hf. exact (Hwf _ _ E).
  - rewrite list_lookup_alter_ne by exact Hne. apply Hwf.
Qed.

Lemma step_consistent (st st' : State) (i : Input) :
  executor_consistent st -> step Math_sqrt st i = Some st' -> executor_consistent st'.
Proof.
  intros Hc. pose proof Hc as (Hnd & Hwf & Hb & Hu).
  destruct i as [uid tick clock|k|k clock|k|uid cid pay|uid contract|k|k|m];
    cbn [step]; intros H; try (injection H as <-).
  - unfold handleTickUpdate. set (st1 := with_tickData _ st).
    destruct (processBots_slots (map fst (activeBots st1)) uid tick clock st1)
      as (H1 & H2 & H3).
    apply (consistent_from st); [exact Hc | rewrite H1; exact Hnd | exact H2 | |].
    + rewrite H3. cbn. lia.
    + rewrite H3. exact Hwf.
  - unfold createResolves.
    destruct (pending st !! k) as [[b draft params kk|b kk]|]; try exact Hc.
    cbn. split; [cbn; rewrite map_fst_updateBot; exact Hnd|].
    split; [|split]; cbn.
    + intros j t Hj. apply lookup_app_Some in Hj as [Hj|[Hge Hj]]; [exact (Hwf _ _ Hj)|].
      destruct (j - length (trades st))%nat eqn:E; cbn in Hj; [|discriminate].
      injection Hj as <-. cbn. lia.
    + intros k0 d0 tid Hin Hct. rewrite length_app. cbn.
      destruct (In_updateBot _ _ _ _ _ Hin) as [Hold|(-> & d & Hd & ->)].
      * pose proof (Hb _ _ _ Hold Hct). lia.
      * cbn in Hct. injection Hct as <-. lia.
    + intros k1 d1 k2 d2 tid H1 H2 Hc1 Hc2.
      destruct (In_updateBot _ _ _ _ _ H1) as [Ho1|(-> & e1 & He1 & ->)];
        destruct (In_updateBot _ _ _ _ _ H2) as [Ho2|(-> & e2 & He2 & ->)].
      * exact (Hu _ _ _ _ _ Ho1 Ho2 Hc1 Hc2).
      * cbn in Hc2. injection Hc2 as <-. pose proof (Hb _ _ _ Ho1 Hc1). lia.
      * cbn in Hc1. injection Hc1 as <-. pose proof (Hb _ _ _ Ho2 Hc2). lia.
      * reflexivity.
  - unfold saveResolves.
    destruct (pending st !! k) as [[b draft params kk|b kk]|]; try exact Hc.
    destruct (processBots_slots (k_rest kk) (k_userId kk) (k_tick kk) clock
                (with_pending (delete k) st)) as (H1 & H2 & H3).
    apply (consistent_from st); [exact Hc | rewrite H1; exact Hnd | exact H2 | |].
    + rewrite H3. cbn. lia.
    + rewrite H3. exact Hwf.
  - exact Hc.
  - unfold handleBuyConfirmation.
    destruct (firstBot _ (activeBots st)) as [[b d]|]; [|exact Hc].
    destruct (currentTrade d) as [tid|]; [|exact Hc].
    apply (consistent_from st); [exact Hc | exact Hnd | apply slots_from_refl | |].
    + cbn. rewrite length_alter. lia.
    + cbn. apply alter_keeps_ids; [reflexivity | exact Hwf].
  - unfold handleContractUpdate.
    destruct (tradeOfContract contract st) as [trade|]; [|exact Hc].
    destruct (Store.finished contract); [|exact Hc].
    cbn [activeBots with_trades].
    assert (Hwf' : forall j t,
               alter (Store.closed (exit_of contract) (Store.c_status contract)
                                   (Some (Store.profit contract)))
                     (Store._id trade) (trades st) !! j = Some t -> Store._id t = j)
      by (apply alter_keeps_ids; [reflexivity | exact Hwf]).
    destruct (firstBot _ (activeBots st)) as [[holder d]|].
    + apply (consistent_from st); [exact Hc | | | |].
      * cbn. rewrite map_fst_updateBot. exact Hnd.
      * cbn. apply slots_from_updateBot. intros d0 _. left.
        unfold settle_risk. destruct (String.eqb (Store.c_status contract) "lost");
          reflexivity.
      * cbn. rewrite length_alter. lia.
      * exact Hwf'.
    + apply (consistent_from st); [exact Hc | exact Hnd | apply slots_from_refl | |].
      * cbn. rewrite length_alter. lia.
      * exact Hwf'.
  - apply (consistent_from st); [exact Hc | | | cbn; lia | exact Hwf].
    + cbn. rewrite map_fst_updateBot. exact Hnd.
    + cbn. apply slots_from_updateBot. intros d Hd. right. eauto.
  - apply (consistent_from st); [exact Hc | | | cbn; lia | exact Hwf].
    + cbn. rewrite map_fst_updateBot. exact Hnd.
    + cbn. apply slots_from_updateBot. intros d Hd. right. eauto.
  - destruct (Session.step (wsm st) m); [|discriminate]. injection H as <-. exact Hc.
Qed.

Lemma run_consistent (inputs : list Input) :
  forall st st',
    executor_consistent st -> run Math_sqrt st inputs = Some st' ->
    executor_consistent st'.
Proof.
  induction inputs as [|i rest IH]; intros st st' Hc H; cbn in H.
  - injection H as <-. exact Hc.
  - destruct (step Math_sqrt st i) as [st1|] eqn:E; [|discriminate].
    exact (IH st1 st' (step_consistent st st1 i Hc E) H).
Qed.

Lemma map_fst_setBot (k : string) (d : BotData) bots :
  NoDup (map fst bots) -> NoDup (map fst (setBot k d bots)).
Proof.
  induction bots as [|[k0 d0] bots IH]; cbn.
  - intros _. apply NoDup_singleton.
  - intros Hnd. apply NoDup_cons in Hnd as [Hnotin Hnd].
    destruct (String.eqb_spec k0 k) as [->|Hne]; cbn.
    + apply NoDup_cons. split; assumption.
    + apply NoDup_cons. split; [|exact (IH Hnd)].
      intros Hin. apply Hnotin. clear IH Hnd Hnotin.
      induction bots as [|[k1 d1] bots IH]; cbn in *.
      * apply list_elem_of_singleton in Hin. congruence.
      * destruct (String.eqb k1 k); cbn in *; [exact Hin|].
        apply elem_of_cons in Hin as [->|Hin]; [apply elem_of_cons; tauto|].
        apply elem_of_cons. right. exact (IH Hin).
Qed.

Lemma In_setBot (k k' : string) (d d' : BotData) bots :
  In (k', d') (setBot k d bots) -> In (k', d') bots \/ (k' = k /\ d' = d).
Proof.
  induction bots as [|[k0 d0] bots IH]; cbn.
  - intros [E|[]]. injection E as <- <-. tauto.
  - destruct (String.eqb_spec k0 k) as [->|Hne]; cbn.
    + intros [E|Hin]; [injection E as <- <-|]; tauto.
    + intros [E|Hin]; [tauto|]. destruct (IH Hin); tauto.
Qed.

Lemma startBot_consistent (id uid : string) (b : Bot) (st : State) :
  executor_consistent st -> executor_consistent (startBot id uid b st).
Proof.
  intros Hc. pose proof Hc as (Hnd & Hwf & _).
  assert (H : executor_consistent
                (with_activeBots
                   (setBot id {| botId := id; userId := uid; bot := b; isRunning := true;
                                 currentTrade := None; dailyLoss := 0;
                                 consecutiveLosses := O; tickBuffer := [] |})
                   (with_wsm (Session.subscribeTicks uid (symbol (configuration b))) st))).
  { apply (consistent_from st); [exact Hc | | | cbn; lia | exact Hwf].
    - cbn. apply map_fst_setBot, Hnd.
    - intros k d' Hin. cbn in Hin. destruct (In_setBot _ _ _ _ _ Hin) as [?|[-> ->]].
      + right. eauto.
      + left. reflexivity. }
  unfold startBot. cbv zeta.
  match goal with |- context [match ?x with Some _ => _ | None => _ end] => destruct x end;
    [exact H|].
  destruct H as (H1 & H2 & H3 & H4). repeat split; assumption.
Qed.

Lemma stopBot_consistent (id : string) (st : State) :
  executor_consistent st -> executor_consistent (stopBot id st).
Proof.
  intros Hc. pose proof Hc as (Hnd & Hwf & _). unfold stopBot.
  destruct (getBot id (activeBots st)) as [d|]; [|exact Hc].
  apply (consistent_from st); [exact Hc | | | cbn; lia | exact Hwf].
  - cbn. unfold removeBot. clear Hc Hwf.
    induction (activeBots st) as [|[k0 d0] bots IH]; cbn; [constructor|].
    cbn in Hnd. apply NoDup_cons in Hnd as [Hnotin Hnd].
    destruct (negb (String.eqb k0 id)); cbn; [|exact (IH Hnd)].
    apply NoDup_cons. split; [|exact (IH Hnd)].
    intros Hin. apply Hnotin. apply list_elem_of_In in Hin. apply list_elem_of_In.
    apply in_map_iff in Hin as ([k1 d1] & E & Hin). apply filter_In in Hin as [Hin _].
    apply in_map_iff. exists (k1, d1). tauto.
  - intros k d' Hin. cbn in Hin. apply filter_In in Hin as [Hin _]. right. eauto.
Qed.

(** Whatever happens to the executor, also when a second trade is placed
    before the first is recorded, and when bots are started and stopped:
    the ids of the bots stay distinct, every record keeps its position as
    identity, every slot names a record that exists, and no two bots hold
    the same trade. *)
Theorem consistency_is_kept (inputs : list Input) (st st' : State) :
  executor_consistent st -> run Math_sqrt st inputs = Some st' ->
  executor_consistent st' /\
  (forall id uid b, executor_consistent (startBot id uid b st')) /\
  (forall id, executor_consistent (stopBot id st')).
Proof.
  intros Hc H. pose proof (run_consistent inputs st st' Hc H) as Hc'.
  split; [exact Hc'|]. split.
  - intros id uid b. apply startBot_consistent, Hc'.
  - intros id. apply stopBot_consistent, Hc'.
Qed.

(** *** A settlement that arrives twice *)

Lemma firstBot_none (cond : BotData -> bool) bots :
  (forall k d, In (k, d) bots -> cond d = false) -> firstBot cond bots = None.
Proof.
  induction bots as [|[k d] bots IH]; cbn; [reflexivity|]. intros H.
  rewrite (H k d) by tauto. apply IH. intros k' d' Hin. apply (H k' d'). tauto.
Qed.

Lemma find_alter_id (p : Store.Trade -> bool) (f : Store.Trade -> Store.Trade)
      (ts : list Store.Trade) :
  (forall t, p (f t) = p t) -> (forall t, Store._id (f t) = Store._id t) ->
  forall i, option_map Store._id (List.find p (alter f i ts)) =
            option_map Store._id (List.find p ts).
Proof.
  intros Hp Hid. induction ts as [|t ts IH]; intros i; [reflexivity|].
  destruct i as [|i]; cbn.
  - rewrite Hp. destruct (p t); cbn; [rewrite Hid; reflexivity | reflexivity].
  - destruct (p t); cbn; [reflexivity | apply IH].
Qed.

(** After a finished contract update, no bot holds the trade of the
    contract. *)
Lemma handleContractUpdate_frees (uid : string) (contract : Store.Contract)
      (st : State) (trade : Store.Trade) :
  executor_consistent st ->
  tradeOfContract contract st = Some trade ->
  Store.finished contract = true ->
  forall k d, In (k, d) (activeBots (handleContractUpdate uid contract st)) ->
              bool_decide (currentTrade d = Some (Store._id trade)) = false.
Proof.
  intros (Hnd & _ & _ & Hu) Ht Hfin k d. unfold handleContractUpdate.
  rewrite Ht, Hfin. cbn [activeBots with_trades].
  destruct (firstBot _ (activeBots st)) as [[holder dh]|] eqn:Hf.
  - apply find_some in Hf as [Hin Hholds]. cbn in Hholds.
    apply bool_decide_eq_true in Hholds. cbn. intros Hin'.
    apply bool_decide_eq_false. intros Hc.
    destruct (In_updateBot_NoDup _ _ _ _ _ Hnd Hin') as [[Hne Hold]|(-> & d0 & Hd0 & ->)].
    + apply Hne. exact (Hu _ _ _ _ _ Hold Hin Hc Hholds).
    + unfold settle_risk in Hc.
      destruct (String.eqb (Store.c_status contract) "lost"); discriminate.
  - cbn. intros Hin. exact (find_none _ _ Hf (k, d) Hin).
Qed.

(** A finished contract update that arrives a second time changes the
    execution data of no bot: the slot was freed the first time, so the
    daily loss and the count of consecutive losses are not touched again. *)
Theorem settlement_counted_once (uid : string) (contract : Store.Contract) (st : State) :
  executor_consistent st ->
  activeBots (handleContractUpdate uid contract (handleContractUpdate uid contract st)) =
  activeBots (handleContractUpdate uid contract st).
Proof.
  intros Hc.
  destruct (tradeOfContract contract st) as [trade|] eqn:Ht;
    [|unfold handleContractUpdate at 2 3; rewrite Ht;
      unfold handleContractUpdate; rewrite Ht; reflexivity].
  destruct (Store.finished contract) eqn:Hfin;
    [|unfold handleContractUpdate at 2 3; rewrite Ht, Hfin;
      unfold handleContractUpdate; rewrite Ht, Hfin; reflexivity].
  pose proof (handleContractUpdate_frees uid contract st trade Hc Ht Hfin) as Hfree.
  set (st1 := handleContractUpdate uid contract st) in *.
  assert (Hid : option_map Store._id (tradeOfContract contract st1) =
                Some (Store._id trade)).
  { assert (E : trades st1 =
                alter (Store.closed (exit_of contract) (Store.c_status contract)
                                    (Some (Store.profit contract)))
                      (Store._id trade) (trades st)).
    { unfold st1, handleContractUpdate. rewrite Ht, Hfin. cbn [activeBots with_trades].
      destruct (firstBot _ (activeBots st)) as [[holder dh]|]; reflexivity. }
    unfold tradeOfContract, Store.findOne. rewrite E.
    rewrite find_alter_id by reflexivity.
    unfold tradeOfContract, Store.findOne in Ht. rewrite Ht. reflexivity. }
  unfold handleContractUpdate at 1.
  destruct (tradeOfContract contract st1) as [trade'|]; [|reflexivity].
  cbn in Hid. injection Hid as Hid. rewrite Hfin, Hid. cbn [activeBots with_trades].
  rewrite (firstBot_none _ _ Hfree). reflexivity.
Qed.

(** *** Buy confirmations *)

Lemma find_all_false {A} (p : A -> bool) (l : list A) :
  Forall (fun t => p t = false) l -> List.find p l = None.
Proof.
  induction 1 as [|t l Ht _ IH]; [reflexivity|]. cbn. rewrite Ht. exact IH.
Qed.

Lemma find_alter_none (p : Store.Trade -> bool) (f : Store.Trade -> Store.Trade)
      (ts : list Store.Trade) :
  (forall t, p (f t) = false) -> Forall (fun t => p t = false) ts ->
  forall i, List.find p (alter f i ts) = None.
Proof.
  intros Hp Hall. induction Hall as [|t ts Ht Hall IH]; intros i; [reflexivity|].
  destruct i as [|i]; cbn.
  - rewrite Hp. apply find_all_false, Hall.
  - rewrite Ht. apply IH.
Qed.

(** A buy confirmation names no bot: it is written to the trade of the
    first bot of the user that holds one.  While that bot holds its trade,
    the confirmation of a second order of the user overwrites the contract
    id of the same record, and the updates of the contract confirmed first
    find no record: they change nothing. *)
Theorem second_confirmation_overwrites (uid holder : string) (d : BotData) (tid : nat)
        (c1 c2 : Z) (p1 p2 : option Q) (contract : Store.Contract) (st : State) :
  firstBot (fun d => String.eqb (userId d) uid && bool_decide (is_Some (currentTrade d)))
           (activeBots st) = Some (holder, d) ->
  currentTrade d = Some tid ->
  Forall (fun t => Store.contractId t <> Some c1) (trades st) ->
  c1 <> c2 ->
  Store.contract_id contract = Some c1 ->
  let st2 := handleBuyConfirmation uid (Some c2) p2
               (handleBuyConfirmation uid (Some c1) p1 st) in
  trades st2 =
    alter (Store.opened (Some c2) p2) tid (alter (Store.opened (Some c1) p1) tid (trades st)) /\
  tradeOfContract contract st2 = None /\
  handleContractUpdate uid contract st2 = st2.
Proof.
  intros Hf Hd Hall Hne Hcid st2.
  assert (E : trades st2 =
              alter (Store.opened (Some c2) p2) tid
                    (alter (Store.opened (Some c1) p1) tid (trades st))).
  { unfold st2, handleBuyConfirmation at 2. rewrite Hf, Hd.
    unfold handleBuyConfirmation. cbn [activeBots with_wsm with_trades]. rewrite Hf, Hd.
    reflexivity. }
  assert (Hnone : tradeOfContract contract st2 = None).
  { unfold tradeOfContract, Store.findOne. rewrite E, Hcid.
    rewrite list_alter_alter_eq.
    apply find_alter_none.
    - intros t. cbn. unfold Store.same_contract. apply bool_decide_eq_false. congruence.
    - eapply Forall_impl; [exact Hall|]. cbn. intros t Ht.
      unfold Store.same_contract. apply bool_decide_eq_false. exact Ht. }
  split; [exact E|]. split; [exact Hnone|].
  unfold handleContractUpdate. rewrite Hnone. reflexivity.
Qed.

(** *** Stopping one of two bots *)

Lemma getBot_removeBot_ne (id other : string) bots :
  other <> id -> getBot other (removeBot id bots) = getBot other bots.
Proof.
  intros Hne. induction bots as [|[k d] bots IH]; cbn; [reflexivity|].
  destruct (String.eqb_spec k id) as [->|Hk]; cbn.
  - destruct (String.eqb_spec id other); [congruence | exact IH].
  - destruct (String.eqb k other); [reflexivity | exact IH].
Qed.

Lemma send_connection (uid : string) (m : Session.Message) (w : Session.State)
      (c : Session.connectionData) :
  Session.connections w !! uid = Some c ->
  exists c', Session.connections (fst (Session.send uid m w)) !! uid = Some c' /\
             Session.subscriptions c' = Session.subscriptions c.
Proof.
  intros Hc. unfold Session.send. rewrite Hc.
  destruct (negb (Session.isAuthenticated c) && negb (Session.has_authorize m)).
  - cbn. rewrite lookup_insert_eq. eauto.
  - destruct (Session.socket_open w c); cbn.
    + eauto.
    + rewrite lookup_insert_eq. eauto.
Qed.

(** [stopBot] takes the tick subscription of the symbol off the user's
    session, also when another bot of the same user on the same symbol
    stays active and running. *)
Theorem stopBot_drops_shared_subscription (id other : string) (d d2 : BotData)
        (c : Session.connectionData) (st : State) :
  getBot id (activeBots st) = Some d ->
  other <> id ->
  getBot other (activeBots st) = Some d2 ->
  userId d2 = userId d ->
  symbol (configuration (bot d2)) = symbol (configuration (bot d)) ->
  Session.connections (wsm st) !! userId d = Some c ->
  getBot other (activeBots (stopBot id st)) = Some d2 /\
  getBot id (activeBots (stopBot id st)) = None /\
  exists c',
    Session.connections (wsm (stopBot id st)) !! userId d2 = Some c' /\
    ("ticks_" ++ symbol (configuration (bot d2)))%string ∉ Session.subscriptions c'.
Proof.
  intros Hd Hne Hd2 Hu Hs Hc. unfold stopBot. rewrite Hd. cbn [activeBots with_activeBots wsm with_wsm].
  split; [rewrite getBot_removeBot_ne by exact Hne; exact Hd2|]. split.
  - clear. induction (activeBots st) as [|[k0 d0] bots IH]; cbn; [reflexivity|].
    destruct (String.eqb_spec k0 id) as [->|Hk]; cbn; [exact IH|].
    destruct (String.eqb_spec k0 id); [congruence | exact IH].
  - rewrite Hu, Hs. unfold Session.unsubscribeTicks. rewrite Hc.
    destruct (send_connection (userId d)
                (Session.MsgForget (symbol (configuration (bot d)))) (wsm st) c Hc)
      as (c' & Hc' & Hsub).
    cbn. rewrite lookup_alter_eq, Hc'. cbn. eexists. split; [reflexivity|].
    cbn. unfold Session.set_delete. intros Hin.
    apply list_elem_of_filter in Hin as [Hin _]. apply Hin. reflexivity.
Qed.

(** *** Checking a state with one bot *)

Lemma ids_in_place_lookup (ts : list Store.Trade) :
  forall i, ids_in_place i ts = true ->
            forall j t, ts !! j = Some t -> Store._id t = (i + j)%nat.
Proof.
  induction ts as [|t0 ts IH]; intros i H j t Hj; [discriminate|].
  cbn in H. apply andb_prop in H as [H0 H]. apply Nat.eqb_eq in H0.
  destruct j as [|j]; cbn in Hj.
  - injection Hj as <-. lia.
  - rewrite (IH (S i) H j t Hj). lia.
Qed.

Lemma one_bot_consistent (st : State) (k : string) (d : BotData) :
  activeBots st = [(k, d)] ->
  ids_in_place 0 (trades st) = true ->
  match currentTrade d with
  | Some tid => (tid <? length (trades st))%nat
  | None => true
  end = true ->
  executor_consistent st.
Proof.
  intros Hb Hids Hslot. unfold executor_consistent. rewrite Hb. split; [|split; [|split]].
  - cbn. apply NoDup_singleton.
  - intros i t Hi. exact (ids_in_place_lookup _ 0 Hids i t Hi).
  - intros k0 d0 tid [E|[]] Hc. injection E as <- <-. rewrite Hc in Hslot.
    apply Nat.ltb_lt in Hslot. exact Hslot.
  - intros k1 d1 k2 d2 tid [E1|[]] [E2|[]] _ _. congruence.
Qed.

End BotState.

Lemma buffers_stay_capped_witness :
  Props.buffers_capped
    (default Scenario.executor0
       (BotExecutor.run Props.sqrt_floor Scenario.executor0 Scenario.rapidTicks)).
Proof.
  apply (buffers_stay_capped Props.sqrt_floor Scenario.rapidTicks Scenario.executor0).
  - split.
    + vm_compute. repeat constructor.
    + intros sym history H.
      assert (E : BotExecutor.tickData Scenario.executor0 = <["R_100" := []]> ∅)
        by (vm_compute; reflexivity).
      rewrite E in H. destruct (decide (sym = "R_100")) as [->|Hne].
      * rewrite lookup_insert_eq in H. injection H as <-. simpl. lia.
      * rewrite lookup_insert_ne in H by congruence. rewrite lookup_empty in H.
        discriminate.
  - vm_compute. reflexivity.
Defined.

Lemma paused_bot_ignores_ticks_witness :
  BotExecutor.getBot "bot1"
    (BotExecutor.activeBots
       (BotExecutor.handleTickUpdate Props.sqrt_floor "cat"
          {| BotExecutor.t_symbol := "R_100"; BotExecutor.quote := 10;
             BotExecutor.epoch := 0 |} 0
          (BotExecutor.pauseBot "bot1" Scenario.executor0))) =
    Some (BotExecutor.set_isRunning false Scenario.bot1Data) /\
  BotExecutor.getBot "bot1"
    (BotExecutor.activeBots
       (BotExecutor.resumeBot "bot1"
          (BotExecutor.handleTickUpdate Props.sqrt_floor "cat"
             {| BotExecutor.t_symbol := "R_100"; BotExecutor.quote := 10;
                BotExecutor.epoch := 0 |} 0
             (BotExecutor.pauseBot "bot1" Scenario.executor0)))) =
    Some Scenario.bot1Data.
Proof.
  apply (paused_bot_ignores_ticks Props.sqrt_floor Scenario.executor0 "bot1"
           Scenario.bot1Data).
  - vm_compute. reflexivity.
  - reflexivity.
Defined.

Lemma consistency_is_kept_witness :
  Props.executor_consistent Scenario.inTrade /\
  Props.executor_consistent
    (BotExecutor.stopBot "bot1"
       (default Scenario.inTrade
          (BotExecutor.run Props.sqrt_floor Scenario.inTrade
             [Scenario.tickAt 20;
              BotExecutor.ContractUpdate "cat" (Scenario.lostContract 90 10);
              Scenario.tickAt 21]))).
Proof.
  assert (H : Props.executor_consistent Scenario.inTrade).
  { eapply (one_bot_consistent Scenario.inTrade); vm_compute; reflexivity. }
  split; [exact H|].
  apply (consistency_is_kept Props.sqrt_floor
           [Scenario.tickAt 20;
            BotExecutor.ContractUpdate "cat" (Scenario.lostContract 90 10);
            Scenario.tickAt 21]
           Scenario.inTrade).
  - exact H.
  - vm_compute. reflexivity.
Defined.

Lemma settlement_counted_once_witness :
  let settled :=
    BotExecutor.handleContractUpdate "cat" (Scenario.lostContract 90 10) Scenario.inTrade in
  option_map BotExecutor.dailyLoss
             (BotExecutor.getBot "bot1" (BotExecutor.activeBots settled)) = Some (0 + 10) /\
  BotExecutor.activeBots
    (BotExecutor.handleContractUpdate "cat" (Scenario.lostContract 90 10) settled) =
  BotExecutor.activeBots settled.
Proof.
  split; [vm_compute; reflexivity|].
  apply (settlement_counted_once "cat" (Scenario.lostContract 90 10) Scenario.inTrade).
  eapply (one_bot_consistent Scenario.inTrade); vm_compute; reflexivity.
Defined.

Lemma second_confirmation_overwrites_witness :
  let st2 :=
    BotExecutor.handleBuyConfirmation "cat" (Some 91%Z) (Some 19) Scenario.inTrade in
  map Store.contractId (BotExecutor.trades st2) = [Some 91%Z] /\
  BotExecutor.handleContractUpdate "cat" (Scenario.lostContract 90 10) st2 = st2.
Proof.
  destruct (second_confirmation_overwrites "cat" "bot1"
              (default Scenario.bot1Data
                 (BotExecutor.getBot "bot1"
                    (BotExecutor.activeBots Scenario.awaitingConfirmation)))
              0 90 91 (Some 19) (Some 19) (Scenario.lostContract 90 10)
              Scenario.awaitingConfirmation) as (_ & _ & H).
  - vm_compute. reflexivity.
  - vm_compute. reflexivity.
  - assert (E : map Store.contractId (BotExecutor.trades Scenario.awaitingConfirmation) =
                [None]) by (vm_compute; reflexivity).
    apply List.Forall_forall. intros t Hin.
    apply (in_map Store.contractId) in Hin. rewrite E in Hin.
    destruct Hin as [<-|[]]. discriminate.
  - discriminate.
  - reflexivity.
  - split; [vm_compute; reflexivity | exact H].
Defined.

Lemma stopBot_drops_shared_subscription_witness :
  option_map BotExecutor.isRunning
    (BotExecutor.getBot "bot2"
       (BotExecutor.activeBots (BotExecutor.stopBot "bot1" Scenario.twoBots))) = Some true /\
  option_map Session.subscriptions
    (Session.connections (BotExecutor.wsm Scenario.twoBots) !! "cat") =
    Some ["ticks_R_100"] /\
  option_map Session.subscriptions
    (Session.connections (BotExecutor.wsm (BotExecutor.stopBot "bot1" Scenario.twoBots))
       !! "cat") = Some [].
Proof.
  destruct (stopBot_drops_shared_subscription "bot1" "bot2" Scenario.bot1Data
              (default Scenario.bot1Data
                 (BotExecutor.getBot "bot2" (BotExecutor.activeBots Scenario.twoBots)))
              (default (Scenario.sessionOn 0)
                 (Session.connections (BotExecutor.wsm Scenario.twoBots) !! "cat"))
              Scenario.twoBots) as (H & _ & _).
  - vm_compute. reflexivity.
  - discriminate.
  - vm_compute. reflexivity.
  - reflexivity.
  - reflexivity.
  - vm_compute. reflexivity.
  - split; [rewrite H; vm_compute; reflexivity|].
    split; vm_compute; reflexivity.
Defined.

(** ** Bot runtime: the performance figures *)

Section PerformanceFacts.

Import BotExecutor Props.

Lemma updateBotPerformance_consistent (s : string) (pl : Q) (p : Performance) :
  figures_consistent p -> figures_consistent (updateBotPerformance s pl p).
Proof.
  intros (Hc & Hw & Hl). unfold figures_consistent, updateBotPerformance.
  destruct (String.eqb s "won"); [|destruct (String.eqb s "lost")]; cbn.
  - destruct (Z.ltb_spec 0 (currentStreak p));
      match goal with |- context [(?a <? ?b)%Z] => destruct (Z.ltb_spec a b) end; lia.
  - destruct (Z.ltb_spec (currentStreak p) 0);
      match goal with |- context [(?a <? ?b)%Z] => destruct (Z.ltb_spec a b) end; lia.
  - lia.
Qed.

Lemma updateBotPerformance_counts (s : string) (pl : Q) (p : Performance) :
  totalTrades (updateBotPerformance s pl p) = S (totalTrades p) /\
  (winningTrades (updateBotPerformance s pl p) + losingTrades (updateBotPerformance s pl p)
   = winningTrades p + losingTrades p
     + (if String.eqb s "won" || String.eqb s "lost" then 1 else 0))%nat /\
  netProfitLoss (updateBotPerformance s pl p) =
    totalProfit (updateBotPerformance s pl p) - totalLoss (updateBotPerformance s pl p).
Proof.
  unfold updateBotPerformance.
  destruct (String.eqb s "won"); [|destruct (String.eqb s "lost")]; cbn;
    repeat split; lia.
Qed.

(** After any sequence of settlements: every settlement counts as a trade,
    the settlements closed as won or lost are the wins and the losses
    (a trade sold under another status is neither), the net figure is the
    profit total less the loss total, and the longest streaks are at least
    the running streak. *)
Theorem performance_figures_add_up (settlements : list (string * Q)) :
  forall p,
    figures_consistent p ->
    let p' := settleAll settlements p in
    figures_consistent p' /\
    totalTrades p' = (totalTrades p + length settlements)%nat /\
    (winningTrades p' + losingTrades p' =
       winningTrades p + losingTrades p + closed_won_or_lost settlements)%nat /\
    (settlements <> [] -> netProfitLoss p' = totalProfit p' - totalLoss p').
Proof.
  unfold settleAll, closed_won_or_lost.
  induction settlements as [|[s pl] rest IH]; intros p Hp; cbn [fold_left fst snd].
  - cbn. repeat split; try lia; [apply Hp | apply Hp | apply Hp | congruence].
  - destruct (updateBotPerformance_counts s pl p) as (Ht & Hwl & Hnet).
    destruct (IH (updateBotPerformance s pl p) (updateBotPerformance_consistent s pl p Hp))
      as (H1 & H2 & H3 & H4).
    split; [exact H1|]. split; [rewrite H2, Ht; cbn; lia|]. split.
    + rewrite H3, Hwl. cbn [List.filter fst]. destruct (String.eqb s "won" || String.eqb s "lost");
        cbn; lia.
    + intros _. destruct rest as [|r rest']; [exact Hnet | apply H4; discriminate].
Qed.

End PerformanceFacts.

Lemma performance_figures_add_up_witness :
  let p' := Props.settleAll [("won", 5); ("sold", 1); ("lost", - (3)); ("lost", - (2))]
                            Scenario.noTrades in
  BotExecutor.totalTrades p' = 4%nat /\
  (BotExecutor.winningTrades p' + BotExecutor.losingTrades p' = 3)%nat /\
  BotExecutor.currentStreak p' = (-2)%Z /\
  Props.figures_consistent p'.
Proof.
  destruct (performance_figures_add_up
              [("won", 5); ("sold", 1); ("lost", - (3)); ("lost", - (2))]
              Scenario.noTrades) as (H & _).
  - unfold Props.figures_consistent. cbn. lia.
  - repeat split; try (vm_compute; reflexivity); apply H.
Defined.

(** ** Session manager: queue, ping, disconnect, shutdown *)

Section SessionExtras.

Import Session Props.

(** *** The flush of the queue on a transport that is not open *)

(** An authorize response for a user whose session has a queued message
    and a transport that is not open: the session is marked authenticated
    and the flush of the queue does not end, since every message it takes
    off the queue is put back by [send].  [handleMessage] does not
    return. *)
Theorem authorize_on_closed_transport_never_returns (uid : string) (message v : JSON)
        (now : Z) (st : State) (c : connectionData) :
  connections st !! uid = Some c ->
  messageQueue c <> [] ->
  socket_open st c = false ->
  present "authorize" message = Some v ->
  (forall fuel, drain fuel uid (authorized uid v st) = None) /\
  processMessageQueue uid (authorized uid v st) = None /\
  handleMessage uid message now st = None.
Proof.
  intros Hc Hq Hopen Hv.
  assert (Hc' : connections (authorized uid v st) !! uid = Some (set_authenticated c)).
  { cbn. rewrite lookup_alter_eq, Hc. reflexivity. }
  assert (Hspin : forall fuel, drain fuel uid (authorized uid v st) = None).
  { intros fuel. apply (drain_spins uid fuel _ (set_authenticated c)); try assumption.
    reflexivity. }
  assert (Hp : processMessageQueue uid (authorized uid v st) = None).
  { unfold processMessageQueue. rewrite Hc'. cbn [isAuthenticated set_authenticated negb].
    apply Hspin. }
  split; [exact Hspin|]. split; [exact Hp|].
  unfold handleMessage. rewrite Hc.
  assert (Ha : on_authorize uid message st = None).
  { unfold on_authorize. rewrite Hv. fold (authorized uid v st). rewrite Hp. reflexivity. }
  pose proof (present_not_null _ _ _ Hv) as Hnn.
  destruct message; try contradiction; rewrite Ha; reflexivity.
Qed.

(** *** Ping frames *)

Lemma emit_if_state (uid key : string) mk (message : JSON) (st : State) :
  connections (emit_if uid key mk message st) = connections st /\
  sockets (emit_if uid key mk message st) = sockets st.
Proof. unfold emit_if. destruct (present key message); split; reflexivity. Qed.

(** A frame with a ping key, received for an authenticated session on an
    open transport, is answered: the manager writes a ping request to the
    transport and takes the time of arrival as the time of the last ping. *)
Theorem ping_frame_is_answered_with_ping (uid : string) (message v : JSON) (now : Z)
        (st : State) (c : connectionData) (s : Socket) :
  connections st !! uid = Some c ->
  isAuthenticated c = true ->
  sockets st !! ws c = Some s ->
  readyState s = OPEN ->
  present "ping" message = Some v ->
  present "authorize" message = None ->
  exists st' s',
    handleMessage uid message now st = Some st' /\
    connections st' !! uid = Some (set_lastPing now c) /\
    sockets st' !! ws c = Some s' /\
    wire s' = wire s ++ [MsgPing] /\
    readyState s' = OPEN.
Proof.
  intros Hc Hauth Hs Hopen Hping Hna.
  pose proof (present_not_null _ _ _ Hping) as Hnn.
  unfold handleMessage. rewrite Hc.
  assert (Ha : on_authorize uid message st = Some st)
    by (unfold on_authorize; rewrite Hna; reflexivity).
  set (st9 := emit_if uid "error" EvApiError message
               (emit_if uid "proposal_open_contract" EvContractUpdate message
               (emit_if uid "buy" EvBuy message
               (emit_if uid "proposal" EvProposal message
               (emit_if uid "tick" EvTick message
               (emit_if uid "statement" EvStatement message
               (emit_if uid "portfolio" EvPortfolio message
               (emit_if uid "balance" EvBalance message st)))))))).
  assert (H9 : connections st9 = connections st /\ sockets st9 = sockets st).
  { unfold st9. split.
    - repeat (etransitivity; [apply emit_if_state|]). reflexivity.
    - repeat (etransitivity; [apply emit_if_state|]). reflexivity. }
  destruct H9 as [Hc9 Hs9].
  assert (Hp : on_ping uid message now st9 =
               with_connections (alter (set_lastPing now) uid)
                 (with_sockets (alter (write MsgPing) (ws c)) st9)).
  { unfold on_ping. rewrite Hping. unfold send. rewrite Hc9, Hc, Hauth. cbn [negb andb].
    unfold socket_open. rewrite Hs9, Hs, Hopen. reflexivity. }
  exists (on_ping uid message now st9), (write MsgPing s).
  split; [destruct message; try contradiction; rewrite Ha; reflexivity|].
  rewrite Hp. cbn [connections sockets with_connections with_sockets].
  rewrite Hc9, Hs9, lookup_alter_eq, Hc, list_lookup_alter_eq, Hs.
  repeat split. exact Hopen.
Qed.

(** *** A deliberate disconnect *)

Lemma disconnect_effect (uid : string) (st : State) :
  connections (disconnect uid st) = delete uid (connections st) /\
  timers (disconnect uid st) = timers st /\
  emitted (disconnect uid st) = emitted st /\
  (forall c, connections st !! uid = Some c ->
             reconnectAttempts (disconnect uid st) !! uid = None) /\
  forall i s, sockets st !! i = Some s ->
              exists s', sockets (disconnect uid st) !! i = Some s' /\ owner s' = owner s.
Proof.
  unfold disconnect. destruct (connections st !! uid) as [c|] eqn:Hc.
  - destruct (socket_open st c); cbn; repeat split;
      try (intros; apply lookup_delete_eq).
    + intros i s Hi. destruct (decide (ws c = i)) as [->|Hne].
      * rewrite list_lookup_alter_eq, Hi. cbn. eauto.
      * rewrite list_lookup_alter_ne by exact Hne. eauto.
    + intros i s Hi. eauto.
  - repeat split; [symmetry; apply delete_id, Hc | discriminate | eauto].
Qed.

(** After [disconnect] the user has no session.  The close event of the
    transport then still runs [handleDisconnect]: it starts the reconnect
    counter of the user again and sets a timer; when the timer fires there
    is no session to reconnect, and the counter stays. *)
Theorem disconnect_is_final (uid : string) (st : State) (c : connectionData)
        (s : Socket) (now : Z) :
  connections st !! uid = Some c ->
  sockets st !! ws c = Some s ->
  owner s = uid ->
  isConnected uid (disconnect uid st) = false /\
  exists st1 st2,
    step (disconnect uid st) (SocketClose (ws c)) = Some st1 /\
    connections st1 !! uid = None /\
    reconnectAttempts st1 !! uid = Some 1%nat /\
    timers st1 = timers st ++ [(uid, 3000%Z)] /\
    step st1 (TimerFires (length (timers st)) now) = Some st2 /\
    connections st2 !! uid = None /\
    reconnectAttempts st2 !! uid = Some 1%nat /\
    timers st2 = timers st /\
    length (sockets st2) = length (sockets st).
Proof.
  intros Hc Hs Hown.
  destruct (disconnect_effect uid st) as (Hconn & Htim & _ & Hatt & Hsock).
  specialize (Hatt c Hc). destruct (Hsock _ _ Hs) as (s' & Hs' & Hown').
  assert (Hnone : connections (disconnect uid st) !! uid = None)
    by (rewrite Hconn; apply lookup_delete_eq).
  split; [unfold isConnected; rewrite Hnone; reflexivity|].
  set (st0 := with_sockets (alter (set_readyState CLOSED) (ws c)) (disconnect uid st)).
  destruct (handleDisconnect_below_ceiling uid st0 0) as (Ht & Ha & Hcn & _).
  { cbn. rewrite Hatt. reflexivity. }
  { unfold maxReconnectAttempts. lia. }
  exists (handleDisconnect uid st0).
  exists (with_timers (delete (length (timers st))) (handleDisconnect uid st0)).
  assert (Ht' : timers (handleDisconnect uid st0) = timers st ++ [(uid, 3000%Z)]).
  { rewrite Ht. cbn. rewrite Htim. reflexivity. }
  split; [cbn [step]; rewrite Hs', Hown', Hown; reflexivity|].
  split; [rewrite Hcn; exact Hnone|].
  split; [exact Ha|]. split; [exact Ht'|].
  split.
  - cbn [step]. rewrite Ht'.
    rewrite (list_lookup_middle (timers st) [] (uid, 3000%Z) (length (timers st)) eq_refl).
    unfold reconnectTimer. cbn [connections with_timers]. rewrite Hcn.
    change (connections st0) with (connections (disconnect uid st)). rewrite Hnone.
    reflexivity.
  - cbn [connections reconnectAttempts timers sockets with_timers].
    split; [rewrite Hcn; exact Hnone|]. split; [exact Ha|]. split.
    + rewrite Ht'. rewrite (delete_middle (timers st) [] (uid, 3000%Z)).
      apply app_nil_r.
    + unfold handleDisconnect.
      match goal with |- context [if ?b then _ else _] => destruct b end;
        cbn; unfold st0; cbn [sockets with_sockets]; rewrite length_alter;
        apply disconnect_sockets_length.
Qed.

(** *** Shutdown *)

Lemma lookup_disconnect_all (l : list string) :
  forall (st : State) (k : string),
    connections (fold_left (fun s uid => disconnect uid s) l st) !! k =
    if bool_decide (k ∈ l) then None else connections st !! k.
Proof.
  induction l as [|k0 l IH]; intros st k; cbn [fold_left]; [reflexivity|].
  rewrite IH. destruct (disconnect_effect k0 st) as (H & _). rewrite H.
  destruct (bool_decide (k ∈ l)) eqn:E.
  - apply bool_decide_eq_true in E.
    rewrite bool_decide_eq_true_2 by (apply list_elem_of_further, E). reflexivity.
  - apply bool_decide_eq_false in E. destruct (decide (k0 = k)) as [->|Hne].
    + rewrite lookup_delete_eq, bool_decide_eq_true_2 by apply list_elem_of_here.
      reflexivity.
    + rewrite lookup_delete_ne by exact Hne. rewrite bool_decide_eq_false_2; [reflexivity|].
      intros Hin. apply elem_of_cons in Hin as [->|Hin]; [congruence | contradiction].
Qed.

Lemma disconnect_all_rest (l : list string) :
  forall st : State,
    timers (fold_left (fun s uid => disconnect uid s) l st) = timers st /\
    emitted (fold_left (fun s uid => disconnect uid s) l st) = emitted st /\
    length (sockets (fold_left (fun s uid => disconnect uid s) l st)) = length (sockets st).
Proof.
  induction l as [|k l IH]; intros st; [repeat split|]. cbn [fold_left].
  destruct (IH (disconnect k st)) as (H1 & H2 & H3).
  destruct (disconnect_effect k st) as (_ & Ht & He & _).
  rewrite H1, H2, H3, Ht, He, disconnect_sockets_length. repeat split.
Qed.

(** [closeAll] leaves no session: no user is connected afterwards and the
    count of active connections is [0]; no transport is created or
    removed, no timer is set and no event is emitted. *)
Theorem closeAll_leaves_no_session (st : State) :
  connections (closeAll st) = ∅ /\
  (forall uid, isConnected uid (closeAll st) = false) /\
  getActiveConnectionCount (closeAll st) = 0%nat /\
  length (sockets (closeAll st)) = length (sockets st) /\
  timers (closeAll st) = timers st /\
  emitted (closeAll st) = emitted st.
Proof.
  assert (H : connections (closeAll st) = ∅).
  { unfold closeAll. apply map_eq. intros k.
    rewrite lookup_disconnect_all, lookup_empty.
    destruct (bool_decide (k ∈ map fst (map_to_list (connections st)))) eqn:E;
      [reflexivity|].
    apply bool_decide_eq_false in E.
    destruct (connections st !! k) as [c|] eqn:Hk; [|reflexivity].
    exfalso. apply E. apply list_elem_of_fmap. exists (k, c).
    split; [reflexivity | apply elem_of_map_to_list, Hk]. }
  split; [exact H|]. split; [|split].
  - intros uid. unfold isConnected. rewrite H, lookup_empty. reflexivity.
  - unfold getActiveConnectionCount. rewrite H, map_to_list_empty. reflexivity.
  - destruct (disconnect_all_rest (map fst (map_to_list (connections st))) st)
      as (H1 & H2 & H3).
    unfold closeAll. repeat split; assumption.
Qed.

End SessionExtras.

Lemma authorize_on_closed_transport_never_returns_witness :
  option_map Session.messageQueue
    (Session.connections Scenario.secondConnect !! "cat") =
    Some [Session.MsgTicks "R_100"] /\
  Session.run Scenario.secondConnect
    [Session.SocketMessage 0 Scenario.authorizeResponse 2] = None.
Proof.
  split; [vm_compute; reflexivity|].
  assert (H : Session.handleMessage "cat" Scenario.authorizeResponse 2
                Scenario.secondConnect = None).
  { apply (authorize_on_closed_transport_never_returns "cat" Scenario.authorizeResponse
             (Session.JObj [("loginid", Session.JStr "CR1")]) 2 Scenario.secondConnect
             (default (Scenario.sessionOn 0)
                (Session.connections Scenario.secondConnect !! "cat"))).
    - vm_compute. reflexivity.
    - vm_compute. discriminate.
    - vm_compute. reflexivity.
    - vm_compute. reflexivity. }
  cbn [Session.run Session.step].
  assert (E : Session.sockets Scenario.secondConnect !! 0%nat =
              Some {| Session.readyState := Session.CLOSING; Session.owner := "cat";
                      Session.ownerToken := "token";
                      Session.wire := [Session.MsgAuthorize "token"] |})
    by (vm_compute; reflexivity).
  rewrite E. cbn [Session.owner]. rewrite H. reflexivity.
Defined.

Lemma ping_frame_is_answered_with_ping_witness :
  exists st' s',
    Session.handleMessage "cat"
      (Session.JObj [("ping", Session.JStr "pong"); ("msg_type", Session.JStr "ping")])
      7 (Scenario.online "cat") = Some st' /\
    Session.sockets st' !! 0%nat = Some s' /\
    Session.wire s' =
      [Session.MsgAuthorize "token"; Session.MsgBalance; Session.MsgPortfolio;
       Session.MsgStatement 50; Session.MsgPing].
Proof.
  destruct (ping_frame_is_answered_with_ping "cat"
              (Session.JObj [("ping", Session.JStr "pong");
                             ("msg_type", Session.JStr "ping")])
              (Session.JStr "pong") 7 (Scenario.online "cat")
              (default (Scenario.sessionOn 0)
                 (Session.connections (Scenario.online "cat") !! "cat"))
              (default Scenario.subscribedSocket
                 (Session.sockets (Scenario.online "cat") !! 0%nat)))
    as (st' & s' & H & _ & Hs & Hw & _).
  - vm_compute. reflexivity.
  - vm_compute. reflexivity.
  - vm_compute. reflexivity.
  - vm_compute. reflexivity.
  - vm_compute. reflexivity.
  - vm_compute. reflexivity.
  - exists st', s'. split; [exact H|]. split; [exact Hs|]. rewrite Hw.
    vm_compute. reflexivity.
Defined.

Lemma disconnect_is_final_witness :
  Session.isConnected "cat" (Scenario.online "cat") = true /\
  Session.isConnected "cat" (Session.disconnect "cat" (Scenario.online "cat")) = false.
Proof.
  split; [vm_compute; reflexivity|].
  apply (disconnect_is_final "cat" (Scenario.online "cat")
           (default (Scenario.sessionOn 0)
              (Session.connections (Scenario.online "cat") !! "cat"))
           (default Scenario.subscribedSocket
              (Session.sockets (Scenario.online "cat") !! 0%nat))
           0).
  - vm_compute. reflexivity.
  - vm_compute. reflexivity.
  - vm_compute. reflexivity.
Defined.

(** ** Copy trading: the registry, the copies, the endpoints *)

Section CopyTradeExtras.

Import Store CopyTradeService Props.

(** *** Every copy has passed the checks *)

Lemma with_copies_In env leader originalTrade (gs : list string) :
  forall ts t,
    In t (with_copies env leader originalTrade gs ts) ->
    In t ts \/
    exists g, In g gs /\ userId t = g /\
              stake t = copy_stake env originalTrade g /\
              isCopyTrade t = true /\
              copyTradeFrom t = Some (u_id leader).
Proof.
  unfold with_copies. induction gs as [|g gs IH]; intros ts t Hin; cbn in Hin; [tauto|].
  destruct (IH _ t Hin) as [Hold|(g' & Hg' & H)].
  - apply in_app_or in Hold as [Hold|[<-|[]]]; [tauto|].
    right. exists g. cbn. repeat split; tauto.
  - right. exists g'. cbn. tauto.
Qed.

Lemma replicateLoop_no_leader env originalTrade (fs : list string) :
  forall st, trades (replicateLoop env None originalTrade fs st) = trades st.
Proof.
  unfold replicateLoop. induction fs as [|f fs IH]; intros st; [reflexivity|].
  cbn [fold_left]. rewrite IH. unfold copyTradeToFollower.
  destruct (findUser env f) as [[follower|]|]; try reflexivity.
  destruct (negb (enabled (copyTradeSettings follower))); reflexivity.
Qed.

(** [replicateTrade] adds no record but copies that have passed every
    check: the copy is for a registered follower whose record has copy
    trading on and lists the leader, who is below the daily-loss ceiling
    and connected, and the stake of the copy is within the follower's
    balance. *)
Theorem every_copy_is_checked env (leaderId : string) (cid : option Z) (st : State)
        (t : Trade) :
  In t (trades (replicateTrade env leaderId cid st)) ->
  In t (trades st) \/ copy_checked env leaderId st t.
Proof.
  unfold replicateTrade.
  destruct (followers st !! leaderId) as [fs|] eqn:Hfs; [|tauto].
  destruct (length fs =? 0)%nat; [tauto|].
  destruct (findTradeRejects env); [tauto|].
  destruct (findOne _ (trades st)) as [originalTrade|]; [|tauto].
  destruct (findUser env leaderId) as [[leader|]|] eqn:Hleader; [| |tauto].
  - destruct (replicateLoop_trades env leader originalTrade fs st) as [_ ->].
    intros Hin. destruct (with_copies_In _ _ _ _ _ _ Hin)
      as [?|(g & Hg & Hu & Hstake & Hcopy & Hfrom)]; [tauto|].
    right. apply filter_In in Hg as [Hg Htakes]. unfold takes_copy in Htakes.
    unfold copy_stake in Hstake.
    destruct (findUser env g) as [[follower|]|] eqn:Hfollower; try discriminate.
    repeat (apply andb_prop in Htakes as [Htakes ?]).
    exists follower, leader, fs. rewrite Hu, Hfollower.
    repeat split; try assumption.
    + eapply bool_decide_eq_true; eassumption.
    + apply negb_true_iff. assumption.
    + rewrite Hstake. apply ltb_ge. apply negb_true_iff. assumption.
  - rewrite replicateLoop_no_leader. tauto.
Qed.

(** *** A follower who has left the leader *)

Lemma copyTradeToFollower_followers env (g : string) leader originalTrade (s : State) :
  followers (fst (copyTradeToFollower env g (Some leader) originalTrade s)) = followers s \/
  fst (copyTradeToFollower env g (Some leader) originalTrade s) =
    unregisterFollower g (u_id leader) s.
Proof.
  unfold copyTradeToFollower.
  destruct (findUser env g) as [[follower|]|]; try (left; reflexivity).
  destruct (negb (enabled (copyTradeSettings follower))); [left; reflexivity|].
  destruct (negb (bool_decide (u_id leader ∈ following follower))); [right; reflexivity|].
  destruct (reachedMaxDailyLoss follower _); [left; reflexivity|].
  destruct (negb (Session.isConnected g (wsm s))); [left; reflexivity|].
  destruct (JS.ltb _ _); [left; reflexivity|].
  destruct (createRejects env g); left; reflexivity.
Qed.

Lemma unregisterFollower_lookup (g l : string) (s : State) (set : list string) :
  followers s !! l = Some set ->
  followers (unregisterFollower g l s) !! l = Some (Session.set_delete g set).
Proof.
  intros H. unfold unregisterFollower. rewrite H. cbn. apply lookup_insert_eq.
Qed.

(** One turn of the loop keeps the set of the leader, or takes the
    follower of the turn off it. *)
Lemma copyTradeToFollower_set env (g : string) leader originalTrade (s : State)
      (set : list string) :
  followers s !! u_id leader = Some set ->
  exists set',
    followers (fst (copyTradeToFollower env g (Some leader) originalTrade s)) !! u_id leader
      = Some set' /\
    forall x, x ∈ set' -> x ∈ set.
Proof.
  intros H. destruct (copyTradeToFollower_followers env g leader originalTrade s) as [E|E];
    rewrite E.
  - eauto.
  - rewrite (unregisterFollower_lookup _ _ _ _ H). eexists. split; [reflexivity|].
    intros x Hx. apply list_elem_of_filter in Hx. tauto.
Qed.

Lemma replicateLoop_set env leader originalTrade (gs : list string) :
  forall (s : State) (set : list string),
    followers s !! u_id leader = Some set ->
    exists set',
      followers (replicateLoop env (Some leader) originalTrade gs s) !! u_id leader
        = Some set' /\
      forall x, x ∈ set' -> x ∈ set.
Proof.
  unfold replicateLoop. induction gs as [|g gs IH]; intros s set H; cbn [fold_left]; [eauto|].
  destruct (copyTradeToFollower_set env g leader originalTrade s set H) as (set1 & H1 & Hsub).
  destruct (IH _ set1 H1) as (set' & H' & Hsub'). eauto.
Qed.

(** A registered follower whose record no longer lists the leader is
    taken off the leader's set by the next trade of the leader that is
    replicated. *)
Theorem follower_who_left_is_dropped env (leaderId : string) (cid : option Z) (st : State)
        (fs : list string) (originalTrade : Trade) (leader follower : User) (f : string) :
  followers st !! leaderId = Some fs ->
  In f fs ->
  findTradeRejects env = false ->
  findOne (fun t => String.eqb (userId t) leaderId && same_contract (contractId t) cid)
          (trades st) = Some originalTrade ->
  findUser env leaderId = Resolved (Some leader) ->
  u_id leader = leaderId ->
  findUser env f = Resolved (Some follower) ->
  enabled (copyTradeSettings follower) = true ->
  leaderId ∉ following follower ->
  exists set',
    followers (replicateTrade env leaderId cid st) !! leaderId = Some set' /\
    (f ∉ set') /\
    (forall x, x ∈ set' -> x ∈ fs) /\
    forall t, In t (trades (replicateTrade env leaderId cid st)) ->
              userId t = f -> In t (trades st).
Proof.
  intros Hfs Hin Hfind Htrade Hleader Hid Hfollower Hon Hleft.
  unfold replicateTrade. rewrite Hfs.
  destruct fs as [|f0 fs0] eqn:Efs; [destruct Hin|]. rewrite <- Efs in *.
  assert (Hlen : (length fs =? 0)%nat = false) by (rewrite Efs; reflexivity).
  rewrite Hlen, Hfind, Htrade, Hleader. clear Efs Hlen f0 fs0.
  assert (Hcopy : forall t,
             In t (trades (replicateLoop env (Some leader) originalTrade fs st)) ->
             userId t = f -> In t (trades st)).
  { intros t Ht Hu. destruct (replicateLoop_trades env leader originalTrade fs st) as [_ E].
    rewrite E in Ht.
    destruct (with_copies_In _ _ _ _ _ _ Ht) as [?|(g & Hg & Hug & _)]; [assumption|].
    exfalso. apply filter_In in Hg as [_ Htakes]. unfold takes_copy in Htakes.
    rewrite <- Hug, Hu, Hfollower, Hon, Hid in Htakes.
    rewrite bool_decide_eq_false_2 in Htakes by exact Hleft. discriminate. }
  assert (Hgen : forall gs (s : State) (set : list string),
             followers s !! u_id leader = Some set ->
             In f gs ->
             exists set',
               followers (replicateLoop env (Some leader) originalTrade gs s) !! u_id leader
                 = Some set' /\
               (f ∉ set') /\ forall x, x ∈ set' -> x ∈ set).
  { induction gs as [|g gs IH]; intros s set Hs Hg; [destruct Hg|].
    unfold replicateLoop. cbn [fold_left]. fold (replicateLoop env (Some leader) originalTrade gs).
    destruct (decide (g = f)) as [->|Hne].
    - assert (E1 : fst (copyTradeToFollower env f (Some leader) originalTrade s) =
                   unregisterFollower f (u_id leader) s).
      { unfold copyTradeToFollower. rewrite Hfollower, Hon. cbn [negb].
        rewrite Hid. rewrite bool_decide_eq_false_2 by exact Hleft. reflexivity. }
      rewrite E1.
      destruct (replicateLoop_set env leader originalTrade gs _ _
                  (unregisterFollower_lookup f _ s set Hs)) as (set' & H' & Hsub).
      exists set'. split; [exact H'|]. split.
      + intros Hx. apply Hsub in Hx. apply list_elem_of_filter in Hx as [Hx _].
        apply Hx. reflexivity.
      + intros x Hx. apply Hsub in Hx. apply list_elem_of_filter in Hx. tauto.
    - destruct Hg as [->|Hg]; [contradiction|].
      destruct (copyTradeToFollower_set env g leader originalTrade s set Hs)
        as (set1 & H1 & Hsub1).
      destruct (IH _ set1 H1 Hg) as (set' & H' & Hnot & Hsub').
      exists set'. split; [exact H'|]. split; [exact Hnot|]. eauto. }
  rewrite <- Hid in Hfs. destruct (Hgen fs st fs Hfs Hin) as (set' & H' & Hnot & Hsub).
  rewrite Hid in H'. exists set'. repeat split; assumption.
Qed.

End CopyTradeExtras.

(** *** The endpoints *)

Section Endpoints.

Import Store CopyTradeService CopyTradeController Props.

Lemma or_num_truthy (x : option Q) (d : Q) :
  JS.truthy_num d = true -> JS.truthy_num (or_num x d) = true.
Proof.
  intros Hd. unfold or_num. destruct x as [q|]; [|exact Hd].
  destruct (JS.truthy_num q) eqn:E; [exact E | exact Hd].
Qed.

Lemma followLeader_ok (subscribed leaderFound : bool) (leaderId : string) (body : Body)
      (user user1 : User) (svc svc1 : State) :
  followLeader subscribed leaderFound leaderId body user svc = (Ok200, user1, svc1) ->
  (leaderId ∉ following user) /\
  leaderId <> u_id user /\
  user1 =
    with_following (following user ++ [leaderId])
      (with_settings
         {| enabled := true;
            investmentPerTrade := Some (or_num (b_investmentPerTrade body) 10);
            riskPercentage := Some (or_num (b_riskPercentage body) 2);
            maxDailyLoss := Some (or_num (b_maxDailyLoss body) 100) |} user) /\
  svc1 = registerFollower (u_id user) leaderId svc.
Proof.
  unfold followLeader.
  destruct (negb subscribed); [discriminate|].
  destruct (String.eqb_spec leaderId (u_id user)); [discriminate|].
  destruct (negb leaderFound); [discriminate|].
  destruct (bool_decide (leaderId ∈ following user)) eqn:E; [discriminate|].
  apply bool_decide_eq_false in E. intros H. injection H as <- <-. repeat split; assumption.
Qed.

Lemma updateCopyTradeSettings_amount (body : Body) (user : User) :
  (exists a, investmentPerTrade (copyTradeSettings user) = Some a /\
             JS.truthy_num a = true) ->
  exists a, investmentPerTrade (copyTradeSettings (updateCopyTradeSettings body user)) = Some a /\
            JS.truthy_num a = true.
Proof.
  intros (a & Ha & Ht). unfold updateCopyTradeSettings, or_keep. cbn.
  destruct (b_investmentPerTrade body) as [q|]; [|eauto].
  destruct (JS.truthy_num q) eqn:E; eauto.
Qed.

(** A user who has followed a leader through the endpoint has a fixed
    amount per trade that is not [0], whatever the requests sent and
    whatever settings requests follow: the stake of every copy is that
    amount, and neither the risk percentage nor the default of the stake
    policy is used for this user. *)
Theorem endpoints_fix_the_stake (subscribed leaderFound : bool) (leaderId : string)
        (body : Body) (user user1 : User) (svc svc1 : State) (bodies : list Body) :
  followLeader subscribed leaderFound leaderId body user svc = (Ok200, user1, svc1) ->
  exists amount,
    investmentPerTrade (copyTradeSettings (afterSettings bodies user1)) = Some amount /\
    ~ amount == 0 /\
    forall originalStake,
      calculateFollowerStake (afterSettings bodies user1) originalStake = amount.
Proof.
  intros H. apply followLeader_ok in H as (_ & _ & -> & _).
  assert (Hinv : exists a,
             investmentPerTrade (copyTradeSettings (afterSettings bodies
               (with_following (following user ++ [leaderId])
                  (with_settings
                     {| enabled := true;
                        investmentPerTrade := Some (or_num (b_investmentPerTrade body) 10);
                        riskPercentage := Some (or_num (b_riskPercentage body) 2);
                        maxDailyLoss := Some (or_num (b_maxDailyLoss body) 100) |} user))))
             = Some a /\ JS.truthy_num a = true).
  { unfold afterSettings.
    match goal with |- context [fold_left _ bodies ?u] =>
      assert (H0 : exists a, investmentPerTrade (copyTradeSettings u) = Some a /\
                             JS.truthy_num a = true)
        by (eexists; split; [reflexivity | apply or_num_truthy; reflexivity]);
      generalize dependent u
    end.
    induction bodies as [|b bodies IH]; intros u H0; [exact H0|].
    cbn [fold_left]. apply IH. apply updateCopyTradeSettings_amount, H0. }
  destruct Hinv as (a & Ha & Ht). exists a. split; [exact Ha|].
  split; [apply truthy_num_neq, Ht|].
  intros originalStake. unfold calculateFollowerStake. rewrite Ha, Ht. reflexivity.
Qed.

Lemma filter_not_member (x : string) (l : list string) :
  x ∉ l -> filter (fun y => y ≠ x) l = l.
Proof.
  induction l as [|y l IH]; intros H; [reflexivity|].
  rewrite filter_cons. destruct (decide (y ≠ x)) as [Hne|Heq].
  - f_equal. apply IH. intros Hin. apply H. apply list_elem_of_further, Hin.
  - exfalso. apply H. apply dec_stable in Heq. subst. apply list_elem_of_here.
Qed.

(** Following a leader and unfollowing again gives the following list
    back and leaves the user off the leader's set in the registry, but does
    not give the settings back: they are the ones of the follow request,
    and copy trading is left on when the user follows somebody else, off
    otherwise, whatever it was before. *)
Theorem follow_then_unfollow (subscribed leaderFound : bool) (leaderId : string)
        (body : Body) (user user1 : User) (svc svc1 : State) :
  followLeader subscribed leaderFound leaderId body user svc = (Ok200, user1, svc1) ->
  exists user2 svc2 set,
    unfollowLeader leaderId user1 svc1 = (Ok200, user2, svc2) /\
    following user2 = following user /\
    followers svc2 !! leaderId = Some set /\
    (u_id user ∉ set) /\
    getFollowerCount leaderId svc2 =
      length (filter (fun y => y ≠ u_id user) (default [] (followers svc !! leaderId))) /\
    enabled (copyTradeSettings user2) = negb (bool_decide (following user = [])) /\
    investmentPerTrade (copyTradeSettings user2) =
      Some (or_num (b_investmentPerTrade body) 10).
Proof.
  intros H. apply followLeader_ok in H as (Hnot & Hne & -> & ->).
  unfold unfollowLeader. cbn [following with_following with_settings].
  rewrite bool_decide_eq_true_2
    by (apply elem_of_app; right; apply list_elem_of_here).
  cbn [negb].
  assert (Hrest : filter (fun id => id ≠ leaderId) (following user ++ [leaderId]) =
                  following user).
  { rewrite filter_app, (filter_not_member _ _ Hnot), filter_cons.
    destruct (decide (leaderId ≠ leaderId)); [congruence|]. apply app_nil_r. }
  rewrite Hrest.
  set (set0 := default [] (followers svc !! leaderId)).
  assert (Hreg : followers (registerFollower (u_id user) leaderId svc) !! leaderId =
                 Some (Session.set_add (u_id user) set0)).
  { cbn. apply lookup_insert_eq. }
  assert (Hset : filter (fun y => y ≠ u_id user) (Session.set_add (u_id user) set0) =
                 filter (fun y => y ≠ u_id user) set0).
  { unfold Session.set_add. destruct (bool_decide (u_id user ∈ set0)); [reflexivity|].
    rewrite filter_app, filter_cons.
    destruct (decide (u_id user ≠ u_id user)); [congruence|]. apply app_nil_r. }
  eexists _, _, (filter (fun y => y ≠ u_id user) set0).
  split; [reflexivity|].
  assert (Hun : followers (unregisterFollower (u_id user) leaderId
                             (registerFollower (u_id user) leaderId svc)) !! leaderId =
                Some (filter (fun y => y ≠ u_id user) set0)).
  { unfold unregisterFollower. rewrite Hreg. cbn [followers with_followers].
    rewrite lookup_insert_eq. unfold Session.set_delete. rewrite Hset. reflexivity. }
  split; [destruct (following user); reflexivity|].
  split; [exact Hun|]. split.
  - intros Hin. apply list_elem_of_filter in Hin as [Hin _]. apply Hin. reflexivity.
  - split; [unfold getFollowerCount; cbn [u_id with_following with_settings];
            rewrite Hun; reflexivity|].
    destruct (following user); split; reflexivity.
Qed.

End Endpoints.

Lemma every_copy_is_checked_witness :
  let t := snd (Store.create
                  (CopyTradeService.copyTradeDraft "cat"
                     (Scenario.user "leader" false None None 500) Scenario.leaderTrade
                     (Props.copy_stake Scenario.env Scenario.leaderTrade "cat"))
                  (CopyTradeService.trades Scenario.replicator3)) in
  In t (CopyTradeService.trades Scenario.replicator3) \/
  Props.copy_checked Scenario.env "leader" Scenario.replicator3 t.
Proof.
  apply (every_copy_is_checked Scenario.env "leader" (Some 77%Z) Scenario.replicator3).
  vm_compute. right. left. reflexivity.
Defined.

Lemma follower_who_left_is_dropped_witness :
  option_map (fun set => bool_decide ("cat" ∈ set))
    (CopyTradeService.followers Scenario.replicator3 !! "leader") = Some true /\
  exists set',
    CopyTradeService.followers
      (CopyTradeService.replicateTrade Scenario.catLeft "leader" (Some 77%Z)
         Scenario.replicator3) !! "leader" = Some set' /\
    "cat" ∉ set'.
Proof.
  split; [vm_compute; reflexivity|].
  destruct (follower_who_left_is_dropped Scenario.catLeft "leader" (Some 77%Z)
              Scenario.replicator3 ["ann"; "bob"; "cat"] Scenario.leaderTrade
              (Scenario.user "leader" false None None 500)
              (CopyTradeController.with_following []
                 (Scenario.user "cat" true None (Some 5) 1000))
              "cat") as (set' & H & Hnot & _).
  - vm_compute. reflexivity.
  - simpl. tauto.
  - reflexivity.
  - vm_compute. reflexivity.
  - vm_compute. reflexivity.
  - reflexivity.
  - vm_compute. reflexivity.
  - reflexivity.
  - simpl. intros H. apply elem_of_nil in H. exact H.
  - exists set'. split; assumption.
Defined.

Lemma endpoints_fix_the_stake_witness :
  exists amount,
    Store.investmentPerTrade
      (Store.copyTradeSettings
         (Props.afterSettings [Scenario.riskBody]
            (snd (fst (CopyTradeController.followLeader true true "leader"
                         Scenario.followBody Scenario.dan CopyTradeService.init)))))
      = Some amount /\
    ~ amount == 0 /\
    forall originalStake,
      CopyTradeService.calculateFollowerStake
        (Props.afterSettings [Scenario.riskBody]
           (snd (fst (CopyTradeController.followLeader true true "leader"
                        Scenario.followBody Scenario.dan CopyTradeService.init))))
        originalStake = amount.
Proof.
  apply (endpoints_fix_the_stake true true "leader" Scenario.followBody Scenario.dan
           (snd (fst (CopyTradeController.followLeader true true "leader"
                        Scenario.followBody Scenario.dan CopyTradeService.init)))
           CopyTradeService.init
           (snd (CopyTradeController.followLeader true true "leader"
                   Scenario.followBody Scenario.dan CopyTradeService.init))
           [Scenario.riskBody]).
  reflexivity.
Defined.

Lemma follow_then_unfollow_witness :
  exists user2 svc2 set,
    CopyTradeController.unfollowLeader "leader"
      (snd (fst (CopyTradeController.followLeader true true "leader"
                   Scenario.followBody Scenario.dan CopyTradeService.init)))
      (snd (CopyTradeController.followLeader true true "leader"
              Scenario.followBody Scenario.dan CopyTradeService.init))
      = (CopyTradeController.Ok200, user2, svc2) /\
    Store.following user2 = [] /\
    CopyTradeService.followers svc2 !! "leader" = Some set /\
    "dan" ∉ set.
Proof.
  destruct (follow_then_unfollow true true "leader" Scenario.followBody Scenario.dan
              (snd (fst (CopyTradeController.followLeader true true "leader"
                           Scenario.followBody Scenario.dan CopyTradeService.init)))
              CopyTradeService.init
              (snd (CopyTradeController.followLeader true true "leader"
                      Scenario.followBody Scenario.dan CopyTradeService.init)))
    as (user2 & svc2 & set & H1 & H2 & H3 & H4 & _).
  - reflexivity.
  - exists user2, svc2, set. repeat split; assumption.
Defined.
